(** * Brightwheel feed archiver: a shallow embedding of the pagination,
    media-normalisation and dedup-download pipeline

  The development follows [brightwheel_scraper.py].  Python values keep
  their shape: JSON payloads are a tagged union, dictionaries are
  insertion-ordered association lists, the download history is a finite
  set of URLs and the archive tree a finite map from paths to files.
  Side effects (disk, history, clock, log, network, the interrupt signal)
  are threaded through an explicit [World].

  Conventions.
  - A Python [str] is a Rocq [string]; a character is a code point
    below 256.  All text functions are exact on ASCII text.
  - JSON numbers are integers; floating point payload fields are not
    represented.
  - Operations on the local disk succeed unless stated otherwise. *)

From Stdlib Require Import ZArith String Ascii List DecimalString Bool.
From stdpp Require Import gmap strings list fin_maps.

Set Warnings "-register-all".

Local Open Scope string_scope.
Local Open Scope Z_scope.
Local Open Scope stdpp_scope.
Local Open Scope list_scope.

(* ===================================================================== *)
(** * Part I.  Definitions                                                 *)
(* ===================================================================== *)

(** ** Text *)

Module Text.

(** [c in s] for a single character. *)
Fixpoint has_char (c : ascii) (s : string) : bool :=
  match s with
  | EmptyString => false
  | String d t => Ascii.eqb c d || has_char c t
  end.

(** [needle in hay] on strings: substring test. *)
Fixpoint contains (needle hay : string) : bool :=
  String.prefix needle hay ||
  match hay with
  | EmptyString => false
  | String _ t => contains needle t
  end.

(** [s.replace(old, new)] for a non-empty [old]: every occurrence,
    leftmost first, occurrences do not overlap.  [skip] counts the
    characters of a match that are still to be dropped. *)
Fixpoint replace_from (old new : string) (skip : nat) (s : string) : string :=
  match s with
  | EmptyString => EmptyString
  | String c t =>
      match skip with
      | S k => replace_from old new k t
      | O =>
          if String.prefix old s
          then new +:+ replace_from old new (Nat.pred (String.length old)) t
          else String c (replace_from old new O t)
      end
  end.

Definition replace (old new s : string) : string := replace_from old new O s.

(** [s.split(c, 1)]: the text before and after the first [c]. *)
Fixpoint split_first (c : ascii) (s : string) : option (string * string) :=
  match s with
  | EmptyString => None
  | String d t =>
      if Ascii.eqb c d then Some (EmptyString, t)
      else match split_first c t with
           | Some (a, b) => Some (String d a, b)
           | None => None
           end
  end.

(** [s[s.rfind('/') + 1:]], which is [os.path.basename] on POSIX. *)
Fixpoint basename (s : string) : string :=
  match s with
  | EmptyString => EmptyString
  | String _ t => if has_char "/" s then basename t else s
  end.

(** [str(n)] for an integer. *)
Definition str_of_Z (z : Z) : string := NilZero.string_of_int (Z.to_int z).

(** [f"{n:02d}"], the width strftime gives to months, days, hours,
    minutes and seconds. *)
Definition pad2 (z : Z) : string :=
  if z <? 10 then "0" +:+ str_of_Z z else str_of_Z z.

Definition code (c : ascii) : Z := Z.of_N (N_of_ascii c).
Definition chr (z : Z) : ascii := ascii_of_N (Z.to_N z).

Definition is_upper (c : ascii) : bool := (65 <=? code c) && (code c <=? 90).
Definition is_lower (c : ascii) : bool := (97 <=? code c) && (code c <=? 122).
Definition is_digit (c : ascii) : bool := (48 <=? code c) && (code c <=? 57).
Definition is_alpha (c : ascii) : bool := is_upper c || is_lower c.

(** [str.lower] on code points below 256: A-Z, and the accented capitals
    0xC0-0xDE without the multiplication sign 0xD7. *)
Definition lower_char (c : ascii) : ascii :=
  let n := code c in
  if is_upper c then chr (n + 32)
  else if (192 <=? n) && (n <=? 222) && negb (n =? 215) then chr (n + 32)
  else c.

Fixpoint lower (s : string) : string :=
  match s with
  | EmptyString => EmptyString
  | String c t => String (lower_char c) (lower t)
  end.

Definition hex_digit (n : Z) : ascii :=
  if n <? 10 then chr (48 + n) else chr (87 + n).

Definition hex2 (n : Z) : string :=
  String (hex_digit (n / 16)) (String (hex_digit (n `mod` 16)) EmptyString).

Definition hex_value (c : ascii) : option Z :=
  let n := code c in
  if is_digit c then Some (n - 48)
  else if (97 <=? n) && (n <=? 102) then Some (n - 87)
  else if (65 <=? n) && (n <=? 70) then Some (n - 55)
  else None.

Fixpoint concat (l : list string) : string :=
  match l with
  | [] => EmptyString
  | s :: r => s +:+ concat r
  end.

(** [sep.join(l)] *)
Fixpoint join (sep : string) (l : list string) : string :=
  match l with
  | [] => EmptyString
  | [s] => s
  | s :: r => s +:+ sep +:+ join sep r
  end.

End Text.

(** ** JSON values and Python dictionaries *)

Inductive json : Type :=
| JNull
| JBool (b : bool)
| JInt (n : Z)
| JStr (s : string)
| JList (l : list json)
| JDict (d : list (string * json)).

(** A [dict] keeps insertion order; keys are unique. *)
Abbreviation dict := (list (string * json)).

Module Py.

(** [d.get(k)] as an option: [None] when the key is missing. *)
Fixpoint lookup (k : string) (d : dict) : option json :=
  match d with
  | [] => None
  | (k', v) :: r => if String.eqb k k' then Some v else lookup k r
  end.

(** [d.get(k, default)] *)
Definition get (k : string) (default : json) (d : dict) : json :=
  match lookup k d with
  | Some v => v
  | None => default
  end.

(** [d[k] = v]: an existing key keeps its position, a new key goes last. *)
Fixpoint set (k : string) (v : json) (d : dict) : dict :=
  match d with
  | [] => [(k, v)]
  | (k', v') :: r =>
      if String.eqb k k' then (k', v) :: r else (k', v') :: set k v r
  end.

(** Truth value of a JSON value in a condition. *)
Definition truthy (j : json) : bool :=
  match j with
  | JNull => false
  | JBool b => b
  | JInt n => negb (n =? 0)
  | JStr s => negb (String.eqb s "")
  | JList l => match l with [] => false | _ => true end
  | JDict d => match d with [] => false | _ => true end
  end.

Definition is_str_lit (s : string) (j : json) : bool :=
  match j with
  | JStr t => String.eqb s t
  | _ => false
  end.

(** [needle in j] for a string [needle]: substring of a string, element
    of a list, key of a dict; [None] is the TypeError on the rest. *)
Definition contains (needle : string) (j : json) : option bool :=
  match j with
  | JStr s => Some (Text.contains needle s)
  | JList l => Some (existsb (is_str_lit needle) l)
  | JDict d => Some (match lookup needle d with Some _ => true | None => false end)
  | _ => None
  end.

End Py.

(** ** Serialisation: [json.dumps], [repr] and [str] *)

Module Dump.

(** One character of a JSON string literal under [ensure_ascii=True]. *)
Definition escape_char (c : ascii) : string :=
  let n := Text.code c in
  if n =? 34 then "\" +:+ String c EmptyString
  else if n =? 92 then "\\"
  else if n =? 10 then "\n"
  else if n =? 13 then "\r"
  else if n =? 9 then "\t"
  else if n =? 8 then "\b"
  else if n =? 12 then "\f"
  else if (n <? 32) || (126 <? n) then "\u00" +:+ Text.hex2 n
  else String c EmptyString.

Fixpoint escape (s : string) : string :=
  match s with
  | EmptyString => EmptyString
  | String c t => escape_char c +:+ escape t
  end.

Definition quote (s : string) : string :=
  String (Text.chr 34) (escape s) +:+ String (Text.chr 34) EmptyString.

(** [json.dumps(j)] with the default separators. *)
Fixpoint dumps (j : json) : string :=
  match j with
  | JNull => "null"
  | JBool true => "true"
  | JBool false => "false"
  | JInt n => Text.str_of_Z n
  | JStr s => quote s
  | JList l => "[" +:+ Text.join ", " (map dumps l) +:+ "]"
  | JDict d =>
      "{" +:+ Text.join ", "
                (map (fun kv => quote (fst kv) +:+ ": " +:+ dumps (snd kv)) d)
          +:+ "}"
  end.

(** [repr] of a [str]: single quotes unless the text holds a single quote
    and no double quote. *)
Definition repr_char (q : ascii) (c : ascii) : string :=
  let n := Text.code c in
  if Ascii.eqb c q then "\" +:+ String c EmptyString
  else if n =? 92 then "\\"
  else if n =? 10 then "\n"
  else if n =? 13 then "\r"
  else if n =? 9 then "\t"
  else if (n <? 32) || ((127 <=? n) && (n <=? 160)) || (n =? 173)
       then "\x" +:+ Text.hex2 n
  else String c EmptyString.

Fixpoint repr_chars (q : ascii) (s : string) : string :=
  match s with
  | EmptyString => EmptyString
  | String c t => repr_char q c +:+ repr_chars q t
  end.

Definition repr_str (s : string) : string :=
  let q := if Text.has_char (Text.chr 39) s && negb (Text.has_char (Text.chr 34) s)
           then Text.chr 34 else Text.chr 39 in
  String q (repr_chars q s) +:+ String q EmptyString.

Fixpoint repr (j : json) : string :=
  match j with
  | JNull => "None"
  | JBool true => "True"
  | JBool false => "False"
  | JInt n => Text.str_of_Z n
  | JStr s => repr_str s
  | JList l => "[" +:+ Text.join ", " (map repr l) +:+ "]"
  | JDict d =>
      "{" +:+ Text.join ", "
                (map (fun kv => repr_str (fst kv) +:+ ": " +:+ repr (snd kv)) d)
          +:+ "}"
  end.

(** [str(j)], what an f-string field prints. *)
Definition str (j : json) : string :=
  match j with
  | JStr s => s
  | _ => repr j
  end.

End Dump.

(** ** URLs: [urlparse(url).path], [unquote] *)

Module Url.

Definition scheme_char (c : ascii) : bool :=
  Text.is_alpha c || Text.is_digit c || Text.has_char c "+-.".

Fixpoint all_chars (p : ascii -> bool) (s : string) : bool :=
  match s with
  | EmptyString => true
  | String c t => p c && all_chars p t
  end.

(** The scheme test of [urlsplit]: the text before the first colon, when
    it starts with a letter and holds scheme characters only. *)
Definition split_scheme (url : string) : string * string :=
  match Text.split_first ":" url with
  | Some (String c pre, rest) =>
      if Text.is_alpha c && all_chars scheme_char (String c pre)
      then (Text.lower (String c pre), rest)
      else (EmptyString, url)
  | _ => (EmptyString, url)
  end.

(** The text from the first of [/], [?] and [#] on. *)
Fixpoint from_delim (s : string) : string :=
  match s with
  | EmptyString => EmptyString
  | String c t => if Text.has_char c "/?#" then s else from_delim t
  end.

(** [_splitnetloc]: a leading [//] opens the host part. *)
Definition strip_netloc (url : string) : string :=
  match url with
  | String "/" (String "/" t) => from_delim t
  | _ => url
  end.

Definition before (c : ascii) (s : string) : string :=
  match Text.split_first c s with
  | Some (a, _) => a
  | None => s
  end.

(** [_splitparams]: the last path segment ends at its first semicolon. *)
Fixpoint strip_params (s : string) : string :=
  match s with
  | EmptyString => EmptyString
  | String c t => if Text.has_char "/" s then String c (strip_params t) else before ";" s
  end.

Definition uses_params : list string :=
  [""; "ftp"; "hdl"; "prospero"; "http"; "imap"; "https"; "shttp"; "rtsp";
   "rtspu"; "sip"; "sips"; "mms"; "sftp"; "tel"].

(** [urlparse(url).path].  URLs holding control characters, or brackets in
    the host part, are not in the domain of this model. *)
Definition path (url : string) : string :=
  let (scheme, rest) := split_scheme url in
  let rest := before "?" (before "#" (strip_netloc rest)) in
  if existsb (String.eqb scheme) uses_params then strip_params rest else rest.

(** [unquote]: a percent sign followed by two hex digits is the character
    with that code; any other percent sign stays.  Exact for escapes
    below [%80]. *)
Fixpoint unquote (s : string) : string :=
  match s with
  | EmptyString => EmptyString
  | String c r =>
      if Ascii.eqb c "%" then
        match r with
        | String a (String b t) =>
            match Text.hex_value a, Text.hex_value b with
            | Some x, Some y => String (Text.chr (16 * x + y)) (unquote t)
            | _, _ => String c (unquote r)
            end
        | _ => String c (unquote r)
        end
      else String c (unquote r)
  end.

End Url.

(** ** Markup: the tree that the HTML parser hands over *)

Inductive node : Type :=
| Element (name : string) (attrs : list (string * string)) (children : list node)
| TextNode (text : string).

Module Html.

Fixpoint attr (k : string) (attrs : list (string * string)) : option string :=
  match attrs with
  | [] => None
  | (k', v) :: r => if String.eqb k k' then Some v else attr k r
  end.

Definition is_space (c : ascii) : bool :=
  let n := Text.code c in (n =? 32) || ((9 <=? n) && (n <=? 13)).

(** Whitespace-separated words; [cur] is the word being read. *)
Fixpoint words_from (cur : string) (s : string) : list string :=
  match s with
  | EmptyString => if String.eqb cur "" then [] else [cur]
  | String c t =>
      if is_space c
      then (if String.eqb cur "" then [] else [cur]) ++ words_from EmptyString t
      else words_from (cur +:+ String c EmptyString) t
  end.

(** The parser stores [class] as the list of its words. *)
Definition classes (attrs : list (string * string)) : list string :=
  match attr "class" attrs with
  | Some v => words_from EmptyString v
  | None => []
  end.

Definition has_class (c : string) (attrs : list (string * string)) : bool :=
  existsb (String.eqb c) (classes attrs).

(** [soup.find_all(name, class_=cls)] below one node, in document order. *)
Fixpoint find_all (name cls : string) (n : node) : list node :=
  match n with
  | TextNode _ => []
  | Element nm at_ ch =>
      (if String.eqb nm name && has_class cls at_ then [n] else [])
        ++ flat_map (find_all name cls) ch
  end.

Fixpoint first_some {A : Type} (l : list (option A)) : option A :=
  match l with
  | [] => None
  | Some a :: _ => Some a
  | None :: r => first_some r
  end.

(** The selector group [.next-page, .load-more, .pagination a.next] at one
    element; [inside] tells whether an ancestor has class [pagination]. *)
Definition next_page_match (inside : bool) (nm : string)
    (at_ : list (string * string)) : bool :=
  has_class "next-page" at_ || has_class "load-more" at_
    || (inside && String.eqb nm "a" && has_class "next" at_).

(** [select_one] for that selector group: first match in document order. *)
Fixpoint select_next_page (inside : bool) (n : node) : option node :=
  match n with
  | TextNode _ => None
  | Element nm at_ ch =>
      if next_page_match inside nm at_ then Some n
      else first_some
             (map (select_next_page (inside || has_class "pagination" at_)) ch)
  end.

End Html.

(** ** Dates *)

Record datetime : Type := {
  year : Z; month : Z; day : Z;
  hour : Z; minute : Z; second : Z; microsecond : Z
}.

Module Clock.

Definition pad4 (z : Z) : string :=
  (if z <? 1000 then "0" else "") +:+ (if z <? 100 then "0" else "")
    +:+ Text.pad2 z.

Definition pad6 (z : Z) : string :=
  (if z <? 100000 then "0" else "") +:+ (if z <? 10000 then "0" else "")
    +:+ pad4 z.

(** [d.strftime('%Y-%m-%d-%H-%M')]; [%Y] prints the year without padding,
    as the C library of the archive's platform does. *)
Definition strftime_minute (d : datetime) : string :=
  Text.str_of_Z (year d) +:+ "-" +:+ Text.pad2 (month d) +:+ "-"
    +:+ Text.pad2 (day d) +:+ "-" +:+ Text.pad2 (hour d) +:+ "-"
    +:+ Text.pad2 (minute d).

(** [d.strftime('%Y-%m-%d-%H-%M-%S')] *)
Definition strftime_second (d : datetime) : string :=
  strftime_minute d +:+ "-" +:+ Text.pad2 (second d).

(** [d.isoformat()] of a naive datetime. *)
Definition isoformat (d : datetime) : string :=
  pad4 (year d) +:+ "-" +:+ Text.pad2 (month d) +:+ "-" +:+ Text.pad2 (day d)
    +:+ "T" +:+ Text.pad2 (hour d) +:+ ":" +:+ Text.pad2 (minute d) +:+ ":"
    +:+ Text.pad2 (second d)
    +:+ (if microsecond d =? 0 then "" else "." +:+ pad6 (microsecond d)).

End Clock.

(** ** The interpreter and the world *)

(** What one Python process fixes at start-up.  [str_hash] is [hash] on
    text, keyed by the secret of the process (PYTHONHASHSEED); [localtime]
    turns the Unix clock into what [datetime.now()] shows; [fromisoformat]
    is [datetime.fromisoformat], [None] standing for its ValueError. *)
Record Runtime : Type := {
  str_hash : string -> Z;
  localtime : Z -> datetime;
  fromisoformat : string -> option datetime
}.

(** A file of the archive: raw bytes, or the value handed to [json.dump]. *)
Inductive file : Type :=
| Bytes (data : string)
| JsonFile (j : json).

(** What the media server does with one streamed GET.  [FetchRefused]:
    the request or [raise_for_status] raises, or the content length is
    not a number; nothing has been opened.  [FetchBody n chunks complete]:
    the response announces [n] bytes and delivers [chunks]; the stream
    breaks after them unless [complete]. *)
Inductive fetch : Type :=
| FetchRefused
| FetchBody (content_length : Z) (chunks : list string) (complete : bool).

(** What the feed endpoint answers: an error (the request,
    [raise_for_status] or the JSON decoder raises), a body served as
    [application/json], or the tree parsed from any other body. *)
Inductive feed_response : Type :=
| FeedError
| FeedJson (data : json)
| FeedMarkup (doc : list node).

(** [download_history.json]: missing; present but such that [open],
    [json.load] or [set(...)] raises; or a JSON array of URL strings. *)
Inductive history_file : Type :=
| HistoryMissing
| HistoryUnreadable
| HistoryUrls (urls : list string).

(** Log records at WARNING and above. *)
Inductive log_record : Type :=
| LogWarning (msg : string)
| LogError (msg : string).

Inductive request : Type :=
| MediaRequest (url : string)
| FeedRequest (student_id : string) (page : Z).

Record World : Type := {
  w_files : gmap string file;        (* the archive tree *)
  w_history_file : history_file;     (* <archive_root>/download_history.json *)
  w_downloaded : gset string;        (* self.downloaded_files *)
  w_media : string -> fetch;         (* the media server *)
  w_feed : string -> Z -> feed_response;  (* the feed endpoint *)
  w_unix : Z;                        (* int(time.time()); moves in sleep *)
  w_sigint : option nat;             (* blocking calls left before Ctrl-C *)
  w_requests : list request;         (* requests sent so far, oldest first *)
  w_log : list log_record            (* oldest first *)
}.

Definition with_files (f : gmap string file) (w : World) : World :=
  {| w_files := f; w_history_file := w_history_file w;
     w_downloaded := w_downloaded w; w_media := w_media w; w_feed := w_feed w;
     w_unix := w_unix w; w_sigint := w_sigint w; w_requests := w_requests w;
     w_log := w_log w |}.

Definition with_history_file (h : history_file) (w : World) : World :=
  {| w_files := w_files w; w_history_file := h;
     w_downloaded := w_downloaded w; w_media := w_media w; w_feed := w_feed w;
     w_unix := w_unix w; w_sigint := w_sigint w; w_requests := w_requests w;
     w_log := w_log w |}.

Definition with_downloaded (d : gset string) (w : World) : World :=
  {| w_files := w_files w; w_history_file := w_history_file w;
     w_downloaded := d; w_media := w_media w; w_feed := w_feed w;
     w_unix := w_unix w; w_sigint := w_sigint w; w_requests := w_requests w;
     w_log := w_log w |}.

Definition with_unix (t : Z) (w : World) : World :=
  {| w_files := w_files w; w_history_file := w_history_file w;
     w_downloaded := w_downloaded w; w_media := w_media w; w_feed := w_feed w;
     w_unix := t; w_sigint := w_sigint w; w_requests := w_requests w;
     w_log := w_log w |}.

Definition with_sigint (s : option nat) (w : World) : World :=
  {| w_files := w_files w; w_history_file := w_history_file w;
     w_downloaded := w_downloaded w; w_media := w_media w; w_feed := w_feed w;
     w_unix := w_unix w; w_sigint := s; w_requests := w_requests w;
     w_log := w_log w |}.

Definition with_requests (r : list request) (w : World) : World :=
  {| w_files := w_files w; w_history_file := w_history_file w;
     w_downloaded := w_downloaded w; w_media := w_media w; w_feed := w_feed w;
     w_unix := w_unix w; w_sigint := w_sigint w; w_requests := r;
     w_log := w_log w |}.

Definition with_log (l : list log_record) (w : World) : World :=
  {| w_files := w_files w; w_history_file := w_history_file w;
     w_downloaded := w_downloaded w; w_media := w_media w; w_feed := w_feed w;
     w_unix := w_unix w; w_sigint := w_sigint w; w_requests := w_requests w;
     w_log := l |}.

(** ** Effects: state, exceptions, the interrupt *)

Inductive exn : Type :=
| TypeError | AttributeError | ValueError | NameError | IndexError
| OSError | RequestError.

Inductive outcome (A : Type) : Type :=
| Ret (a : A)
| Raise (e : exn)
| Interrupt.

Arguments Ret {A} a.
Arguments Raise {A} e.
Arguments Interrupt {A}.

Definition M (A : Type) : Type := World -> outcome A * World.

Definition ret {A : Type} (a : A) : M A := fun w => (Ret a, w).

Definition raise {A : Type} (e : exn) : M A := fun w => (Raise e, w).

Definition bind {A B : Type} (m : M A) (k : A -> M B) : M B :=
  fun w =>
    match m w with
    | (Ret a, w') => k a w'
    | (Raise e, w') => (Raise e, w')
    | (Interrupt, w') => (Interrupt, w')
    end.

Notation "'let*' x ':=' m 'in' k" := (bind m (fun x => k))
  (at level 10, x name, m at level 100, k at level 200).

Notation "m ';;;' k" := (bind m (fun _ => k))
  (at level 100, k at level 200, right associativity).

(** [try: m except Exception: h]: KeyboardInterrupt is not an Exception
    and passes through; what [m] did before raising stays done. *)
Definition catch {A : Type} (m : M A) (h : exn -> M A) : M A :=
  fun w =>
    match m w with
    | (Raise e, w') => h e w'
    | r => r
    end.

(** A blocking call (a request, a sleep).  Ctrl-C is delivered when the
    countdown is at zero, as KeyboardInterrupt at the start of the call. *)
Definition blocking : M unit :=
  fun w =>
    match w_sigint w with
    | None => (Ret tt, w)
    | Some O => (Interrupt, with_sigint None w)
    | Some (S n) => (Ret tt, with_sigint (Some n) w)
    end.

Definition log (r : log_record) : M unit :=
  fun w => (Ret tt, with_log (w_log w ++ [r]) w).

Definition sent (r : request) : M unit :=
  fun w => (Ret tt, with_requests (w_requests w ++ [r]) w).

(** [open(path, 'w')] followed by the writes: the file holds [f]. *)
Definition write_file (path : string) (f : file) : M unit :=
  fun w => (Ret tt, with_files (<[path := f]> (w_files w)) w).

(** [time.sleep(n)] *)
Definition sleep (n : Z) : M unit :=
  blocking ;;; (fun w => (Ret tt, with_unix (w_unix w + n) w)).

(** [pathlib]: [dir / name] for a relative one-segment [name]. *)
Definition path_join (dir name : string) : string := dir +:+ "/" +:+ name.

Definition ask {A : Type} (f : World -> A) : M A := fun w => (Ret (f w), w).

Fixpoint for_each {A : Type} (f : A -> M unit) (l : list A) : M unit :=
  match l with
  | [] => ret tt
  | a :: r => f a ;;; for_each f r
  end.

Fixpoint map_m {A B : Type} (f : A -> M B) (l : list A) : M (list B) :=
  match l with
  | [] => ret []
  | a :: r => let* b := f a in let* bs := map_m f r in ret (b :: bs)
  end.

(** ** The scraper *)

Module Scraper.

(** An object mutated in place by a block that may raise: the object as
    the block leaves it, and whether it raised. *)
Inductive attempt (A : Type) : Type :=
| Done (a : A)
| Raised (a : A).

Arguments Done {A} a.
Arguments Raised {A} a.

Definition and_then {A : Type} (x : attempt A) (f : A -> attempt A) : attempt A :=
  match x with
  | Done a => f a
  | Raised a => Raised a
  end.

Section Process.

Variable rt : Runtime.

Definition now : M datetime := ask (fun w => localtime rt (w_unix w)).

(** *** Download history *)

Definition _load_download_history : M unit :=
  let* h := ask w_history_file in
  match h with
  | HistoryMissing => ret tt
  | HistoryUrls urls =>
      fun w => (Ret tt, with_downloaded (list_to_set urls) w)
  | HistoryUnreadable => log (LogWarning "Could not load download history")
  end.

(** The constructor: an empty set, then the load. *)
Definition init_download_history : M unit :=
  (fun w => (Ret tt, with_downloaded ∅ w)) ;;; _load_download_history.

Definition _save_download_history : M unit :=
  fun w =>
    (Ret tt, with_history_file (HistoryUrls (elements (w_downloaded w))) w).

(** *** download_media *)

(** Lines 581-596: the local file name, read at Unix time [unix]. *)
Definition timestamped_file_name (unix : Z) (url media_type : string)
    (event_date : option datetime) : string :=
  let base_file_name := Text.basename (Url.unquote (Url.path url)) in
  let base_file_name :=
    if String.eqb base_file_name "" || negb (Text.has_char "." base_file_name)
    then "media_" +:+ Text.str_of_Z unix +:+ "_"
           +:+ Text.str_of_Z (str_hash rt url `mod` 10000) +:+ "." +:+ media_type
    else base_file_name in
  let ts_prefix :=
    Clock.strftime_minute
      (match event_date with
       | Some d => d
       | None => localtime rt unix
       end) in
  ts_prefix +:+ "-" +:+ base_file_name.

Definition mark_downloaded (url : string) : M unit :=
  fun w => (Ret tt, with_downloaded ({[url]} ∪ w_downloaded w) w).

(** Lines 611-642, the body of the [try].  Opening the file creates it
    empty.  A body announced above 1 MiB is written chunk by chunk, so
    that a broken stream leaves the chunks received; a smaller one is
    read whole before the single write.  File modes are not represented:
    [os.chmod] changes nothing here. *)
Definition fetch_to_disk (url name output_path : string) : M (option string) :=
  blocking ;;;
  sent (MediaRequest url) ;;;
  let* response := ask (fun w => w_media w url) in
  match response with
  | FetchRefused => raise RequestError
  | FetchBody total_size chunks complete =>
      write_file output_path (Bytes EmptyString) ;;;
      (if 1024 * 1024 <? total_size
       then write_file output_path (Bytes (Text.concat chunks)) ;;;
            (if complete then ret tt else raise RequestError)
       else if complete
            then write_file output_path (Bytes (Text.concat chunks))
            else raise RequestError) ;;;
      mark_downloaded url ;;;
      _save_download_history ;;;
      log (LogWarning ("Downloaded: " +:+ name)) ;;;
      ret (Some name)
  end.

Definition download_media (url media_type : string)
    (event_date : option datetime) (output_dir : string) : M (option string) :=
  let* unix := ask w_unix in
  let name := timestamped_file_name unix url media_type event_date in
  let output_path := path_join output_dir name in
  let* files := ask w_files in
  let* downloaded := ask w_downloaded in
  match files !! output_path with
  | Some _ => mark_downloaded url ;;; ret (Some name)
  | None =>
      if bool_decide (url ∈ downloaded) then ret (Some name)
      else
        catch (fetch_to_disk url name output_path)
          (fun _ =>
             log (LogError ("Failed to download " +:+ url
                              +:+ " (intended filename: " +:+ name +:+ ")")) ;;;
             ret None)
  end.

(** *** get_feed *)

(** [activity['media'][k] = v] *)
Definition set_media (k : string) (v : json) (activity : dict) : attempt dict :=
  match Py.lookup "media" activity with
  | Some (JDict media) =>
      Done (Py.set "media" (JDict (Py.set k v media)) activity)
  | _ => Raised activity
  end.

(** Lines 439-450: which URL becomes [media.video_url]. *)
Definition choose_video_url (downloadable_url streamable_url : json)
    (activity : dict) : attempt dict :=
  if Py.truthy downloadable_url
  then set_media "video_url" downloadable_url activity
  else if Py.truthy streamable_url
  then match Py.contains "playlist.m3u8" streamable_url with
       | Some true =>
           match streamable_url with
           | JStr s =>
               set_media "video_url"
                 (JStr (Text.replace "playlist.m3u8" "video.mp4" s)) activity
           | _ => Raised activity
           end
       | Some false => set_media "video_url" streamable_url activity
       | None => Raised activity
       end
  else Done activity.

(** Lines 421-454, the body of the per-activity [try]. *)
Definition add_video_urls (activity : dict) : attempt dict :=
  match Py.lookup "video_info" activity with
  | Some (JDict video_info) =>
      if Py.truthy (JDict video_info) then
        let streamable_url := Py.get "streamable_url" JNull video_info in
        let downloadable_url := Py.get "downloadable_url" JNull video_info in
        let thumbnail_url := Py.get "thumbnail_url" JNull video_info in
        if Py.truthy streamable_url || Py.truthy downloadable_url
           || Py.truthy thumbnail_url
        then
          let activity :=
            match Py.get "media" JNull activity with
            | JNull => Py.set "media" (JDict []) activity
            | _ => activity
            end in
          and_then (choose_video_url downloadable_url streamable_url activity)
            (fun activity =>
               if Py.truthy thumbnail_url
               then set_media "video_thumbnail_url" thumbnail_url activity
               else Done activity)
        else Done activity
      else Done activity
  | _ => Done activity
  end.

(** Lines 455-457.  Log records keep the fixed text of a message; the
    text of the exception and indented dumps are left out. *)
Definition video_info_failed : M unit :=
  log (LogError "Error processing video_info") ;;;
  log (LogError "Activity structure").

(** One turn of the loop over the activities.  Anything that is not an
    object either has no [video_info] or raises at [.get]; it is left as
    it is. *)
Definition process_video_info (activity : json) : M json :=
  match activity with
  | JDict a =>
      match add_video_urls a with
      | Done a' => ret (JDict a')
      | Raised a' =>
          video_info_failed ;;; ret (JDict a')
      end
  | JStr s =>
      if Text.contains "video_info" s
      then video_info_failed ;;; ret activity
      else ret activity
  | JList l =>
      if existsb (Py.is_str_lit "video_info") l
      then video_info_failed ;;; ret activity
      else ret activity
  | _ =>
      video_info_failed ;;; ret activity
  end.

(** An integer operand; [True] and [False] count as 1 and 0. *)
Definition int_of (j : json) : option Z :=
  match j with
  | JInt n => Some n
  | JBool b => Some (if b then 1 else 0)
  | _ => None
  end.

(** Line 461, on integer operands.  For any other operand the model
    raises, as the comparison does on [None] and on mixed types. *)
Definition json_has_more (data : dict) : M bool :=
  match int_of (Py.get "count" (JInt 0) data),
        int_of (Py.get "page" (JInt 1) data),
        int_of (Py.get "page_size" (JInt 10) data) with
  | Some count, Some page, Some page_size => ret (page * page_size <? count)
  | _, _, _ => raise TypeError
  end.

(** Lines 415-462: the JSON branch. *)
Definition feed_of_json (data : json) : M (option dict) :=
  match data with
  | JDict d =>
      let activities := Py.get "activities" (JList []) d in
      let* activities :=
        match activities with
        | JList l => let* l' := map_m process_video_info l in ret (JList l')
        | JDict keys =>
            for_each (fun kv => process_video_info (JStr (fst kv)) ;;; ret tt) keys ;;;
            ret activities
        | JStr s =>
            for_each (fun c => process_video_info (JStr (String c EmptyString)) ;;; ret tt)
              (list_ascii_of_string s) ;;;
            ret activities
        | _ => raise TypeError
        end in
      let* has_more := json_has_more d in
      ret (Some [("entries", activities); ("has_more", JBool has_more)])
  | _ => raise AttributeError
  end.

Definition url_open : string := "url(" +:+ String (Text.chr 34) EmptyString.

(** Lines 465-489: the markup branch.  [uuid] is not imported: building
    an entry raises NameError, unless the split of the style raised
    IndexError before. *)
Definition feed_of_markup (doc : list node) : M (option dict) :=
  let video_posters := flat_map (Html.find_all "div" "video-react-poster") doc in
  for_each
    (fun poster =>
       match poster with
       | Element _ attrs _ =>
           let style := default EmptyString (Html.attr "style" attrs) in
           if Text.contains "background-image" style
           then if Text.contains url_open style
                then raise NameError
                else raise IndexError
           else ret tt
       | TextNode _ => ret tt
       end)
    video_posters ;;;
  ret (Some [("entries", JList []); ("has_more", JBool false)]).

(** [get_feed(student_id, page)].  The date range only travels in the
    request and is left out. *)
Definition get_feed (student_id : string) (page : Z) : M (option dict) :=
  catch
    (blocking ;;;
     sent (FeedRequest student_id page) ;;;
     let* response := ask (fun w => w_feed w student_id page) in
     match response with
     | FeedError => raise RequestError
     | FeedJson data => feed_of_json data
     | FeedMarkup doc => feed_of_markup doc
     end)
    (fun _ => log (LogError "Failed to fetch feed") ;;; ret None).

(** Lines 571-574 of [_parse_feed_html]: the [has_more] flag it returns. *)
Definition _parse_feed_html_has_more (doc : list node) : bool :=
  match Html.first_some (map (Html.select_next_page false) doc) with
  | Some _ => true
  | None => false
  end.

(** *** process_feed_entry *)

(** Lines 655-662. *)
Definition parse_event_date (event_date_str entry_id : json) : M (option datetime) :=
  if Py.truthy event_date_str then
    match event_date_str with
    | JStr s =>
        match fromisoformat rt (Text.replace "Z" "+00:00" s) with
        | Some d => ret (Some d)
        | None =>
            log (LogWarning ("Could not parse event_date '" +:+ s
                               +:+ "' for entry " +:+ Dump.str entry_id)) ;;;
            let* d := now in ret (Some d)
        end
    | _ => raise AttributeError
    end
  else ret None.

Definition media_record (filename : string) (media_url : json)
    (media_type url_type : string) : json :=
  JDict [("filename", JStr filename); ("original_url", media_url);
         ("type", JStr media_type); ("url_type", JStr url_type)].

(** One of the four URL fields of [media]: download it when it is set
    and append the record when the download returned a file name. *)
Definition download_field (media : dict) (url_type media_type : string)
    (event_date : option datetime) (output_dir : string)
    (downloaded_media : list json) : M (list json) :=
  let media_url := Py.get url_type JNull media in
  if Py.truthy media_url then
    match media_url with
    | JStr url =>
        let* downloaded_file :=
          download_media url media_type event_date output_dir in
        match downloaded_file with
        | Some f =>
            if String.eqb f "" then ret downloaded_media
            else ret (downloaded_media
                        ++ [media_record f media_url media_type url_type])
        | None => ret downloaded_media
        end
    | _ => raise AttributeError
    end
  else ret downloaded_media.

(** Lines 672-718. *)
Definition download_entry_media (media : json) (event_date : option datetime)
    (child_images_dir child_videos_dir : string) : M (list json) :=
  if Py.truthy media then
    match media with
    | JDict m =>
        let* acc := download_field m "image_url" "image" event_date child_images_dir [] in
        let* acc := download_field m "thumbnail_url" "image" event_date child_images_dir acc in
        let* acc := download_field m "video_thumbnail_url" "image" event_date child_images_dir acc in
        download_field m "video_url" "video" event_date child_videos_dir acc
    | _ => raise AttributeError
    end
  else ret [].

Definition str_field (k fallback : string) (d : dict) : M string :=
  match Py.get k (JStr fallback) d with
  | JStr s => ret s
  | _ => raise AttributeError
  end.

Definition entry_id_of (entry : dict) : json :=
  Py.get "object_id"
    (JStr (Text.str_of_Z (str_hash rt (Dump.dumps (JDict entry)) `mod` 10000)))
    entry.

Definition process_feed_entry (entry : json)
    (child_feeds_dir child_images_dir child_videos_dir : string) : M json :=
  match entry with
  | JDict e =>
      let entry_id := entry_id_of e in
      let* event_date := parse_event_date (Py.get "event_date" JNull e) entry_id in
      let* processed_timestamp := now in
      let* downloaded_media :=
        download_entry_media (Py.get "media" JNull e) event_date
          child_images_dir child_videos_dir in
      let processed_entry :=
        JDict [("id", entry_id); ("original_data", entry);
               ("processed_timestamp", JStr (Clock.isoformat processed_timestamp));
               ("downloaded_media", JList downloaded_media)] in
      let* actor :=
        match Py.get "actor" (JDict []) e with
        | JDict a => ret a
        | _ => raise AttributeError
        end in
      let* first_name := str_field "first_name" "unknown" actor in
      let* last_name := str_field "last_name" "unknown" actor in
      let* current := now in
      let ts_format :=
        Clock.strftime_second (default current event_date) in
      let filename :=
        ts_format +:+ "-" +:+ Text.lower first_name +:+ "-"
          +:+ Text.lower last_name +:+ "-" +:+ Dump.str entry_id +:+ ".json" in
      (* a slash points into a directory that the archive does not have *)
      if Text.has_char "/" filename then raise OSError
      else
        write_file (path_join child_feeds_dir filename) (JsonFile processed_entry) ;;;
        ret processed_entry
  | _ => raise AttributeError
  end.

(** *** _scrape_feed_for_student *)

(** The local variables of the function. *)
Record progress : Type := {
  page : Z;
  all_entries_for_student : list json;
  has_more : json;
  total_entries : option json
}.

(** How the [try] block is left: the loop ends or breaks, Ctrl-C arrives,
    or another exception escapes (the [return] in [finally] drops it). *)
Inductive leave : Type :=
| Completed
| Interrupted
| Escaped (e : exn).

Section Student.

Variables student_id student_name : string.
Variables child_feeds_dir child_images_dir child_videos_dir : string.
Variable max_pages : option Z.

(** Lines 766-773: the entries of one page. *)
Fixpoint process_entries (entries : list json) (acc : list json) (w : World)
  : list json * bool * World :=
  match entries with
  | [] => (acc, false, w)
  | entry :: rest =>
      match process_feed_entry entry child_feeds_dir child_images_dir
              child_videos_dir w with
      | (Ret processed, w') => process_entries rest (acc ++ [processed]) w'
      | (Raise _, w') =>
          process_entries rest acc
            (snd (log (LogError ("Error processing entry for " +:+ student_name)) w'))
      | (Interrupt, w') => (acc, true, w')
      end
  end.

(** What [for entry in entries] ranges over. *)
Definition iterate (entries : json) : option (list json) :=
  match entries with
  | JList l => Some l
  | JDict d => Some (map (fun kv => JStr (fst kv)) d)
  | JStr s => Some (map (fun c => JStr (String c EmptyString)) (list_ascii_of_string s))
  | _ => None
  end.

Definition page_allowed (p : Z) : bool :=
  match max_pages with
  | None => true
  | Some m => p <=? m
  end.

(** Lines 752-780: the [while] loop; [None] when [fuel] turns run out. *)
Fixpoint scrape_pages (fuel : nat) (st : progress) (w : World)
  : option (progress * leave * World) :=
  if Py.truthy (has_more st) && page_allowed (page st) then
    match fuel with
    | O => None
    | S fuel' =>
        match get_feed student_id (page st) w with
        | (Interrupt, w1) => Some (st, Interrupted, w1)
        | (Raise e, w1) => Some (st, Escaped e, w1)
        | (Ret None, w1) =>
            Some (st, Completed,
                  snd (log (LogWarning ("No valid feed data found on page "
                                          +:+ Text.str_of_Z (page st) +:+ " for "
                                          +:+ student_name)) w1))
        | (Ret (Some feed_data), w1) =>
            match feed_data, Py.lookup "entries" feed_data with
            | [], _ | _, None =>
                Some (st, Completed,
                      snd (log (LogWarning ("No valid feed data found on page "
                                              +:+ Text.str_of_Z (page st) +:+ " for "
                                              +:+ student_name)) w1))
            | _, Some entries =>
                if negb (Py.truthy entries) then Some (st, Completed, w1)
                else
                  match iterate entries with
                  | None => Some (st, Escaped TypeError, w1)
                  | Some l =>
                      let '(acc, interrupted, w2) :=
                        process_entries l (all_entries_for_student st) w1 in
                      let st1 :=
                        {| page := page st; all_entries_for_student := acc;
                           has_more := has_more st;
                           total_entries := total_entries st |} in
                      if interrupted : bool then Some (st1, Interrupted, w2)
                      else
                        let st2 :=
                          {| page := page st + 1; all_entries_for_student := acc;
                             has_more := Py.get "has_more" (JBool false) feed_data;
                             total_entries := total_entries st |} in
                        match sleep 2 w2 with
                        | (Ret _, w3) => scrape_pages fuel' st2 w3
                        | (Raise e, w3) => Some (st2, Escaped e, w3)
                        | (Interrupt, w3) => Some (st2, Interrupted, w3)
                        end
                  end
            end
        end
    end
  else Some (st, Completed, w).

(** Lines 744-780: the [try] block. *)
Definition scrape_try (fuel : nat) (w : World) : option (progress * leave * World) :=
  let st0 := {| page := 1; all_entries_for_student := [];
                has_more := JBool true; total_entries := None |} in
  match get_feed student_id 1 w with
  | (Interrupt, w1) => Some (st0, Interrupted, w1)
  | (Raise e, w1) => Some (st0, Escaped e, w1)
  | (Ret feed_data, w1) =>
      let '(st1, w2) :=
        match feed_data with
        | Some (kv :: r) =>
            let total := Py.get "count" (JInt 0) (kv :: r) in
            ({| page := 1; all_entries_for_student := [];
                has_more := JBool true; total_entries := Some total |},
             snd (log (LogWarning ("Found " +:+ Dump.str total
                                     +:+ " total entries for " +:+ student_name)) w1))
        | _ => (st0, w1)
        end in
      scrape_pages fuel st1 w2
  end.

(** The value dumped to [feed_index.json]. *)
Definition subject_index (st : progress) (scraped_date : datetime) : json :=
  JDict [("student_id", JStr student_id);
         ("student_name", JStr student_name);
         ("total_entries_scraped",
          JInt (Z.of_nat (length (all_entries_for_student st))));
         ("total_entries_available", default JNull (total_entries st));
         ("pages_scraped", JInt (page st - 1));
         ("scraped_date", JStr (Clock.isoformat scraped_date));
         ("entries", JList (all_entries_for_student st))].

(** Lines 785-805: the [finally] block.  The progress line prints a
    percentage, which is left out of the record. *)
Definition scrape_finally (st : progress) : M (list json) :=
  let scraped := Text.str_of_Z (Z.of_nat (length (all_entries_for_student st))) in
  let* scraped_date := now in
  write_file (path_join child_feeds_dir "feed_index.json")
    (JsonFile (subject_index st scraped_date)) ;;;
  log (LogWarning ("Completed scraping " +:+ scraped +:+ " entries across "
                     +:+ Text.str_of_Z (page st - 1) +:+ " pages for "
                     +:+ student_name)) ;;;
  (if Py.truthy (default JNull (total_entries st))
   then log (LogWarning ("Progress for " +:+ student_name +:+ ": " +:+ scraped
                           +:+ "/" +:+ Dump.str (default JNull (total_entries st))
                           +:+ " entries"))
   else ret tt) ;;;
  log (LogWarning ("--- Finished scrape for student: " +:+ student_name +:+ " ---")) ;;;
  _save_download_history ;;;
  ret (all_entries_for_student st).

(** [_scrape_feed_for_student]: the entries it returns and the world it
    leaves; [None] when the loop needs more than [fuel] turns. *)
Definition _scrape_feed_for_student (fuel : nat) (w : World)
  : option (list json * World) :=
  let w0 :=
    snd (log (LogWarning ("--- Starting scrape for student: " +:+ student_name
                            +:+ " (" +:+ student_id +:+ ") ---")) w) in
  match scrape_try fuel w0 with
  | None => None
  | Some (st, _, w1) =>
      match scrape_finally st w1 with
      | (Ret entries, w2) => Some (entries, w2)
      | (_, w2) => Some (all_entries_for_student st, w2)
      end
  end.

End Student.

End Process.

End Scraper.

(** ** The text hash of CPython *)

(** [hash] on a [str] as CPython 3.11 and later computes it on 64-bit
    platforms: SipHash-1-3 over the bytes of the text, keyed by the secret
    that the interpreter draws at start-up.  With PYTHONHASHSEED set to
    [seed] the secret comes from a linear congruential generator (all
    zero for seed 0); without it the secret is random. *)
Module CPython.

Definition word (z : Z) : Z := z `mod` 2 ^ 64.

Definition rotl (x b : Z) : Z :=
  word (Z.lor (Z.shiftl x b) (Z.shiftr x (64 - b))).

Definition half_round (a b c d s t : Z) : Z * Z * Z * Z :=
  let a := word (a + b) in
  let c := word (c + d) in
  let b := Z.lxor (rotl b s) a in
  let d := Z.lxor (rotl d t) c in
  (rotl a 32, b, c, d).

Definition single_round (v : Z * Z * Z * Z) : Z * Z * Z * Z :=
  let '(v0, v1, v2, v3) := v in
  let '(v0, v1, v2, v3) := half_round v0 v1 v2 v3 13 16 in
  let '(v2, v1, v0, v3) := half_round v2 v1 v0 v3 17 21 in
  (v0, v1, v2, v3).

(** Bytes as a little-endian number. *)
Fixpoint le_word (bytes : list Z) : Z :=
  match bytes with
  | [] => 0
  | b :: r => b + 256 * le_word r
  end.

Definition absorb (v : Z * Z * Z * Z) (m : Z) : Z * Z * Z * Z :=
  let '(v0, v1, v2, v3) := v in
  let '(v0, v1, v2, v3) := single_round (v0, v1, v2, Z.lxor v3 m) in
  (Z.lxor v0 m, v1, v2, v3).

(** The whole eight-byte blocks, and the bytes left over. *)
Fixpoint blocks (fuel : nat) (v : Z * Z * Z * Z) (bytes : list Z)
  : (Z * Z * Z * Z) * list Z :=
  match fuel, bytes with
  | S fuel', b0 :: b1 :: b2 :: b3 :: b4 :: b5 :: b6 :: b7 :: rest =>
      blocks fuel' (absorb v (le_word [b0; b1; b2; b3; b4; b5; b6; b7])) rest
  | _, _ => (v, bytes)
  end.

Definition siphash13 (k0 k1 : Z) (bytes : list Z) : Z :=
  let len := Z.of_nat (length bytes) in
  let v := (Z.lxor k0 0x736f6d6570736575, Z.lxor k1 0x646f72616e646f6d,
            Z.lxor k0 0x6c7967656e657261, Z.lxor k1 0x7465646279746573) in
  let '(v, tail) := blocks (length bytes) v bytes in
  let b := Z.lor (word (Z.shiftl len 56)) (le_word tail) in
  let '(v0, v1, v2, v3) := absorb v b in
  let '(v0, v1, v2, v3) :=
    single_round (single_round (single_round (v0, v1, Z.lxor v2 0xff, v3))) in
  Z.lxor (Z.lxor v0 v1) (Z.lxor v2 v3).

(** [lcg_urandom]: the bytes of the secret for a seed that is not zero. *)
Fixpoint lcg (n : nat) (x : Z) : list Z :=
  match n with
  | O => []
  | S n' =>
      let x := (x * 214013 + 2531011) `mod` 2 ^ 32 in
      Z.land (Z.shiftr x 16) 255 :: lcg n' x
  end.

Definition secret (seed : Z) : list Z :=
  if seed =? 0 then List.repeat 0 24%nat else lcg 24 seed.

Definition signed (x : Z) : Z := if x <? 2 ^ 63 then x else x - 2 ^ 64.

(** [hash(s)] under PYTHONHASHSEED=[seed]. *)
Definition str_hash (seed : Z) (s : string) : Z :=
  match s with
  | EmptyString => 0
  | _ =>
      let k := secret seed in
      let x :=
        signed (siphash13 (le_word (firstn 8 k)) (le_word (firstn 8 (skipn 8 k)))
                  (map Text.code (list_ascii_of_string s))) in
      if x =? -1 then -2 else x
  end.

End CPython.

(** ** A sample process and sample worlds, for the examples *)

Module Sample.

(** The civil date of a day number counted from 1970-01-01. *)
Definition civil (days : Z) : Z * Z * Z :=
  let z := days + 719468 in
  let era := z / 146097 in
  let doe := z - era * 146097 in
  let yoe := (doe - doe / 1460 + doe / 36524 - doe / 146096) / 365 in
  let doy := doe - (365 * yoe + yoe / 4 - yoe / 100) in
  let mp := (5 * doy + 2) / 153 in
  let d := doy - (153 * mp + 2) / 5 + 1 in
  let m := if mp <? 10 then mp + 3 else mp - 9 in
  (yoe + era * 400 + (if m <=? 2 then 1 else 0), m, d).

(** The clock of a process that runs in UTC. *)
Definition utc (unix : Z) : datetime :=
  let '(y, m, d) := civil (unix / 86400) in
  let s := unix `mod` 86400 in
  {| year := y; month := m; day := d; hour := s / 3600;
     minute := s `mod` 3600 / 60; second := s `mod` 60; microsecond := 0 |}.

Fixpoint number (acc : Z) (s : string) : option Z :=
  match s with
  | EmptyString => Some acc
  | String c t =>
      if Text.is_digit c then number (10 * acc + (Text.code c - 48)) t else None
  end.

Definition field (start len : nat) (s : string) : option Z :=
  number 0 (String.substring start len s).

(** [fromisoformat] on the one shape the examples use:
    [YYYY-MM-DDTHH:MM:SS], alone or followed by [+00:00]. *)
Definition iso (s : string) : option datetime :=
  let seps :=
    String.eqb (String.substring 4 1 s) "-" && String.eqb (String.substring 7 1 s) "-"
    && String.eqb (String.substring 10 1 s) "T"
    && String.eqb (String.substring 13 1 s) ":"
    && String.eqb (String.substring 16 1 s) ":" in
  let tail := String.substring 19 (String.length s - 19) s in
  if seps && (String.eqb tail "" || String.eqb tail "+00:00") then
    match field 0 4 s, field 5 2 s, field 8 2 s,
          field 11 2 s, field 14 2 s, field 17 2 s with
    | Some y, Some m, Some d, Some h, Some mi, Some se =>
        if (1 <=? m) && (m <=? 12) && (1 <=? d) && (d <=? 31)
           && (h <? 24) && (mi <? 60) && (se <? 60) && (1 <=? y)
        then Some {| year := y; month := m; day := d; hour := h;
                     minute := mi; second := se; microsecond := 0 |}
        else None
    | _, _, _, _, _, _ => None
    end
  else None.

(** A process started with PYTHONHASHSEED=1 in the UTC time zone. *)
Definition runtime : Runtime :=
  {| str_hash := CPython.str_hash 1; localtime := utc; fromisoformat := iso |}.

(** The same program started with PYTHONHASHSEED=2. *)
Definition other_process : Runtime :=
  {| str_hash := CPython.str_hash 2; localtime := utc; fromisoformat := iso |}.

(** 2024-05-01T10:00:00Z *)
Definition may_first : Z := 1714557600.

(** An empty archive, a silent network, no signal pending. *)
Definition blank : World :=
  {| w_files := ∅; w_history_file := HistoryMissing; w_downloaded := ∅;
     w_media := fun _ => FetchRefused; w_feed := fun _ _ => FeedError;
     w_unix := may_first; w_sigint := None; w_requests := []; w_log := [] |}.

Definition with_media (f : string -> fetch) (w : World) : World :=
  {| w_files := w_files w; w_history_file := w_history_file w;
     w_downloaded := w_downloaded w; w_media := f; w_feed := w_feed w;
     w_unix := w_unix w; w_sigint := w_sigint w; w_requests := w_requests w;
     w_log := w_log w |}.

Definition with_feed (f : string -> Z -> feed_response) (w : World) : World :=
  {| w_files := w_files w; w_history_file := w_history_file w;
     w_downloaded := w_downloaded w; w_media := w_media w; w_feed := f;
     w_unix := w_unix w; w_sigint := w_sigint w; w_requests := w_requests w;
     w_log := w_log w |}.

(** The event time of the examples, 2024-05-01T10:00:00Z as parsed. *)
Definition event : option datetime := iso "2024-05-01T10:00:00+00:00".

(** A media server that delivers three bytes for every URL. *)
Definition served : World := with_media (fun _ => FetchBody 3 ["abc"] true) blank.

(** A media server whose streams break: two mebibytes announced, three
    bytes delivered. *)
Definition broken : World :=
  with_media (fun _ => FetchBody (2 * 1024 * 1024) ["abc"] false) blank.

(** The archive once [https://x/a/b.jpg] has been downloaded. *)
Definition archived : World :=
  snd (Scraper.download_media runtime "https://x/a/b.jpg" "image" event "images" served).

(** A media server that refuses the image and delivers the video. *)
Definition image_refused : World :=
  with_media
    (fun url => if String.eqb url "https://x/a/b.jpg" then FetchRefused
                else FetchBody 3 ["abc"] true)
    blank.

Definition entry_with_image_and_video : dict :=
  [("object_id", JStr "e1"); ("event_date", JStr "2024-05-01T10:00:00Z");
   ("actor", JDict [("first_name", JStr "Ada"); ("last_name", JStr "Lovelace")]);
   ("media", JDict [("image_url", JStr "https://x/a/b.jpg");
                    ("video_url", JStr "https://x/a/v.mp4")])].

(** Ten plain entries of page [p]. *)
Definition ten_entries (p : Z) : list json :=
  map (fun i => JDict [("object_id", JStr (Text.str_of_Z (10 * (p - 1) + i)));
                       ("event_date", JStr "2024-05-01T10:00:00Z")])
    [1; 2; 3; 4; 5; 6; 7; 8; 9; 10].

(** A feed of thirty entries in pages of ten. *)
Definition thirty : World :=
  with_feed
    (fun _ p =>
       if (1 <=? p) && (p <=? 3)
       then FeedJson (JDict [("activities", JList (ten_entries p));
                             ("count", JInt 30); ("page", JInt p);
                             ("page_size", JInt 10)])
       else FeedError)
    blank.

(** Three records of an index, the first and the last of the same
    moment. *)
Definition index_entries : list json :=
  [JDict [("id", JStr "a");
          ("original_data", JDict [("event_date", JStr "2024-05-01T10:00:00Z")])];
   JDict [("id", JStr "b");
          ("original_data", JDict [("event_date", JStr "2024-05-03T09:30:00Z")])];
   JDict [("id", JStr "c");
          ("original_data", JDict [("event_date", JStr "2024-05-01T10:00:00Z")])]].

(** What the roster endpoint sends for two students. *)
Definition roster_payload : json :=
  JDict [("students",
          JList [JDict [("student",
                         JDict [("object_id", JStr "k-1"); ("first_name", JStr "Ada");
                                ("last_name", JStr "Lovelace");
                                ("enrollment_status", JStr "Active")])];
                 JDict [("student",
                         JDict [("object_id", JStr "k-2"); ("first_name", JStr "Alan");
                                ("last_name", JStr "Turing");
                                ("enrollment_status", JStr "Active")])]])].

(** A roster of two. *)
Definition two_students : list dict :=
  [[("id", JStr "k-1"); ("first_name", JStr "Ada"); ("last_name", JStr "Lovelace");
    ("status", JStr "Active")];
   [("id", JStr "k-2"); ("first_name", JStr "Alan"); ("last_name", JStr "Turing");
    ("status", JStr "Active")]].

(** An endpoint that answers every request with the first page. *)
Definition first_page_forever : World :=
  with_feed
    (fun _ _ =>
       FeedJson (JDict [("activities", JList (ten_entries 1));
                        ("count", JInt 30); ("page", JInt 1);
                        ("page_size", JInt 10)]))
    blank.

Definition entry_with_image (i : Z) : json :=
  JDict [("object_id", JStr (Text.str_of_Z i));
         ("event_date", JStr "2024-05-01T10:00:00Z");
         ("media", JDict [("image_url",
                           JStr ("https://x/a/" +:+ Text.str_of_Z i +:+ ".jpg"))])].

(** A feed of five entries with one image each; Ctrl-C arrives in the
    fifth blocking call, which is the download of the third image. *)
Definition five_interrupted : World :=
  with_sigint (Some 4%nat)
    (with_feed
       (fun _ p =>
          if p =? 1
          then FeedJson (JDict [("activities", JList (map entry_with_image [1; 2; 3; 4; 5]));
                                ("count", JInt 5); ("page", JInt 1);
                                ("page_size", JInt 10)])
          else FeedError)
       served).

(** A page of markup with a link to the next page and no video poster. *)
Definition markup_with_next : list node :=
  [Element "html" []
     [Element "body" []
        [Element "div" [("class", "feed")] [TextNode "No videos today"];
         Element "a" [("class", "next-page"); ("href", "?page=2")]
           [TextNode "Next"]]]].

Definition markup_feed : World :=
  with_feed (fun _ _ => FeedMarkup markup_with_next) blank.

(** An entry without a server identifier. *)
Definition nap_entry : dict :=
  [("event_date", JStr "2024-05-01T10:00:00Z"); ("note", JStr "nap")].

(** A history file that cannot be read. *)
Definition unreadable : World := with_history_file HistoryUnreadable served.

End Sample.

(** ** The claims, in the words of the specification *)

Module Spec.

(** A URL field that is present: it holds non-empty text. *)
Definition url_field (k : string) (d : dict) : option string :=
  match Py.lookup k d with
  | Some (JStr s) => if String.eqb s "" then None else Some s
  | _ => None
  end.

(** A field that is missing, null or text. *)
Definition text_or_missing (k : string) (d : dict) : bool :=
  match Py.lookup k d with
  | None | Some JNull | Some (JStr _) => true
  | _ => false
  end.

(** Video URL resolution precedence, first match wins: the downloadable
    URL; else the streamable URL with [playlist.m3u8] replaced by
    [video.mp4] when it holds that text; else the streamable URL. *)
Definition primary_video (downloadable_url streamable_url : option string)
  : option string :=
  match downloadable_url, streamable_url with
  | Some d, _ => Some d
  | None, Some s =>
      if Text.contains "playlist.m3u8" s
      then Some (Text.replace "playlist.m3u8" "video.mp4" s)
      else Some s
  | None, None => None
  end.

(** The [media] of an activity is missing, null or an object. *)
Definition media_usable (activity : dict) : bool :=
  match Py.lookup "media" activity with
  | None | Some JNull | Some (JDict _) => true
  | _ => false
  end.

(** [activity['media']['video_url']] when it is there. *)
Definition video_url_of (activity : dict) : option json :=
  match Py.lookup "media" activity with
  | Some (JDict media) => Py.lookup "video_url" media
  | _ => None
  end.

(** The name and the destination that [download_media] derives in [w]. *)
Definition file_name (rt : Runtime) (w : World) (url media_type : string)
    (event_date : option datetime) : string :=
  Scraper.timestamped_file_name rt (w_unix w) url media_type event_date.

Definition output_path (rt : Runtime) (w : World) (url media_type : string)
    (event_date : option datetime) (output_dir : string) : string :=
  path_join output_dir (file_name rt w url media_type event_date).

(** The final path segment of the URL is non-empty and holds a dot. *)
Definition usable_base (url : string) : bool :=
  let base := Text.basename (Url.unquote (Url.path url)) in
  negb (String.eqb base "") && Text.has_char "." base.

Definition is_media_request (url : string) (r : request) : bool :=
  match r with
  | MediaRequest u => String.eqb u url
  | FeedRequest _ _ => false
  end.

(** The fetches of [url] sent so far. *)
Definition media_requests (url : string) (w : World) : list request :=
  filter (fun r => is_media_request url r = true) (w_requests w).

(** The feed pages requested so far, oldest first. *)
Definition pages_requested (w : World) : list Z :=
  flat_map (fun r => match r with FeedRequest _ p => [p] | MediaRequest _ => [] end)
    (w_requests w).

(** What is on disk after a fetch that breaks once the file is open:
    the chunks received when they are written one by one, nothing when
    the body is read in one piece. *)
Definition partial_data (content_length : Z) (chunks : list string) : string :=
  if 1024 * 1024 <? content_length then Text.concat chunks else EmptyString.

(** The world once a blocking call has been entered. *)
Definition entered (w : World) : World :=
  match w_sigint w with
  | Some (S n) => with_sigint (Some n) w
  | _ => w
  end.

(** The fetch does not deliver the whole body. *)
Definition fetch_fails (r : fetch) : bool :=
  match r with
  | FetchRefused => true
  | FetchBody _ _ complete => negb complete
  end.

Definition media_fields : list string :=
  ["image_url"; "thumbnail_url"; "video_thumbnail_url"; "video_url"].

(** [media] is missing, falsy, or an object whose URL fields are missing,
    null or text. *)
Definition media_well_formed (entry : dict) : bool :=
  match Py.get "media" JNull entry with
  | JDict m => forallb (fun k => text_or_missing k m) media_fields
  | other => negb (Py.truthy other)
  end.

(** A name that is missing or text, without a slash once in lower case. *)
Definition name_well_formed (k : string) (actor : dict) : bool :=
  match Py.get k (JStr "unknown") actor with
  | JStr s => negb (Text.has_char "/" (Text.lower s))
  | _ => false
  end.

(** An entry of the shape the feed documents: text where text is read,
    objects where fields are read, and no slash in what becomes the name
    of its file. *)
Definition well_formed_entry (rt : Runtime) (entry : dict) : bool :=
  text_or_missing "event_date" entry
  && media_well_formed entry
  && match Py.get "actor" (JDict []) entry with
     | JDict a => name_well_formed "first_name" a && name_well_formed "last_name" a
     | _ => false
     end
  && negb (Text.has_char "/" (Dump.str (Scraper.entry_id_of rt entry))).

(** The record that [process_feed_entry] returns and writes. *)
Definition processed_entry (rt : Runtime) (w : World) (entry : dict)
    (downloaded_media : list json) : json :=
  JDict [("id", Scraper.entry_id_of rt entry); ("original_data", JDict entry);
         ("processed_timestamp", JStr (Clock.isoformat (localtime rt (w_unix w))));
         ("downloaded_media", JList downloaded_media)].

(** A "next page" affordance at or below a node: an element of class
    [next-page] or [load-more], or a link of class [next] under an element
    of class [pagination].  [inside] tells whether such an element is
    already above. *)
Inductive affordance (inside : bool) : node -> Prop :=
| affordance_here (nm : string) (attrs : list (string * string)) (ch : list node) :
    Html.next_page_match inside nm attrs = true ->
    affordance inside (Element nm attrs ch)
| affordance_below (nm : string) (attrs : list (string * string)) (ch : list node)
    (c : node) :
    In c ch ->
    affordance (inside || Html.has_class "pagination" attrs) c ->
    affordance inside (Element nm attrs ch).

(** A JSON feed payload, [{activities, count, page, page_size}]. *)
Definition json_page (d : dict) (activities : list json)
    (count page page_size : Z) : Prop :=
  Py.lookup "activities" d = Some (JList activities)
  /\ Py.lookup "count" d = Some (JInt count)
  /\ Py.lookup "page" d = Some (JInt page)
  /\ Py.lookup "page_size" d = Some (JInt page_size).

(** The page that [get_feed] hands to the paginator. *)
Definition feed_page (entries : list json) (has_more : bool) : dict :=
  [("entries", JList entries); ("has_more", JBool has_more)].

(** What the pipeline never undoes: the servers stay as they are, the
    history only grows, and a URL of the history is not fetched again. *)
Definition steady (w w' : World) : Prop :=
  w_feed w' = w_feed w /\ w_media w' = w_media w
  /\ w_downloaded w ⊆ w_downloaded w'
  /\ (forall u, u ∈ w_downloaded w -> media_requests u w' = media_requests u w).

(** No feed page has been requested in between. *)
Definition same_pages (w w' : World) : Prop :=
  pages_requested w' = pages_requested w.

End Spec.

(** ** Properties of computations *)

(** [m] relates every world to the world it leaves. *)
Definition keeps {A : Type} (R : World -> World -> Prop) (m : M A) : Prop :=
  forall w, R w (snd (m w)).

(** Without a pending signal [m] is not interrupted, and none is pending
    afterwards. *)
Definition quiet {A : Type} (m : M A) : Prop :=
  forall w, w_sigint w = None ->
            fst (m w) <> Interrupt /\ w_sigint (snd (m w)) = None.

(** A relation on worlds that the effects of downloading respect. *)
Class Frame (R : World -> World -> Prop) : Prop := {
  frame_refl : forall w, R w w;
  frame_trans : forall a b c, R a b -> R b c -> R a c;
  frame_log : forall w l, R w (with_log l w);
  frame_files : forall w f, R w (with_files f w);
  frame_unix : forall w t, R w (with_unix t w);
  frame_history_file : forall w h, R w (with_history_file h w);
  frame_sigint : forall w s, R w (with_sigint s w);
  frame_mark : forall w u, R w (with_downloaded ({[u]} ∪ w_downloaded w) w);
  frame_fetch :
    forall w u, u ∉ w_downloaded w ->
                R w (with_requests (w_requests w ++ [MediaRequest u]) w)
}.

(** A frame that requests for feed pages respect as well. *)
Class FeedFrame (R : World -> World -> Prop) : Prop := {
  feed_frame :: Frame R;
  frame_feed :
    forall w s p, R w (with_requests (w_requests w ++ [FeedRequest s p]) w)
}.

(** ** Further notions, for the properties of Part II *)

Module Facts.

(** The object as a mutating block leaves it, raised or not. *)
Definition value {A : Type} (x : Scraper.attempt A) : A :=
  match x with
  | Scraper.Done a => a
  | Scraper.Raised a => a
  end.

(** The entries of a page that are objects. *)
Definition objects (entries : list json) : list dict :=
  flat_map (fun e => match e with JDict d => [d] | _ => [] end) entries.

Definition record_id (r : json) : option json :=
  match r with
  | JDict d => Py.lookup "id" d
  | _ => None
  end.

(** An entry that is not an object, or a well-formed object. *)
Definition processable (rt : Runtime) (e : json) : bool :=
  match e with
  | JDict d => Spec.well_formed_entry rt d
  | _ => true
  end.

(** The pages that [count] entries fill, [page_size] to a page. *)
Definition pages_needed (count page_size : Z) : Z :=
  (count + page_size - 1) / page_size.

(** A video poster whose style names a background image. *)
Definition poster_with_background (n : node) : bool :=
  match n with
  | Element _ attrs _ =>
      Text.contains "background-image" (default EmptyString (Html.attr "style" attrs))
  | TextNode _ => false
  end.

Definition video_posters (doc : list node) : list node :=
  flat_map (Html.find_all "div" "video-react-poster") doc.

End Facts.

Module Video.

(** What the handling of [video_info] may change between [a] and [a']:
    nothing outside [media]; inside a [media] object nothing but the two
    video fields. *)
Definition touches_video_only (a a' : dict) : Prop :=
  (forall k, k <> "media" -> Py.lookup k a' = Py.lookup k a)
  /\ (forall m, Py.lookup "media" a = Some (JDict m) ->
        exists m', Py.lookup "media" a' = Some (JDict m')
                   /\ forall k, k <> "video_url" -> k <> "video_thumbnail_url" ->
                                Py.lookup k m' = Py.lookup k m).

(** [activity['media']['video_thumbnail_url']] when it is there. *)
Definition video_thumbnail_of (activity : dict) : option json :=
  match Py.lookup "media" activity with
  | Some (JDict media) => Py.lookup "video_thumbnail_url" media
  | _ => None
  end.

End Video.

Module Paging.

(** The endpoint serves page [p] of a feed of [count] entries,
    [page_size] to a page, and the page is not empty. *)
Definition serves (endpoint : string -> Z -> feed_response) (student_id : string)
    (pages : Z -> list json) (count page_size p : Z) : Prop :=
  exists d, endpoint student_id p = FeedJson (JDict d)
            /\ Spec.json_page d (pages p) count p page_size
            /\ pages p <> [].

(** The endpoint answers the request for page [p] with a JSON page that
    is not empty and whose own numbers say that more entries follow. *)
Definition promises_more (endpoint : string -> Z -> feed_response)
    (student_id : string) (p : Z) : Prop :=
  exists d activities count page page_size,
    endpoint student_id p = FeedJson (JDict d)
    /\ Spec.json_page d activities count page page_size
    /\ activities <> []
    /\ page * page_size < count.

End Paging.

(** ** What a run leaves behind *)

Module Archive.

(** No file is removed, and the log and the trace of requests are only
    appended to. *)
Definition only_grows (w w' : World) : Prop :=
  (forall p, is_Some (w_files w !! p) -> is_Some (w_files w' !! p))
  /\ w_log w `prefix_of` w_log w'
  /\ w_requests w `prefix_of` w_requests w'.

End Archive.

(** A relation on worlds that the effects respect as the code performs
    them: a record appended to the log, a file written at a path, a
    request appended to the trace. *)
Class Growth (R : World -> World -> Prop) : Prop := {
  grow_refl : forall w, R w w;
  grow_trans : forall a b c, R a b -> R b c -> R a c;
  grow_log : forall w r, R w (with_log (w_log w ++ [r]) w);
  grow_files : forall w p f, R w (with_files (<[p := f]> (w_files w)) w);
  grow_unix : forall w t, R w (with_unix t w);
  grow_history_file : forall w h, R w (with_history_file h w);
  grow_sigint : forall w s, R w (with_sigint s w);
  grow_mark : forall w u, R w (with_downloaded ({[u]} ∪ w_downloaded w) w);
  grow_sent : forall w r, R w (with_requests (w_requests w ++ [r]) w)
}.

(** ** Text: whitespace and the word class *)

Module Str.

(** [c.isspace()] on code points below 256. *)
Definition is_space (c : ascii) : bool :=
  let n := Text.code c in
  ((9 <=? n) && (n <=? 13)) || ((28 <=? n) && (n <=? 32)) || (n =? 133) || (n =? 160).

Fixpoint lstrip (s : string) : string :=
  match s with
  | EmptyString => EmptyString
  | String c t => if is_space c then lstrip t else s
  end.

Fixpoint rstrip (s : string) : string :=
  match s with
  | EmptyString => EmptyString
  | String c t =>
      match rstrip t with
      | EmptyString => if is_space c then EmptyString else String c EmptyString
      | r => String c r
      end
  end.

(** [s.strip()] *)
Definition strip (s : string) : string := rstrip (lstrip s).

End Str.

Module Re.

(** [\w] of a text pattern on code points below 256: the digits, the
    letters with the accented ones, the underscore, and the ordinal
    indicators, superscript digits, micro sign and vulgar fractions. *)
Definition is_word (c : ascii) : bool :=
  let n := Text.code c in
  Text.is_digit c || Text.is_alpha c || (n =? 95)
  || (n =? 170) || (n =? 178) || (n =? 179) || (n =? 181) || (n =? 185) || (n =? 186)
  || ((188 <=? n) && (n <=? 190))
  || ((192 <=? n) && (n <=? 214)) || ((216 <=? n) && (n <=? 246))
  || ((248 <=? n) && (n <=? 255)).

(** The class [[\w\-]]. *)
Definition kept (c : ascii) : bool := is_word c || Ascii.eqb c "-".

(** [re.sub(r'[^\w\-]+', repl, s)]: every maximal run of characters
    outside the class becomes one [repl]; [in_run] tells that the run
    has been replaced already. *)
Fixpoint sub_from (repl : string) (in_run : bool) (s : string) : string :=
  match s with
  | EmptyString => EmptyString
  | String c t =>
      if kept c then String c (sub_from repl false t)
      else if in_run then sub_from repl true t
      else repl +:+ sub_from repl true t
  end.

Definition sub_unsafe_runs (repl s : string) : string := sub_from repl false s.

(** Every character of [s] is of the class. *)
Fixpoint all_kept (s : string) : bool :=
  match s with
  | EmptyString => true
  | String c t => kept c && all_kept t
  end.

End Re.

(** ** The roster: one run per subject *)

Module Students.

(** [student.get('id')] when it is text. *)
Definition text_id (student : dict) : option string :=
  match Py.get "id" JNull student with
  | JStr s => Some s
  | _ => None
  end.

Definition first_name (student : dict) : string :=
  Dump.str (Py.get "first_name" (JStr "Unknown") student).

Definition last_name (student : dict) : string :=
  Dump.str (Py.get "last_name" (JStr "Student") student).

(** Line 818 *)
Definition student_name (student : dict) : string :=
  Str.strip (first_name student +:+ " " +:+ last_name student).

(** Line 821 *)
Definition safe_base_name (student : dict) : string :=
  Re.sub_unsafe_runs "_" (Text.lower (first_name student +:+ "_" +:+ last_name student)).

(** Line 822 *)
Definition safe_dir_name (student : dict) : string :=
  safe_base_name student +:+ "_" +:+ Dump.str (Py.get "id" JNull student).

Section Everyone.

Variable rt : Runtime.
Variable base_dir : string.
Variable max_pages : option Z.

Definition child_base_dir (student : dict) : string :=
  path_join base_dir (safe_dir_name student).

Definition child_feeds_dir (student : dict) : string :=
  path_join (child_base_dir student) "feeds".

Definition child_images_dir (student : dict) : string :=
  path_join (child_base_dir student) "images".

Definition child_videos_dir (student : dict) : string :=
  path_join (child_base_dir student) "videos".

(** Lines 814-847: the loop over the roster.  Directories are not part of
    the archive tree, so [mkdir] leaves no trace.  [None] when a run needs
    more than [fuel] turns, or when an identifier is not text, which
    [_scrape_feed_for_student] above does not cover. *)
Fixpoint scrape_each (fuel : nat) (students : list dict) (w : World) : option World :=
  match students with
  | [] => Some w
  | student :: rest =>
      match text_id student with
      | None => None
      | Some student_id =>
          let w1 :=
            snd (log (LogWarning ("Processing student: " +:+ student_name student)) w) in
          match Scraper._scrape_feed_for_student rt student_id (student_name student)
                  (child_feeds_dir student) (child_images_dir student)
                  (child_videos_dir student) max_pages fuel w1 with
          | None => None
          | Some (_, w2) => scrape_each fuel rest w2
          end
      end
  end.

(** [scrape_for_all_students] *)
Definition scrape_for_all_students (fuel : nat) (students : list dict) (w : World)
  : option World :=
  match students with
  | [] => Some (snd (log (LogError "No students available to scrape.") w))
  | _ =>
      let w0 :=
        snd (log (LogWarning ("Starting scraping process for "
                                +:+ Text.str_of_Z (Z.of_nat (length students))
                                +:+ " student(s).")) w) in
      match scrape_each fuel students w0 with
      | None => None
      | Some w1 =>
          Some (snd (log (LogWarning "Finished scraping for all students.") w1))
      end
  end.

(** Where the index of a subject is written. *)
Definition index_path (student : dict) : string :=
  path_join (child_feeds_dir student) "feed_index.json".

End Everyone.

End Students.

(** ** The roster endpoint *)

Module Roster.

(** The answer to the roster request: the request fails, the status is
    an error or the body is not JSON; or the body parsed. *)
Inductive roster_response : Type :=
| RosterError
| RosterJson (data : json).

(** Lines 192-197: the record that the roster keeps of a student object. *)
Definition record_of (student_data : dict) : dict :=
  [("id", Py.get "object_id" JNull student_data);
   ("first_name", Py.get "first_name" (JStr "") student_data);
   ("last_name", Py.get "last_name" (JStr "") student_data);
   ("status", Py.get "enrollment_status" (JStr "") student_data)].

(** Lines 190-197: one element of [data['students']].  A record of four
    fields when the element carries a ['student'] object, nothing when it
    does not carry the key. *)
Definition student_of (entry : json) : M (option dict) :=
  match entry with
  | JDict e =>
      match Py.lookup "student" e with
      | None => ret None
      | Some (JDict student_data) => ret (Some (record_of student_data))
      | Some _ => raise AttributeError
      end
  | JList l => if existsb (Py.is_str_lit "student") l then raise TypeError else ret None
  | JStr s => if Text.contains "student" s then raise TypeError else ret None
  | _ => raise TypeError
  end.

(** The records that were appended, in order. *)
Definition appended (l : list (option dict)) : list dict :=
  flat_map (fun o => match o with Some s => [s] | None => [] end) l.

(** A value that can be the key of a dictionary. *)
Definition hashable (j : json) : bool :=
  match j with
  | JList _ | JDict _ => false
  | _ => true
  end.

Definition found (students : list dict) : log_record :=
  LogWarning ("Found " +:+ Text.str_of_Z (Z.of_nat (length students))
                +:+ " total students").

(** Lines 188-209: the body after the membership test succeeded on a
    dictionary. *)
Definition students_of (entries : json) : M (option (list dict)) :=
  match Scraper.iterate entries with
  | None => raise TypeError
  | Some l =>
      let* records := map_m student_of l in
      let students := appended records in
      log (found students) ;;;
      if forallb (fun s => hashable (Py.get "status" (JStr "Unknown") s)) students
      then ret (Some students)
      else raise TypeError
  end.

Definition no_students : M (option (list dict)) :=
  log (LogError "No students found in API response") ;;; ret None.

(** [get_students], given the answer of the endpoint. *)
Definition get_students (response : roster_response) : M (option (list dict)) :=
  catch
    (blocking ;;;
     match response with
     | RosterError => raise RequestError
     | RosterJson data =>
         match data with
         | JDict d =>
             match Py.lookup "students" d with
             | Some entries => students_of entries
             | None => no_students
             end
         | JList l =>
             if existsb (Py.is_str_lit "students") l then raise TypeError
             else no_students
         | JStr s =>
             if Text.contains "students" s then raise TypeError else no_students
         | _ => raise TypeError
         end
     end)
    (fun _ => log (LogError "Failed to fetch students") ;;; ret None).

Definition fields : list string := ["id"; "first_name"; "last_name"; "status"].

(** The element carries the student object [student_data]. *)
Definition carries (entry : json) (student_data : dict) : Prop :=
  exists e, entry = JDict e /\ Py.lookup "student" e = Some (JDict student_data).

(** An element that is neither an object, a list nor text. *)
Definition scalar (j : json) : bool :=
  match j with
  | JNull | JBool _ | JInt _ => true
  | _ => false
  end.

End Roster.

(** ** [int] on text *)

Module Int.

(** White space as [int] sees it on code points below 256: the C-locale
    white space, and the two others above 127 that the conversion turns
    into a blank. *)
Definition is_space (c : ascii) : bool :=
  let n := Text.code c in
  ((9 <=? n) && (n <=? 13)) || (n =? 32) || (n =? 133) || (n =? 160).

Fixpoint skip_space (s : string) : string :=
  match s with
  | EmptyString => EmptyString
  | String c t => if is_space c then skip_space t else s
  end.

Fixpoint all_space (s : string) : bool :=
  match s with
  | EmptyString => true
  | String c t => is_space c && all_space t
  end.

(** The digits with single underscores between them: the value read so
    far, the number of digits, whether the last character was an
    underscore; what follows the digits is returned with them. *)
Fixpoint scan (acc : Z) (count : nat) (after_underscore : bool) (s : string)
  : option (Z * nat * string) :=
  match s with
  | EmptyString => if after_underscore then None else Some (acc, count, s)
  | String c t =>
      if Text.is_digit c then scan (10 * acc + (Text.code c - 48)) (S count) false t
      else if Ascii.eqb c "_" then
        if after_underscore then None else scan acc count true t
      else if after_underscore then None else Some (acc, count, s)
  end.

(** The limit on the digits of a decimal literal, as the interpreter
    sets it by default. *)
Definition max_str_digits : nat := 4300.

Definition magnitude (s : string) : option Z :=
  match s with
  | String c _ =>
      if Text.is_digit c then
        match scan 0 0 false s with
        | Some (n, count, rest) =>
            if (count <=? max_str_digits)%nat && all_space rest then Some n else None
        | None => None
        end
      else None
  | EmptyString => None
  end.

(** [int(s)]; [None] is the ValueError. *)
Definition parse (s : string) : option Z :=
  match skip_space s with
  | String "+" t => magnitude t
  | String "-" t => option_map Z.opp (magnitude t)
  | t => magnitude t
  end.

End Int.

(** ** Choosing the subjects *)

Module Selection.

(** What the keyboard delivers to one call of [input]. *)
Inductive key : Type :=
| Line (s : string)
| CtrlC
| EndOfInput.

(** How a part of the program that may call [sys.exit] ends: it returns,
    it exits with a code, or an exception that nothing catches ends the
    program. *)
Inductive ending (A : Type) : Type :=
| Returned (a : A)
| Exited (code : Z)
| EOFError
| IndexError.

Arguments Returned {A} a.
Arguments Exited {A} code.
Arguments EOFError {A}.
Arguments IndexError {A}.

(** The terminal: the input still to come, what has been printed, and
    the log at WARNING and above. *)
Record terminal : Type := {
  keys : list key;
  screen : list string;
  journal : list log_record
}.

Definition print (line : string) (t : terminal) : terminal :=
  {| keys := keys t; screen := screen t ++ [line]; journal := journal t |}.

Definition error (msg : string) (t : terminal) : terminal :=
  {| keys := keys t; screen := screen t; journal := journal t ++ [LogError msg] |}.

Definition nl : string := String (Text.chr 10) EmptyString.

(** [f"{first_name} {last_name}".strip()] with the defaults of the
    selection. *)
Definition name_of (student : dict) : string :=
  Str.strip (Dump.str (Py.get "first_name" (JStr "") student) +:+ " "
               +:+ Dump.str (Py.get "last_name" (JStr "") student)).

(** Lines 226-228: the menu, numbered from [i]. *)
Fixpoint menu (i : Z) (students : list dict) : list string :=
  match students with
  | [] => []
  | student :: rest =>
      (Text.str_of_Z i +:+ ". " +:+ name_of student +:+ " (ID: "
         +:+ Dump.str (Py.get "id" (JStr "unknown") student) +:+ ")")
      :: menu (i + 1) rest
  end.

Definition prompt (num_students : Z) : string :=
  nl +:+ "Select student number (1-" +:+ Text.str_of_Z num_students +:+ ") or "
     +:+ Text.str_of_Z (num_students + 1) +:+ " for All: ".

(** What a line typed at the prompt selects; [None] when the line is not
    a number or the number is not on the menu. *)
Definition choice_of (students : list dict) (line : string) : option (list dict) :=
  let num_students := Z.of_nat (length students) in
  match Int.parse line with
  | None => None
  | Some choice =>
      if (1 <=? choice) && (choice <=? num_students)
      then option_map (fun s => [s]) (students !! Z.to_nat (choice - 1))
      else if choice =? num_students + 1 then Some students
      else None
  end.

(** Lines 231-251: the loop of the prompt, one turn per key.  When the
    input is used up [input] raises EOFError, which nothing catches. *)
Fixpoint ask_choice (students : list dict) (input : list key) (shown : list string)
  : ending (list dict) * list key * list string :=
  let num_students := Z.of_nat (length students) in
  match input with
  | [] => (EOFError, [], shown ++ [prompt num_students])
  | k :: rest =>
      let shown := shown ++ [prompt num_students] in
      match k with
      | CtrlC => (Exited 0, rest, shown)
      | EndOfInput => (EOFError, rest, shown)
      | Line choice_str =>
          match Int.parse choice_str with
          | None =>
              ask_choice students rest
                (shown ++ ["Invalid input. Please enter a number."])
          | Some choice =>
              if (1 <=? choice) && (choice <=? num_students)
              then
                match students !! Z.to_nat (choice - 1) with
                | Some selected => (Returned [selected], rest, shown)
                | None => (IndexError, rest, shown)
                end
              else if choice =? num_students + 1 then (Returned students, rest, shown)
              else
                ask_choice students rest
                  (shown ++ ["Invalid choice. Please enter a number between 1 and "
                               +:+ Text.str_of_Z (num_students + 1) +:+ "."])
          end
      end
  end.

(** [_select_student]; [Returned None] is its [return None]. *)
Definition _select_student (students : list dict) (t : terminal)
  : ending (option (list dict)) * terminal :=
  match students with
  | [] => (Returned None, error "No students data available for selection." t)
  | _ =>
      let num_students := Z.of_nat (length students) in
      let shown :=
        screen t ++ [nl +:+ "Available active students:"] ++ menu 1 students
          ++ [Text.str_of_Z (num_students + 1) +:+ ". All Students"] in
      let '(r, rest, shown) := ask_choice students (keys t) shown in
      (match r with
       | Returned l => Returned (Some l)
       | Exited c => Exited c
       | EOFError => EOFError
       | IndexError => IndexError
       end,
       {| keys := rest; screen := shown; journal := journal t |})
  end.

(** [s.get('id') == target_student_id] *)
Definition has_id (target_student_id : string) (student : dict) : bool :=
  Py.is_str_lit target_student_id (Py.get "id" JNull student).

(** Lines 280-283: the identifiers printed when none matches. *)
Definition id_lines (students : list dict) : list string :=
  map (fun s => "- " +:+ Dump.str (Py.get "id" JNull s) +:+ " ("
                  +:+ Dump.str (Py.get "first_name" (JStr "") s) +:+ " "
                  +:+ Dump.str (Py.get "last_name" (JStr "") s) +:+ ")")
    students.

(** The value of [--student-id] counts when it is given and not empty. *)
Definition given (target_student_id : option string) : option string :=
  match target_student_id with
  | Some s => if String.eqb s "" then None else Some s
  | None => None
  end.

(** [_filter_students_based_on_selection]: the roster it leaves in
    [self.students]. *)
Definition _filter_students_based_on_selection
    (target_student_id : option string) (all_students : bool)
    (students : list dict) (t : terminal) : ending (list dict) * terminal :=
  match given target_student_id with
  | Some target =>
      if all_students
      then (Exited 1, error "Cannot specify both --student-id and --all-students" t)
      else
        match filter (fun s => has_id target s = true) students with
        | [] =>
            let t1 := error ("Student ID '" +:+ target
                               +:+ "' not found among available active students.") t in
            (Exited 1,
             {| keys := keys t1;
                screen := screen t1 ++ [nl +:+ "Available student IDs:"]
                            ++ id_lines students;
                journal := journal t1 |})
        | selected => (Returned selected, t)
        end
  | None =>
      match students with
      | [] => (Exited 1, error "No students found after initial fetch." t)
      | [_] => (Returned students, t)
      | _ =>
          if all_students then (Returned students, t)
          else
            match _select_student students t with
            | (Returned (Some selected_students), t1) => (Returned selected_students, t1)
            | (Returned None, t1) => (Exited 1, error "No student selection made." t1)
            | (Exited c, t1) => (Exited c, t1)
            | (EOFError, t1) => (EOFError, t1)
            | (IndexError, t1) => (IndexError, t1)
            end
      end
  end.

(** A line that the prompt rejects. *)
Definition rejected (students : list dict) (k : key) : Prop :=
  exists line, k = Line line /\ choice_of students line = None.

End Selection.

(** ** The date range of a request *)

Module Dates.

Definition digit (c : ascii) : option Z :=
  if Text.is_digit c then Some (Text.code c - 48) else None.

(** The directive [%Y] and the hyphen after it: four digits. *)
Definition year_of (s : string) : option (Z * string) :=
  match s with
  | String a (String b (String c (String d (String "-" rest)))) =>
      match digit a, digit b, digit c, digit d with
      | Some a, Some b, Some c, Some d => Some (1000 * a + 100 * b + 10 * c + d, rest)
      | _, _, _, _ => None
      end
  | _ => None
  end.

(** The directive [%m] and the hyphen after it: [1[0-2]|0[1-9]|[1-9]]. *)
Definition month_of (s : string) : option (Z * string) :=
  match s with
  | String a (String "-" rest) =>
      match digit a with
      | Some a => if 1 <=? a then Some (a, rest) else None
      | None => None
      end
  | String a (String b (String "-" rest)) =>
      match digit a, digit b with
      | Some 1, Some b => if b <=? 2 then Some (10 + b, rest) else None
      | Some 0, Some b => if 1 <=? b then Some (b, rest) else None
      | _, _ => None
      end
  | _ => None
  end.

(** The directive [%d] at the end of the text:
    [3[0-1]|[1-2]\d|0[1-9]|[1-9]| [1-9]], and nothing after it. *)
Definition day_of (s : string) : option Z :=
  match s with
  | String a EmptyString =>
      match digit a with
      | Some a => if 1 <=? a then Some a else None
      | None => None
      end
  | String a (String b EmptyString) =>
      match digit a, digit b with
      | Some 3, Some b => if b <=? 1 then Some (30 + b) else None
      | Some 1, Some b => Some (10 + b)
      | Some 2, Some b => Some (20 + b)
      | Some 0, Some b => if 1 <=? b then Some b else None
      | None, Some b => if Ascii.eqb a " " && (1 <=? b) then Some b else None
      | _, _ => None
      end
  | _ => None
  end.

Definition is_leap (year : Z) : bool :=
  (year `mod` 4 =? 0) && (negb (year `mod` 100 =? 0) || (year `mod` 400 =? 0)).

Definition days_in_month (year month : Z) : Z :=
  if month =? 2 then (if is_leap year then 29 else 28)
  else if (month =? 4) || (month =? 6) || (month =? 9) || (month =? 11) then 30
  else 31.

(** A day of the calendar that [datetime] covers. *)
Definition valid (year month day : Z) : bool :=
  (1 <=? year) && (year <=? 9999) && (1 <=? month) && (month <=? 12)
  && (1 <=? day) && (day <=? days_in_month year month).

(** [datetime.strptime(s, '%Y-%m-%d')]: year, month and day; [None] is
    the ValueError. *)
Definition strptime (s : string) : option (Z * Z * Z) :=
  match year_of s with
  | Some (year, s) =>
      match month_of s with
      | Some (month, s) =>
          match day_of s with
          | Some day => if valid year month day then Some (year, month, day) else None
          | None => None
          end
      | None => None
      end
  | None => None
  end.

(** [d.strftime('%Y-%m-%d')]; [%Y] prints the year without padding, as
    the C library of the archive's platform does. *)
Definition strftime_day (d : Z * Z * Z) : string :=
  let '(year, month, day) := d in
  Text.str_of_Z year +:+ "-" +:+ Text.pad2 month +:+ "-" +:+ Text.pad2 day.

(** Lines 318-333: one bound of the range, and the warning when the text
    is not a date.  An empty text counts as no bound. *)
Definition bound (which clock : string) (date_str : option string)
  : option string * list log_record :=
  match date_str with
  | None => (None, [])
  | Some s =>
      if String.eqb s "" then (None, [])
      else
        match strptime s with
        | Some d => (Some (strftime_day d +:+ clock), [])
        | None =>
            (None, [LogWarning ("Invalid " +:+ which +:+ " date format: " +:+ s
                                  +:+ ". Use YYYY-MM-DD.")])
        end
  end.

Definition param (k : string) (v : option string) : list (string * json) :=
  match v with
  | Some s => [(k, JStr s)]
  | None => []
  end.

(** Lines 318-342: the parameters of the request and the warnings that
    building them logs. *)
Definition params (page page_size : Z) (include_parent_actions : bool)
    (start_date_str end_date_str : option string)
  : list (string * json) * list log_record :=
  let '(start_date_iso, w1) := bound "start" "T00:00:00.000Z" start_date_str in
  let '(end_date_iso, w2) := bound "end" "T23:59:59.999Z" end_date_str in
  ([("page", JInt page); ("page_size", JInt page_size);
    ("include_parent_actions", JBool include_parent_actions)]
     ++ param "start_date" start_date_iso ++ param "end_date" end_date_iso,
   w1 ++ w2).

(** The text of a day as the help of the command line asks for it. *)
Definition canonical (year month day : Z) : string :=
  Clock.pad4 year +:+ "-" +:+ Text.pad2 month +:+ "-" +:+ Text.pad2 day.

(** The year in four digits reads back as the year. *)
Definition four_digits (year : Z) : bool :=
  match Clock.pad4 year with
  | String a (String b (String c (String d EmptyString))) =>
      match digit a, digit b, digit c, digit d with
      | Some a, Some b, Some c, Some d => 1000 * a + 100 * b + 10 * c + d =? year
      | _, _, _, _ => false
      end
  | _ => false
  end.

End Dates.

(** ** The site generator: order and pages

    From [generate_site.py], the part of [generate_child_site] between
    the index that the scraper wrote and the templates: the sort and the
    split into pages. *)

Module Site.

Definition ENTRIES_PER_PAGE : nat := 25.

(** The key of the sort,
    [x.get('original_data', {}).get('event_date', '0000')]; [None] is the
    AttributeError on an entry, or on an [original_data], that is not an
    object. *)
Definition sort_key (x : json) : option json :=
  match x with
  | JDict d =>
      match Py.get "original_data" (JDict []) d with
      | JDict o => Some (Py.get "event_date" (JStr "0000") o)
      | _ => None
      end
  | _ => None
  end.

(** The key when it is text. *)
Definition text_key (x : json) : option string :=
  match sort_key x with
  | Some (JStr s) => Some s
  | _ => None
  end.

Definition key_of (x : json) : string := default EmptyString (text_key x).

(** [x] goes behind every entry whose key is not below its own. *)
Fixpoint insert_behind (x : json) (l : list json) : list json :=
  match l with
  | [] => [x]
  | y :: r =>
      if String.ltb (key_of y) (key_of x) then x :: l else y :: insert_behind x r
  end.

(** A stable sort by descending key on text keys, text compared code
    point by code point, as [list.sort(key=..., reverse=True)] sorts. *)
Definition sort_by_date (all_entries : list json) : list json :=
  fold_left (fun sorted x => insert_behind x sorted) all_entries [].

Inductive sorting : Type :=
| Sorted (all_entries : list json)
| Raises (e : exn)
| NotCovered.

Definition is_text (j : json) : bool :=
  match j with JStr _ => true | _ => false end.

Definition is_null (j : json) : bool :=
  match j with JNull => true | _ => false end.

Fixpoint keys_of (all_entries : list json) : option (list json) :=
  match all_entries with
  | [] => Some []
  | x :: r =>
      match sort_key x, keys_of r with
      | Some k, Some ks => Some (k :: ks)
      | _, _ => None
      end
  end.

(** Line 64.  The keys are computed first, for every entry.  With fewer
    than two entries nothing is compared.  With two or more every entry
    is compared with another one, and a comparison with [None] raises.
    Keys that are neither all text nor hold a [None] (numbers, lists,
    objects) are not covered. *)
Definition sort_entries (all_entries : list json) : sorting :=
  match keys_of all_entries with
  | None => Raises AttributeError
  | Some keys =>
      if forallb is_text keys then Sorted (sort_by_date all_entries)
      else if (length all_entries <=? 1)%nat then Sorted all_entries
      else if existsb is_null keys then Raises TypeError
      else NotCovered
  end.

(** Line 71.  [math.ceil] of the float quotient is the integer ceiling
    for every count below 2^40, where the quotient is represented to
    better than 1/25. *)
Definition total_pages (total_entries_count : nat) : nat :=
  if (0 <? total_entries_count)%nat
  then ((total_entries_count + (ENTRIES_PER_PAGE - 1)) / ENTRIES_PER_PAGE)%nat
  else 1%nat.

(** Lines 80-82: the slice of page [page_num]. *)
Definition page_entries (all_entries : list json) (page_num : nat) : list json :=
  let start_index := ((page_num - 1) * ENTRIES_PER_PAGE)%nat in
  take ENTRIES_PER_PAGE (drop start_index all_entries).

(** Line 79: the pages that are rendered, from page 1 on. *)
Definition pages (all_entries : list json) : list (list json) :=
  map (page_entries all_entries) (seq 1 (total_pages (length all_entries))).

(** Adjacent keys do not rise. *)
Fixpoint newest_first (keys : list string) : bool :=
  match keys with
  | a :: (b :: _) as r => String.leb b a && newest_first r
  | _ => true
  end.

(** No key is above a key before it. *)
Fixpoint descending (l : list json) : Prop :=
  match l with
  | [] => True
  | y :: r =>
      Forall (fun z => String.leb (key_of z) (key_of y) = true) r /\ descending r
  end.

(** The entries whose key is [s], in order. *)
Definition with_key (s : string) (l : list json) : list json :=
  filter (fun x => key_of x = s) l.

End Site.

(* ===================================================================== *)
(** * Part II.  Theorems                                                   *)
(* ===================================================================== *)

(** ** Text and dictionaries *)

Lemma lookup_set (k k' : string) (v : json) (d : dict) :
  Py.lookup k (Py.set k' v d) = if String.eqb k k' then Some v else Py.lookup k d.
Proof.
  induction d as [|[k0 v0] d IH]; simpl.
  - destruct (String.eqb_spec k k'); reflexivity.
  - destruct (String.eqb_spec k' k0) as [->|Hne]; simpl.
    + destruct (String.eqb_spec k k0); reflexivity.
    + rewrite IH. destruct (String.eqb_spec k k0) as [->|]; [|reflexivity].
      destruct (String.eqb_spec k0 k'); congruence.
Qed.

Lemma lookup_set_same (k : string) (v : json) (d : dict) :
  Py.lookup k (Py.set k v d) = Some v.
Proof. rewrite lookup_set, String.eqb_refl. reflexivity. Qed.

Lemma str_of_Z_nonempty (z : Z) : Text.str_of_Z z <> "".
Proof.
  unfold Text.str_of_Z.
  destruct (Z.to_int z) as [u|u]; simpl; [|discriminate].
  destruct u; simpl; discriminate.
Qed.

(** The defining equations of [replace]: a match is rewritten and the scan
    resumes behind it; any other character is kept. *)
Lemma replace_from_skip (old new : string) (n : nat) (s t : string) :
  String.length s = n -> Text.replace_from old new n (s +:+ t) = Text.replace old new t.
Proof.
  revert n. induction s as [|c s IH]; intros n Hn; simpl in *; subst n.
  - destruct t; reflexivity.
  - apply IH. reflexivity.
Qed.

Lemma prefix_append (a t : string) : String.prefix a (a +:+ t) = true.
Proof.
  induction a as [|c a IH]; simpl.
  - destruct t; reflexivity.
  - destruct (Ascii.ascii_dec c c); [exact IH|congruence].
Qed.

Lemma replace_match (old new : string) (c : ascii) (t : string) :
  Text.replace (String c old) new (String c old +:+ t)
  = new +:+ Text.replace (String c old) new t.
Proof.
  unfold Text.replace at 1.
  change (String c old +:+ t) with (String c (old +:+ t)).
  cbn [Text.replace_from].
  change (String c (old +:+ t)) with (String c old +:+ t).
  rewrite prefix_append. cbn [String.length Nat.pred].
  rewrite replace_from_skip by reflexivity. reflexivity.
Qed.

Lemma replace_other (old new : string) (c : ascii) (t : string) :
  String.prefix old (String c t) = false ->
  Text.replace old new (String c t) = String c (Text.replace old new t).
Proof. intros H. unfold Text.replace. cbn [Text.replace_from]. rewrite H. reflexivity. Qed.

Lemma replace_absent (old new s : string) :
  Text.contains old s = false -> Text.replace old new s = s.
Proof.
  induction s as [|c s IH]; intros H; [reflexivity|].
  cbn [Text.contains] in H. apply orb_false_iff in H as [Hp Hc].
  rewrite replace_other by exact Hp. rewrite IH by exact Hc. reflexivity.
Qed.

(** ** C6: video URL precedence *)

Lemma set_media_video_url (k : string) (v : json) (activity : dict) (m : dict) :
  Py.lookup "media" activity = Some (JDict m) ->
  exists a', Scraper.set_media k v activity = Scraper.Done a'
             /\ Py.lookup "media" a' = Some (JDict (Py.set k v m)).
Proof.
  intros H. unfold Scraper.set_media. rewrite H.
  eexists. split; [reflexivity|]. apply lookup_set_same.
Qed.

Lemma media_after_init (activity : dict) :
  Spec.media_usable activity = true ->
  exists m,
    Py.lookup "media"
      (match Py.get "media" JNull activity with
       | JNull => Py.set "media" (JDict []) activity
       | _ => activity
       end) = Some (JDict m).
Proof.
  unfold Spec.media_usable, Py.get.
  destruct (Py.lookup "media" activity) as [[| | | | |m]|] eqn:E; try discriminate; intros _.
  - exists []. apply lookup_set_same.
  - exists m. exact E.
  - exists []. apply lookup_set_same.
Qed.

Lemma choose_video_url_spec (vi activity m : dict) (u : string) :
  Py.lookup "media" activity = Some (JDict m) ->
  Spec.text_or_missing "downloadable_url" vi = true ->
  Spec.text_or_missing "streamable_url" vi = true ->
  Spec.primary_video (Spec.url_field "downloadable_url" vi)
    (Spec.url_field "streamable_url" vi) = Some u ->
  exists a',
    Scraper.choose_video_url (Py.get "downloadable_url" JNull vi)
      (Py.get "streamable_url" JNull vi) activity = Scraper.Done a'
    /\ Py.lookup "media" a' = Some (JDict (Py.set "video_url" (JStr u) m)).
Proof.
  intros Hm Hd Hs Hp.
  unfold Spec.text_or_missing, Spec.url_field, Py.get in *.
  unfold Scraper.choose_video_url.
  destruct (Py.lookup "downloadable_url" vi) as [[| | |d| |]|]; try discriminate;
    cbn [Py.truthy]; try destruct (String.eqb d "") eqn:Ed; cbn [negb];
    cbn [Spec.primary_video] in Hp;
    try (injection Hp as <-; apply set_media_video_url; exact Hm);
    (destruct (Py.lookup "streamable_url" vi) as [[| | |s| |]|]; try discriminate;
     cbn [Py.truthy]; try destruct (String.eqb s "") eqn:Es; cbn [negb];
     cbn [Spec.primary_video] in Hp; try discriminate;
     cbn [Py.contains];
     destruct (Text.contains "playlist.m3u8" s); injection Hp as <-;
     apply set_media_video_url; exact Hm).
Qed.

(** C6.  For an activity carrying a [video_info] object, [get_feed] sets
    [media.video_url] by first-match precedence: the downloadable URL when
    present; otherwise the streamable URL with [playlist.m3u8] replaced by
    [video.mp4] when it contains that text; otherwise the streamable URL
    as it is. *)
Theorem video_precedence (activity vi : dict) (u : string) :
  Py.lookup "video_info" activity = Some (JDict vi) ->
  Spec.media_usable activity = true ->
  Spec.text_or_missing "downloadable_url" vi = true ->
  Spec.text_or_missing "streamable_url" vi = true ->
  Spec.primary_video (Spec.url_field "downloadable_url" vi)
    (Spec.url_field "streamable_url" vi) = Some u ->
  exists a',
    Scraper.add_video_urls activity = Scraper.Done a'
    /\ Spec.video_url_of a' = Some (JStr u).
Proof.
  intros Hvi Hmedia Hd Hs Hp.
  unfold Scraper.add_video_urls. rewrite Hvi.
  assert (Htruthy :
    Py.truthy (Py.get "streamable_url" JNull vi)
    || Py.truthy (Py.get "downloadable_url" JNull vi) = true).
  { unfold Spec.url_field, Py.get in *.
    destruct (Py.lookup "downloadable_url" vi) as [[| | |d| |]|];
      destruct (Py.lookup "streamable_url" vi) as [[| | |s| |]|];
      cbn [Py.truthy] in *; try discriminate;
      try destruct (String.eqb d ""); try destruct (String.eqb s "");
      cbn in *; try discriminate; rewrite ?orb_true_r; reflexivity. }
  assert (Hne : Py.truthy (JDict vi) = true).
  { destruct vi; [|reflexivity]. cbn in Hp. discriminate. }
  rewrite Hne, Htruthy. cbn [orb].
  destruct (media_after_init activity Hmedia) as [m Hm].
  destruct (choose_video_url_spec vi _ m u Hm Hd Hs Hp) as (a1 & Hc & Hm1).
  rewrite Hc. cbn [Scraper.and_then].
  destruct (Py.truthy (Py.get "thumbnail_url" JNull vi)).
  - destruct (set_media_video_url "video_thumbnail_url"
                (Py.get "thumbnail_url" JNull vi) a1 _ Hm1) as (a2 & Ha2 & Hm2).
    exists a2. split; [exact Ha2|].
    unfold Spec.video_url_of. rewrite Hm2.
    rewrite lookup_set. cbn [String.eqb Ascii.eqb Bool.eqb].
    apply lookup_set_same.
  - exists a1. split; [reflexivity|].
    unfold Spec.video_url_of. rewrite Hm1. apply lookup_set_same.
Qed.

(** Both examples of the claim, by evaluation. *)
Example video_precedence_downloadable :
  Scraper.add_video_urls
    [("video_info", JDict [("downloadable_url", JStr "https://x/d.mp4");
                           ("streamable_url", JStr "https://x/playlist.m3u8")])]
  = Scraper.Done
      [("video_info", JDict [("downloadable_url", JStr "https://x/d.mp4");
                             ("streamable_url", JStr "https://x/playlist.m3u8")]);
       ("media", JDict [("video_url", JStr "https://x/d.mp4")])].
Proof. reflexivity. Qed.

Example video_precedence_hls_rewrite :
  Scraper.add_video_urls
    [("video_info", JDict [("streamable_url", JStr "https://x/a/playlist.m3u8")])]
  = Scraper.Done
      [("video_info", JDict [("streamable_url", JStr "https://x/a/playlist.m3u8")]);
       ("media", JDict [("video_url", JStr "https://x/a/video.mp4")])].
Proof. reflexivity. Qed.

Lemma video_precedence_witness :
  exists a',
    Scraper.add_video_urls
      [("video_info", JDict [("downloadable_url", JNull);
                             ("streamable_url", JStr "https://x/a/playlist.m3u8");
                             ("thumbnail_url", JStr "https://x/a/t.jpg")]);
       ("media", JNull)]
    = Scraper.Done a'
    /\ Spec.video_url_of a' = Some (JStr "https://x/a/video.mp4").
Proof.
  apply (video_precedence _
           [("downloadable_url", JNull);
            ("streamable_url", JStr "https://x/a/playlist.m3u8");
            ("thumbnail_url", JStr "https://x/a/t.jpg")]);
    reflexivity.
Defined.

(** ** Running [download_media] *)

Section Download.

Variable rt : Runtime.
Variables url media_type output_dir : string.
Variable event_date : option datetime.

Lemma download_media_on_disk (w : World) (f : file) :
  w_files w !! Spec.output_path rt w url media_type event_date output_dir = Some f ->
  Scraper.download_media rt url media_type event_date output_dir w
  = (Ret (Some (Spec.file_name rt w url media_type event_date)),
     with_downloaded ({[url]} ∪ w_downloaded w) w).
Proof.
  intros H. unfold Scraper.download_media, bind, ask.
  unfold Spec.output_path, Spec.file_name in H. rewrite H. reflexivity.
Qed.

Lemma download_media_in_history (w : World) :
  w_files w !! Spec.output_path rt w url media_type event_date output_dir = None ->
  url ∈ w_downloaded w ->
  Scraper.download_media rt url media_type event_date output_dir w
  = (Ret (Some (Spec.file_name rt w url media_type event_date)), w).
Proof.
  intros H Hin. unfold Scraper.download_media, bind, ask.
  unfold Spec.output_path, Spec.file_name in H. rewrite H.
  rewrite bool_decide_eq_true_2 by exact Hin. reflexivity.
Qed.

Lemma download_media_interrupted (w : World) :
  w_files w !! Spec.output_path rt w url media_type event_date output_dir = None ->
  url ∉ w_downloaded w ->
  w_sigint w = Some O ->
  Scraper.download_media rt url media_type event_date output_dir w
  = (Interrupt, with_sigint None w).
Proof.
  intros H Hin Hs. unfold Scraper.download_media, bind, ask.
  unfold Spec.output_path, Spec.file_name in H. rewrite H.
  rewrite bool_decide_eq_false_2 by exact Hin.
  unfold catch, Scraper.fetch_to_disk, bind, blocking. rewrite Hs. reflexivity.
Qed.

Lemma download_media_refused (w : World) :
  w_files w !! Spec.output_path rt w url media_type event_date output_dir = None ->
  url ∉ w_downloaded w ->
  w_sigint w <> Some O ->
  w_media w url = FetchRefused ->
  exists w',
    Scraper.download_media rt url media_type event_date output_dir w = (Ret None, w')
    /\ w_files w' = w_files w
    /\ w_downloaded w' = w_downloaded w
    /\ w_history_file w' = w_history_file w
    /\ w_requests w' = w_requests w ++ [MediaRequest url].
Proof.
  intros H Hin Hs Hm. unfold Scraper.download_media, bind, ask.
  unfold Spec.output_path, Spec.file_name in H. rewrite H.
  rewrite bool_decide_eq_false_2 by exact Hin.
  unfold catch, Scraper.fetch_to_disk, bind, blocking, sent, ask, raise, log.
  destruct (w_sigint w) as [[|n]|]; [congruence| |]; cbn; rewrite Hm; cbn;
    eexists; (split; [reflexivity|]); cbn; auto.
Qed.

Lemma download_media_broken (w : World) (n : Z) (chunks : list string) :
  w_files w !! Spec.output_path rt w url media_type event_date output_dir = None ->
  url ∉ w_downloaded w ->
  w_sigint w <> Some O ->
  w_media w url = FetchBody n chunks false ->
  exists w',
    Scraper.download_media rt url media_type event_date output_dir w = (Ret None, w')
    /\ w_files w'
       = <[Spec.output_path rt w url media_type event_date output_dir
           := Bytes (Spec.partial_data n chunks)]> (w_files w)
    /\ w_downloaded w' = w_downloaded w
    /\ w_history_file w' = w_history_file w
    /\ w_requests w' = w_requests w ++ [MediaRequest url].
Proof.
  intros H Hin Hs Hm. unfold Scraper.download_media, bind, ask.
  unfold Spec.output_path, Spec.file_name in *. rewrite H.
  rewrite bool_decide_eq_false_2 by exact Hin.
  unfold catch, Scraper.fetch_to_disk, bind, blocking, sent, ask, raise, log,
    write_file, Spec.partial_data.
  destruct (w_sigint w) as [[|k]|]; [congruence| |]; cbn; rewrite Hm; cbn;
    destruct (1024 * 1024 <? n); cbn;
    eexists; (split; [reflexivity|]); cbn; rewrite ?insert_insert_eq; auto.
Qed.

Lemma download_media_complete (w : World) (n : Z) (chunks : list string) :
  w_files w !! Spec.output_path rt w url media_type event_date output_dir = None ->
  url ∉ w_downloaded w ->
  w_sigint w <> Some O ->
  w_media w url = FetchBody n chunks true ->
  exists w',
    Scraper.download_media rt url media_type event_date output_dir w
    = (Ret (Some (Spec.file_name rt w url media_type event_date)), w')
    /\ w_files w'
       = <[Spec.output_path rt w url media_type event_date output_dir
           := Bytes (Text.concat chunks)]> (w_files w)
    /\ w_downloaded w' = {[url]} ∪ w_downloaded w
    /\ w_history_file w' = HistoryUrls (elements ({[url]} ∪ w_downloaded w))
    /\ w_requests w' = w_requests w ++ [MediaRequest url].
Proof.
  intros H Hin Hs Hm. unfold Scraper.download_media, bind, ask.
  unfold Spec.output_path, Spec.file_name in *. rewrite H.
  rewrite bool_decide_eq_false_2 by exact Hin.
  unfold catch, Scraper.fetch_to_disk, bind, blocking, sent, ask, raise, log,
    write_file, Scraper.mark_downloaded, Scraper._save_download_history, ret.
  destruct (w_sigint w) as [[|k]|]; [congruence| |]; cbn; rewrite Hm; cbn;
    destruct (1024 * 1024 <? n); cbn;
    eexists; (split; [reflexivity|]); cbn; rewrite ?insert_insert_eq; auto.
Qed.

End Download.

(** ** C4: file names *)

Lemma usable_base_name (rt : Runtime) (unix : Z) (url media_type : string)
    (event_date : option datetime) :
  Spec.usable_base url = true ->
  Scraper.timestamped_file_name rt unix url media_type event_date
  = Clock.strftime_minute (default (localtime rt unix) event_date) +:+ "-"
      +:+ Text.basename (Url.unquote (Url.path url)).
Proof.
  unfold Spec.usable_base, Scraper.timestamped_file_name.
  intros H. apply andb_true_iff in H as [H1 H2].
  rewrite H2. apply negb_true_iff in H1. rewrite H1. cbn [negb orb].
  destruct event_date; reflexivity.
Qed.

(** When the final path segment is empty or has no dot, the name is made
    from the clock and the hash of the process. *)
Lemma synthesized_name (rt : Runtime) (unix : Z) (url media_type : string)
    (event_date : option datetime) :
  Spec.usable_base url = false ->
  Scraper.timestamped_file_name rt unix url media_type event_date
  = Clock.strftime_minute (default (localtime rt unix) event_date) +:+ "-"
      +:+ ("media_" +:+ Text.str_of_Z unix +:+ "_"
             +:+ Text.str_of_Z (str_hash rt url `mod` 10000) +:+ "." +:+ media_type).
Proof.
  unfold Spec.usable_base, Scraper.timestamped_file_name.
  intros H.
  assert (E : String.eqb (Text.basename (Url.unquote (Url.path url))) ""
              || negb (Text.has_char "." (Text.basename (Url.unquote (Url.path url))))
              = true).
  { destruct (String.eqb _ ""); [reflexivity|]. cbn in *. rewrite H. reflexivity. }
  rewrite E. destruct event_date; reflexivity.
Qed.

Lemma stable_file_name (rt rt' : Runtime) (w w' : World)
    (url media_type media_type' : string) (d : datetime) :
  Spec.usable_base url = true ->
  Spec.file_name rt w url media_type (Some d)
  = Spec.file_name rt' w' url media_type' (Some d).
Proof.
  intros H. unfold Spec.file_name. rewrite !usable_base_name by exact H. reflexivity.
Qed.

(** C4, as amended.  For a URL whose decoded final path segment is not
    empty and holds a dot, and an event timestamp that is present, the
    local file name is the same in every call: it depends neither on the
    clock, nor on the process and its hash, nor on the media kind. *)
Theorem filename_determinism (rt rt' : Runtime) (unix unix' : Z)
    (url media_type media_type' : string) (d : datetime) :
  Spec.usable_base url = true ->
  Scraper.timestamped_file_name rt unix url media_type (Some d)
  = Scraper.timestamped_file_name rt' unix' url media_type' (Some d).
Proof.
  intros H. rewrite !usable_base_name by exact H. reflexivity.
Qed.

Lemma filename_determinism_witness :
  Scraper.timestamped_file_name Sample.runtime Sample.may_first
    "https://x/a/b.jpg" "image" (Some (Sample.utc Sample.may_first))
  = Scraper.timestamped_file_name Sample.runtime (Sample.may_first + 2)
      "https://x/a/b.jpg" "image" (Some (Sample.utc Sample.may_first)).
Proof.
  apply (filename_determinism Sample.runtime Sample.runtime Sample.may_first
           (Sample.may_first + 2) "https://x/a/b.jpg" "image" "image").
  reflexivity.
Defined.

(** C4 as stated fails: the same event timestamp and URL, asked two
    seconds apart, give two names when the URL ends in a slash. *)
Lemma filename_changes_with_clock :
  fst (Scraper.download_media Sample.runtime "https://x/a/" "image"
         Sample.event "images" Sample.served)
  = Ret (Some "2024-05-01-10-00-media_1714557600_5586.image")
  /\ fst (Scraper.download_media Sample.runtime "https://x/a/" "image"
            Sample.event "images" (with_unix (Sample.may_first + 2) Sample.served))
     = Ret (Some "2024-05-01-10-00-media_1714557602_5586.image")
  /\ fst (Scraper.download_media Sample.runtime "https://x/a/" "image"
            Sample.event "images" Sample.served)
     <> fst (Scraper.download_media Sample.runtime "https://x/a/" "image"
               Sample.event "images" (with_unix (Sample.may_first + 2) Sample.served)).
Proof.
  split; [vm_compute; reflexivity|].
  split; [vm_compute; reflexivity|].
  intros E. vm_compute in E. discriminate E.
Qed.

(** ** Frames: what every step of the pipeline respects *)

Section Frames.

Context {R : World -> World -> Prop} `{!Frame R}.

Lemma keeps_ret {A : Type} (a : A) : keeps R (ret a).
Proof. intros w. apply frame_refl. Qed.

Lemma keeps_raise {A : Type} (e : exn) : keeps R (@raise A e).
Proof. intros w. apply frame_refl. Qed.

Lemma keeps_ask {A : Type} (f : World -> A) : keeps R (ask f).
Proof. intros w. apply frame_refl. Qed.

Lemma keeps_log (r : log_record) : keeps R (log r).
Proof. intros w. apply frame_log. Qed.

Lemma keeps_write_file (path : string) (f : file) : keeps R (write_file path f).
Proof. intros w. apply frame_files. Qed.

Lemma keeps_blocking : keeps R blocking.
Proof.
  intros w. unfold blocking.
  destruct (w_sigint w) as [[|n]|]; cbn;
    [apply frame_sigint|apply frame_sigint|apply frame_refl].
Qed.

Lemma keeps_bind {A B : Type} (m : M A) (k : A -> M B) :
  keeps R m -> (forall a, keeps R (k a)) -> keeps R (bind m k).
Proof.
  intros Hm Hk w. unfold bind. specialize (Hm w).
  destruct (m w) as [[a|e|] w1]; cbn in *; [|exact Hm|exact Hm].
  eapply frame_trans; [exact Hm|apply Hk].
Qed.

Lemma keeps_catch {A : Type} (m : M A) (h : exn -> M A) :
  keeps R m -> (forall e, keeps R (h e)) -> keeps R (catch m h).
Proof.
  intros Hm Hh w. unfold catch. specialize (Hm w).
  destruct (m w) as [[a|e|] w1]; cbn in *; [exact Hm| |exact Hm].
  eapply frame_trans; [exact Hm|apply Hh].
Qed.

Lemma keeps_sleep (n : Z) : keeps R (sleep n).
Proof.
  apply keeps_bind; [apply keeps_blocking|]. intros _ w. apply frame_unix.
Qed.

Lemma keeps_now (rt : Runtime) : keeps R (Scraper.now rt).
Proof. apply keeps_ask. Qed.

Lemma keeps_mark_downloaded (url : string) : keeps R (Scraper.mark_downloaded url).
Proof. intros w. apply frame_mark. Qed.

Lemma keeps_save_download_history : keeps R Scraper._save_download_history.
Proof. intros w. apply frame_history_file. Qed.

Lemma keeps_download_media (rt : Runtime) (url media_type : string)
    (event_date : option datetime) (output_dir : string) :
  keeps R (Scraper.download_media rt url media_type event_date output_dir).
Proof.
  intros w. unfold Scraper.download_media, bind, ask. cbn.
  destruct (w_files w !! _); [apply frame_mark|].
  case_bool_decide as Hin; [apply frame_refl|].
  unfold catch, Scraper.fetch_to_disk, bind, blocking.
  destruct (w_sigint w) as [[|n]|]; cbn; [apply frame_sigint| |].
  all: destruct (w_media w url) as [|size chunks [|]]; cbn;
    try destruct (1024 * 1024 <? size); cbn.
  all: repeat first
         [ apply frame_refl
         | apply frame_sigint
         | match goal with
           | |- R ?a (with_log ?l ?b) =>
               apply (frame_trans a b); [|apply frame_log]
           | |- R ?a (with_files ?f ?b) =>
               apply (frame_trans a b); [|apply frame_files]
           | |- R ?a (with_history_file ?h ?b) =>
               apply (frame_trans a b); [|apply frame_history_file]
           | |- R ?a (with_downloaded ?d ?b) =>
               apply (frame_trans a b); [|apply (frame_mark b url)]
           | |- R ?a (with_requests ?r ?b) =>
               apply (frame_trans a b); [|apply (frame_fetch b url); exact Hin]
           end ].
Qed.

End Frames.

Ltac keeps_auto :=
  repeat first
    [ apply keeps_ret | apply keeps_raise | apply keeps_ask | apply keeps_log
    | apply keeps_write_file | apply keeps_blocking | apply keeps_sleep
    | apply keeps_now | apply keeps_mark_downloaded
    | apply keeps_save_download_history | apply keeps_download_media
    | apply keeps_bind; [|intros ?]
    | apply keeps_catch; [|intros ?]
    | match goal with
      | |- keeps _ (match ?x with _ => _ end) => destruct x
      end ].

Section EntryFrames.

Context {R : World -> World -> Prop} `{!Frame R}.

Lemma keeps_parse_event_date (rt : Runtime) (event_date_str entry_id : json) :
  keeps R (Scraper.parse_event_date rt event_date_str entry_id).
Proof. unfold Scraper.parse_event_date. keeps_auto. Qed.

Lemma keeps_download_field (rt : Runtime) (media : dict)
    (url_type media_type : string) (event_date : option datetime)
    (output_dir : string) (acc : list json) :
  keeps R (Scraper.download_field rt media url_type media_type event_date
             output_dir acc).
Proof. unfold Scraper.download_field. keeps_auto. Qed.

Lemma keeps_download_entry_media (rt : Runtime) (media : json)
    (event_date : option datetime) (images videos : string) :
  keeps R (Scraper.download_entry_media rt media event_date images videos).
Proof.
  unfold Scraper.download_entry_media.
  destruct (Py.truthy media); [|apply keeps_ret].
  destruct media; try apply keeps_raise.
  repeat (apply keeps_bind; [apply keeps_download_field|intros ?]).
  apply keeps_download_field.
Qed.

Lemma keeps_str_field (k fallback : string) (d : dict) :
  keeps R (Scraper.str_field k fallback d).
Proof. unfold Scraper.str_field. keeps_auto. Qed.

Lemma keeps_process_feed_entry (rt : Runtime) (entry : json)
    (feeds images videos : string) :
  keeps R (Scraper.process_feed_entry rt entry feeds images videos).
Proof.
  unfold Scraper.process_feed_entry.
  destruct entry; try apply keeps_raise.
  apply keeps_bind; [apply keeps_parse_event_date|intros ?].
  apply keeps_bind; [apply keeps_now|intros ?].
  apply keeps_bind; [apply keeps_download_entry_media|intros ?].
  apply keeps_bind; [keeps_auto|intros ?].
  apply keeps_bind; [apply keeps_str_field|intros ?].
  apply keeps_bind; [apply keeps_str_field|intros ?].
  keeps_auto.
Qed.

Lemma keeps_process_entries (rt : Runtime) (name feeds images videos : string)
    (entries acc : list json) (w : World) :
  R w (snd (Scraper.process_entries rt name feeds images videos entries acc w)).
Proof.
  revert acc w. induction entries as [|entry rest IH]; intros acc w; cbn.
  - apply frame_refl.
  - pose proof (keeps_process_feed_entry rt entry feeds images videos w) as H.
    destruct (Scraper.process_feed_entry rt entry feeds images videos w)
      as [[pe|e|] w1]; cbn in H.
    + eapply frame_trans; [exact H|apply IH].
    + eapply frame_trans; [exact H|].
      eapply frame_trans; [|apply IH]. apply frame_log.
    + exact H.
Qed.

Lemma keeps_for_each {A : Type} (f : A -> M unit) (l : list A) :
  (forall a, keeps R (f a)) -> keeps R (for_each f l).
Proof.
  intros Hf. induction l as [|a l IH]; cbn; [apply keeps_ret|].
  apply keeps_bind; [apply Hf|intros _; exact IH].
Qed.

Lemma keeps_map_m {A B : Type} (f : A -> M B) (l : list A) :
  (forall a, keeps R (f a)) -> keeps R (map_m f l).
Proof.
  intros Hf. induction l as [|a l IH]; cbn; [apply keeps_ret|].
  apply keeps_bind; [apply Hf|intros b].
  apply keeps_bind; [exact IH|intros bs; apply keeps_ret].
Qed.

Lemma keeps_process_video_info (activity : json) :
  keeps R (Scraper.process_video_info activity).
Proof.
  unfold Scraper.process_video_info, Scraper.video_info_failed. keeps_auto.
Qed.

Lemma keeps_feed_of_json (data : json) : keeps R (Scraper.feed_of_json data).
Proof.
  unfold Scraper.feed_of_json, Scraper.json_has_more.
  destruct data; try apply keeps_raise.
  apply keeps_bind; [|intros ?; keeps_auto].
  destruct (Py.get "activities" (JList []) d); try apply keeps_raise.
  - apply keeps_bind; [|intros ?; apply keeps_ret].
    apply keeps_for_each. intros c.
    apply keeps_bind; [apply keeps_process_video_info|intros ?; apply keeps_ret].
  - apply keeps_bind; [|intros ?; apply keeps_ret].
    apply keeps_map_m. apply keeps_process_video_info.
  - apply keeps_bind; [|intros ?; apply keeps_ret].
    apply keeps_for_each. intros c.
    apply keeps_bind; [apply keeps_process_video_info|intros ?; apply keeps_ret].
Qed.

Lemma keeps_feed_of_markup (doc : list node) : keeps R (Scraper.feed_of_markup doc).
Proof.
  unfold Scraper.feed_of_markup.
  apply keeps_bind; [|intros ?; apply keeps_ret].
  apply keeps_for_each. intros poster. keeps_auto.
Qed.

Lemma keeps_scrape_finally (rt : Runtime) (name feeds : string)
    (student_id : string) (st : Scraper.progress) :
  keeps R (Scraper.scrape_finally rt student_id name feeds st).
Proof. unfold Scraper.scrape_finally. keeps_auto. Qed.

End EntryFrames.

Section FeedFrames.

Context {R : World -> World -> Prop} `{!FeedFrame R}.

Lemma keeps_sent_feed (student_id : string) (p : Z) :
  keeps R (sent (FeedRequest student_id p)).
Proof. intros w. apply frame_feed. Qed.

Lemma keeps_get_feed (student_id : string) (p : Z) :
  keeps R (Scraper.get_feed student_id p).
Proof.
  unfold Scraper.get_feed.
  apply keeps_catch; [|intros ?; keeps_auto].
  apply keeps_bind; [apply keeps_blocking|intros _].
  apply keeps_bind; [apply keeps_sent_feed|intros _].
  apply keeps_bind; [apply keeps_ask|intros response].
  destruct response;
    [apply keeps_raise|apply keeps_feed_of_json|apply keeps_feed_of_markup].
Qed.

Lemma keeps_scrape_pages (rt : Runtime)
    (student_id name feeds images videos : string) (max_pages : option Z)
    (fuel : nat) (st st' : Scraper.progress) (how : Scraper.leave) (w w' : World) :
  Scraper.scrape_pages rt student_id name feeds images videos max_pages fuel st w
  = Some (st', how, w') ->
  R w w'.
Proof.
  revert st w. induction fuel as [|fuel IH]; intros st w; cbn [Scraper.scrape_pages];
    destruct (Py.truthy (Scraper.has_more st) && Scraper.page_allowed max_pages (Scraper.page st));
    try discriminate;
    try (intros [= <- <- <-]; apply frame_refl).
  pose proof (keeps_get_feed student_id (Scraper.page st) w) as Hg.
  destruct (Scraper.get_feed student_id (Scraper.page st) w) as [[[fd|]|e|] w1];
    cbn [snd] in Hg.
  - destruct fd as [|kv fd]; [intros [= <- <- <-]|].
    { eapply frame_trans; [exact Hg|apply frame_log]. }
    destruct (Py.lookup "entries" (kv :: fd)) as [entries|];
      [|intros [= <- <- <-]; eapply frame_trans; [exact Hg|apply frame_log]].
    destruct (negb (Py.truthy entries)); [intros [= <- <- <-]; exact Hg|].
    destruct (Scraper.iterate entries) as [l|]; [|intros [= <- <- <-]; exact Hg].
    pose proof (keeps_process_entries (R := R) rt name feeds images videos l
                  (Scraper.all_entries_for_student st) w1) as Hp.
    destruct (Scraper.process_entries rt name feeds images videos l
                (Scraper.all_entries_for_student st) w1) as [[acc interrupted] w2].
    cbn [snd] in Hp.
    destruct interrupted;
      [intros [= <- <- <-]; eapply frame_trans; [exact Hg|exact Hp]|].
    pose proof (keeps_sleep (R := R) 2 w2) as Hs.
    destruct (sleep 2 w2) as [[[]|e|] w3]; cbn [snd] in Hs.
    + intros H. apply IH in H.
      eapply frame_trans; [exact Hg|].
      eapply frame_trans; [exact Hp|].
      eapply frame_trans; [exact Hs|exact H].
    + intros [= <- <- <-].
      eapply frame_trans; [exact Hg|]. eapply frame_trans; [exact Hp|exact Hs].
    + intros [= <- <- <-].
      eapply frame_trans; [exact Hg|]. eapply frame_trans; [exact Hp|exact Hs].
  - intros [= <- <- <-]. eapply frame_trans; [exact Hg|apply frame_log].
  - intros [= <- <- <-]. exact Hg.
  - intros [= <- <- <-]. exact Hg.
Qed.

Lemma keeps_scrape_try (rt : Runtime)
    (student_id name feeds images videos : string) (max_pages : option Z)
    (fuel : nat) (st' : Scraper.progress) (how : Scraper.leave) (w w' : World) :
  Scraper.scrape_try rt student_id name feeds images videos max_pages fuel w
  = Some (st', how, w') ->
  R w w'.
Proof.
  unfold Scraper.scrape_try.
  pose proof (keeps_get_feed student_id 1 w) as Hg.
  destruct (Scraper.get_feed student_id 1 w) as [[[fd|]|e|] w1]; cbn [snd] in Hg;
    try (intros [= <- <- <-]; exact Hg).
  - destruct fd as [|kv fd]; intros H; apply keeps_scrape_pages in H.
    + eapply frame_trans; [exact Hg|exact H].
    + eapply frame_trans; [exact Hg|].
      eapply frame_trans; [|exact H]. apply frame_log.
  - intros H. apply keeps_scrape_pages in H.
    eapply frame_trans; [exact Hg|exact H].
Qed.

Lemma keeps_scrape_feed_for_student (rt : Runtime)
    (student_id name feeds images videos : string) (max_pages : option Z)
    (fuel : nat) (entries : list json) (w w' : World) :
  Scraper._scrape_feed_for_student rt student_id name feeds images videos
    max_pages fuel w = Some (entries, w') ->
  R w w'.
Proof.
  unfold Scraper._scrape_feed_for_student.
  destruct (Scraper.scrape_try _ _ _ _ _ _ _ _ _) as [[[st how] w1]|] eqn:E;
    [|discriminate].
  apply keeps_scrape_try in E.
  pose proof (keeps_scrape_finally (R := R) rt name feeds student_id st w1) as Hf.
  destruct (Scraper.scrape_finally rt student_id name feeds st w1) as [[es|e|] w2];
    cbn [snd] in Hf; intros [= <- <-];
    (eapply frame_trans; [|eapply frame_trans; [exact E|exact Hf]]);
    apply frame_log.
Qed.

End FeedFrames.


(** The two frames of this development. *)

Ltac steady_leaf :=
  unfold Spec.steady; cbn;
  split; [reflexivity|split; [reflexivity|split; [set_solver|]]].

#[export] Instance steady_frame : Frame Spec.steady.
Proof.
  split.
  - intros w. steady_leaf. reflexivity.
  - intros a b c (Hf1 & Hm1 & Hd1 & Hr1) (Hf2 & Hm2 & Hd2 & Hr2).
    split; [congruence|split; [congruence|split; [set_solver|]]].
    intros u Hu. rewrite Hr2 by (apply Hd1; exact Hu). apply Hr1. exact Hu.
  - intros w l. steady_leaf. reflexivity.
  - intros w f. steady_leaf. reflexivity.
  - intros w t. steady_leaf. reflexivity.
  - intros w h. steady_leaf. reflexivity.
  - intros w s. steady_leaf. reflexivity.
  - intros w u. steady_leaf. reflexivity.
  - intros w u Hu. steady_leaf.
    intros u' Hu'. unfold Spec.media_requests. cbn. rewrite filter_app.
    rewrite filter_cons_False, filter_nil, app_nil_r; [reflexivity|].
    cbn. intros E. apply String.eqb_eq in E. congruence.
Qed.

#[export] Instance steady_feed_frame : FeedFrame Spec.steady.
Proof.
  split; [exact steady_frame|].
  intros w s p. steady_leaf.
  intros u Hu. unfold Spec.media_requests. cbn. rewrite filter_app.
  rewrite filter_cons_False, filter_nil, app_nil_r; [reflexivity|].
  cbn. discriminate.
Qed.

#[export] Instance same_pages_frame : Frame Spec.same_pages.
Proof.
  unfold Spec.same_pages, Spec.pages_requested.
  split; try (intros; reflexivity).
  - intros a b c H1 H2. congruence.
  - intros w u _. cbn. rewrite flat_map_app. cbn. apply app_nil_r.
Qed.

(** ** Without a signal nothing is interrupted *)

Lemma quiet_ret {A : Type} (a : A) : quiet (ret a).
Proof. intros w H. cbn. split; [discriminate|exact H]. Qed.

Lemma quiet_raise {A : Type} (e : exn) : quiet (@raise A e).
Proof. intros w H. cbn. split; [discriminate|exact H]. Qed.

Lemma quiet_ask {A : Type} (f : World -> A) : quiet (ask f).
Proof. intros w H. cbn. split; [discriminate|exact H]. Qed.

Lemma quiet_log (r : log_record) : quiet (log r).
Proof. intros w H. cbn. split; [discriminate|exact H]. Qed.

Lemma quiet_sent (r : request) : quiet (sent r).
Proof. intros w H. cbn. split; [discriminate|exact H]. Qed.

Lemma quiet_write_file (path : string) (f : file) : quiet (write_file path f).
Proof. intros w H. cbn. split; [discriminate|exact H]. Qed.

Lemma quiet_blocking : quiet blocking.
Proof. intros w H. unfold blocking. rewrite H. cbn. split; [discriminate|exact H]. Qed.

Lemma quiet_bind {A B : Type} (m : M A) (k : A -> M B) :
  quiet m -> (forall a, quiet (k a)) -> quiet (bind m k).
Proof.
  intros Hm Hk w H. unfold bind. destruct (Hm w H) as [Hi Hs].
  destruct (m w) as [[a|e|] w1]; cbn in *.
  - apply Hk. exact Hs.
  - split; [discriminate|exact Hs].
  - congruence.
Qed.

Lemma quiet_catch {A : Type} (m : M A) (h : exn -> M A) :
  quiet m -> (forall e, quiet (h e)) -> quiet (catch m h).
Proof.
  intros Hm Hh w H. unfold catch. destruct (Hm w H) as [Hi Hs].
  destruct (m w) as [[a|e|] w1]; cbn in *.
  - split; [discriminate|exact Hs].
  - apply Hh. exact Hs.
  - congruence.
Qed.

Lemma quiet_sleep (n : Z) : quiet (sleep n).
Proof.
  apply quiet_bind; [apply quiet_blocking|].
  intros _ w H. cbn. split; [discriminate|exact H].
Qed.

Lemma quiet_mark_downloaded (url : string) : quiet (Scraper.mark_downloaded url).
Proof. intros w H. cbn. split; [discriminate|exact H]. Qed.

Lemma quiet_save_download_history : quiet Scraper._save_download_history.
Proof. intros w H. cbn. split; [discriminate|exact H]. Qed.

Lemma quiet_for_each {A : Type} (f : A -> M unit) (l : list A) :
  (forall a, quiet (f a)) -> quiet (for_each f l).
Proof.
  intros Hf. induction l as [|a l IH]; cbn; [apply quiet_ret|].
  apply quiet_bind; [apply Hf|intros _; exact IH].
Qed.

Lemma quiet_map_m {A B : Type} (f : A -> M B) (l : list A) :
  (forall a, quiet (f a)) -> quiet (map_m f l).
Proof.
  intros Hf. induction l as [|a l IH]; cbn; [apply quiet_ret|].
  apply quiet_bind; [apply Hf|intros b].
  apply quiet_bind; [exact IH|intros bs; apply quiet_ret].
Qed.

Ltac quiet_auto :=
  repeat first
    [ apply quiet_ret | apply quiet_raise | apply quiet_ask | apply quiet_log
    | apply quiet_sent | apply quiet_write_file | apply quiet_blocking
    | apply quiet_sleep | apply quiet_mark_downloaded
    | apply quiet_save_download_history
    | apply quiet_bind; [|intros ?]
    | apply quiet_catch; [|intros ?]
    | match goal with
      | |- quiet (match ?x with _ => _ end) => destruct x
      end ].

Lemma quiet_download_media (rt : Runtime) (url media_type : string)
    (event_date : option datetime) (output_dir : string) :
  quiet (Scraper.download_media rt url media_type event_date output_dir).
Proof.
  unfold Scraper.download_media, Scraper.fetch_to_disk. quiet_auto.
Qed.

Lemma quiet_download_field (rt : Runtime) (media : dict)
    (url_type media_type : string) (event_date : option datetime)
    (output_dir : string) (acc : list json) :
  quiet (Scraper.download_field rt media url_type media_type event_date
           output_dir acc).
Proof.
  unfold Scraper.download_field.
  destruct (Py.truthy _); [|apply quiet_ret].
  destruct (Py.get url_type JNull media); try apply quiet_raise.
  apply quiet_bind; [apply quiet_download_media|intros ?]. quiet_auto.
Qed.

Lemma quiet_process_feed_entry (rt : Runtime) (entry : json)
    (feeds images videos : string) :
  quiet (Scraper.process_feed_entry rt entry feeds images videos).
Proof.
  unfold Scraper.process_feed_entry.
  destruct entry; try apply quiet_raise.
  apply quiet_bind; [unfold Scraper.parse_event_date, Scraper.now; quiet_auto|intros ?].
  apply quiet_bind; [apply quiet_ask|intros ?].
  apply quiet_bind.
  { unfold Scraper.download_entry_media.
    destruct (Py.truthy _); [|apply quiet_ret].
    destruct (Py.get "media" JNull d); try apply quiet_raise.
    repeat (apply quiet_bind; [apply quiet_download_field|intros ?]).
    apply quiet_download_field. }
  intros ?. unfold Scraper.str_field, Scraper.now. quiet_auto.
Qed.

Lemma quiet_process_entries (rt : Runtime) (name feeds images videos : string)
    (entries acc : list json) (w : World) :
  w_sigint w = None ->
  exists acc' w',
    Scraper.process_entries rt name feeds images videos entries acc w
    = (acc', false, w')
    /\ w_sigint w' = None.
Proof.
  revert acc w. induction entries as [|entry rest IH]; intros acc w H; cbn.
  - eauto.
  - destruct (quiet_process_feed_entry rt entry feeds images videos w H) as [Hi Hs].
    destruct (Scraper.process_feed_entry rt entry feeds images videos w)
      as [[pe|e|] w1]; cbn in *.
    + apply IH. exact Hs.
    + apply IH. exact Hs.
    + congruence.
Qed.

(** The synthesised name changes with the process as well. *)
Example filename_changes_with_process :
  Scraper.timestamped_file_name Sample.runtime Sample.may_first "https://x/a/"
    "image" Sample.event
  = "2024-05-01-10-00-media_1714557600_5586.image"
  /\ Scraper.timestamped_file_name Sample.other_process Sample.may_first
       "https://x/a/" "image" Sample.event
     = "2024-05-01-10-00-media_1714557600_4174.image".
Proof. split; vm_compute; reflexivity. Qed.

(** The model of [hash] against the interpreter: the values that CPython
    3.11 prints for PYTHONHASHSEED 0, 1 and 2. *)
Example str_hash_values :
  map (fun seed => CPython.str_hash seed "https://x/a/") [0; 1; 2]
  = [-8190164759762669239; -1977018401646484414; 3541328213891384174]
  /\ CPython.str_hash 1 "abcdefghi" = 7871229953815684364
  /\ CPython.str_hash 1 "" = 0.
Proof. repeat split; vm_compute; reflexivity. Qed.

(** ** C1: a known URL is not fetched again *)

Lemma download_media_dedup (rt : Runtime) (url media_type output_dir : string)
    (event_date : option datetime) (w : World) :
  url ∈ w_downloaded w
  \/ is_Some (w_files w !! Spec.output_path rt w url media_type event_date output_dir) ->
  exists w',
    Scraper.download_media rt url media_type event_date output_dir w
    = (Ret (Some (Spec.file_name rt w url media_type event_date)), w')
    /\ w_requests w' = w_requests w
    /\ w_files w' = w_files w
    /\ url ∈ w_downloaded w'.
Proof.
  intros H.
  destruct (w_files w !! Spec.output_path rt w url media_type event_date output_dir)
    as [f|] eqn:E.
  - rewrite (download_media_on_disk _ _ _ _ _ _ f E).
    eexists. split; [reflexivity|]. cbn. repeat split.
    apply elem_of_union_l, elem_of_singleton. reflexivity.
  - destruct H as [H|[f Hf]]; [|discriminate Hf].
    rewrite (download_media_in_history _ _ _ _ _ _ E H).
    eexists. split; [reflexivity|]. repeat split. exact H.
Qed.

(** The history survives from one process to the next through its file. *)
Lemma history_reload (w : World) :
  w_downloaded
    (snd (Scraper.init_download_history (snd (Scraper._save_download_history w))))
  = w_downloaded w.
Proof. cbn. apply leibniz_equiv. apply list_to_set_elements. Qed.

(** C1, as amended.  For a URL that is in the download history, or whose
    destination path exists, [download_media] sends no request, writes
    nothing and returns the derived file name, and the URL is in the
    history afterwards.  The name is the one of any other call with the
    same event timestamp and URL whenever the URL's final path segment is
    not empty and holds a dot and the timestamp is present.  No later run
    over a subject's feed requests a URL of the history again. *)
Theorem idempotent_download (rt : Runtime) (url media_type output_dir : string)
    (event_date : option datetime) (w : World) :
  url ∈ w_downloaded w
  \/ is_Some (w_files w !! Spec.output_path rt w url media_type event_date output_dir) ->
  exists w',
    Scraper.download_media rt url media_type event_date output_dir w
    = (Ret (Some (Spec.file_name rt w url media_type event_date)), w')
    /\ w_requests w' = w_requests w
    /\ w_files w' = w_files w
    /\ url ∈ w_downloaded w'
    /\ (forall rt0 w0 media_type0 d,
          Spec.usable_base url = true -> event_date = Some d ->
          Spec.file_name rt w url media_type event_date
          = Spec.file_name rt0 w0 url media_type0 (Some d))
    /\ (forall rt1 student_id name feeds images videos max_pages fuel entries w1,
          Scraper._scrape_feed_for_student rt1 student_id name feeds images videos
            max_pages fuel w' = Some (entries, w1) ->
          Spec.media_requests url w1 = Spec.media_requests url w'
          /\ url ∈ w_downloaded w1).
Proof.
  intros H. destruct (download_media_dedup rt url media_type output_dir event_date w H)
    as (w' & Hrun & Hreq & Hfiles & Hin).
  exists w'. repeat (split; [assumption|]). split.
  - intros rt0 w0 media_type0 d Hbase ->. apply stable_file_name. exact Hbase.
  - intros rt1 student_id name feeds images videos max_pages fuel entries w1 Hscrape.
    apply (keeps_scrape_feed_for_student (R := Spec.steady)) in Hscrape.
    destruct Hscrape as (_ & _ & Hsub & Hsame).
    split; [apply Hsame; exact Hin|apply Hsub; exact Hin].
Qed.

Lemma idempotent_download_witness :
  exists w',
    Scraper.download_media Sample.runtime "https://x/a/b.jpg" "image"
      Sample.event "images" Sample.archived
    = (Ret (Some "2024-05-01-10-00-b.jpg"), w')
    /\ w_requests w' = w_requests Sample.archived.
Proof.
  destruct (idempotent_download Sample.runtime "https://x/a/b.jpg" "image" "images"
              Sample.event Sample.archived) as (w' & Hrun & Hreq & _).
  - right. vm_compute. eexists. reflexivity.
  - exists w'. split; [exact Hrun|exact Hreq].
Defined.

(** C1 as stated fails: a URL that ends in a slash is in the history after
    a first, successful download; two seconds later the same call sends no
    request but returns another file name. *)
Lemma known_url_gets_new_name :
  let first :=
    Scraper.download_media Sample.runtime "https://x/a/" "image" Sample.event
      "images" Sample.served in
  let later := with_unix (Sample.may_first + 2) (snd first) in
  let second :=
    Scraper.download_media Sample.runtime "https://x/a/" "image" Sample.event
      "images" later in
  fst first = Ret (Some "2024-05-01-10-00-media_1714557600_5586.image")
  /\ "https://x/a/" ∈ w_downloaded later
  /\ w_requests (snd second) = w_requests later
  /\ fst second = Ret (Some "2024-05-01-10-00-media_1714557602_5586.image")
  /\ fst second <> fst first.
Proof.
  cbv zeta.
  split; [vm_compute; reflexivity|].
  split; [apply (bool_decide_unpack _); vm_compute; exact I|].
  split; [vm_compute; reflexivity|].
  split; [vm_compute; reflexivity|].
  intros E. vm_compute in E. discriminate E.
Qed.

(** ** C9: a truncated file stays *)

(** [download_media] never writes over a file that exists. *)
Lemma download_media_keeps_files (rt : Runtime) (url media_type output_dir : string)
    (event_date : option datetime) (w : World) (p : string) (f : file) :
  w_files w !! p = Some f ->
  (w_files (snd (Scraper.download_media rt url media_type event_date output_dir w)))
    !! p = Some f.
Proof.
  intros Hp.
  destruct (w_files w !! Spec.output_path rt w url media_type event_date output_dir)
    as [g|] eqn:E.
  { rewrite (download_media_on_disk _ _ _ _ _ _ g E). exact Hp. }
  destruct (decide (url ∈ w_downloaded w)) as [Hin|Hin].
  { rewrite (download_media_in_history _ _ _ _ _ _ E Hin). exact Hp. }
  assert (Hne : Spec.output_path rt w url media_type event_date output_dir <> p)
    by congruence.
  destruct (decide (w_sigint w = Some O)) as [Hs|Hs].
  { rewrite (download_media_interrupted _ _ _ _ _ _ E Hin Hs). exact Hp. }
  destruct (w_media w url) as [|n chunks [|]] eqn:Em.
  - destruct (download_media_refused _ _ _ _ _ _ E Hin Hs Em) as (w' & -> & Hf & _).
    cbn. rewrite Hf. exact Hp.
  - destruct (download_media_complete _ _ _ _ _ _ n chunks E Hin Hs Em)
      as (w' & -> & Hf & _).
    cbn. rewrite Hf, lookup_insert_ne by exact Hne. exact Hp.
  - destruct (download_media_broken _ _ _ _ _ _ n chunks E Hin Hs Em)
      as (w' & -> & Hf & _).
    cbn. rewrite Hf, lookup_insert_ne by exact Hne. exact Hp.
Qed.

(** C9, as amended.  Take a URL whose final path segment is not empty and
    holds a dot, with its event timestamp.  If the stream breaks once the
    destination file is open, the call returns nothing, the file stays at
    the derived path with what was written, and the URL is not in the
    history.  While that file exists, every later call for the same URL
    and timestamp, at any time and in any process, returns the file name
    through the path-exists branch: it marks the URL as downloaded, sends
    no request and leaves the disk as it is.  No call of [download_media]
    writes over an existing file. *)
Theorem truncated_file_stays (rt : Runtime) (url media_type output_dir : string)
    (d : datetime) (w : World) (n : Z) (chunks : list string) :
  Spec.usable_base url = true ->
  w_files w !! Spec.output_path rt w url media_type (Some d) output_dir = None ->
  url ∉ w_downloaded w ->
  w_sigint w <> Some O ->
  w_media w url = FetchBody n chunks false ->
  exists w',
    Scraper.download_media rt url media_type (Some d) output_dir w = (Ret None, w')
    /\ w_files w' !! Spec.output_path rt w url media_type (Some d) output_dir
       = Some (Bytes (Spec.partial_data n chunks))
    /\ (url ∉ w_downloaded w')
    /\ (forall rt2 media_type2 w2 f,
          w_files w2 !! Spec.output_path rt w url media_type (Some d) output_dir
          = Some f ->
          Scraper.download_media rt2 url media_type2 (Some d) output_dir w2
          = (Ret (Some (Spec.file_name rt w url media_type (Some d))),
             with_downloaded ({[url]} ∪ w_downloaded w2) w2))
    /\ (forall rt2 url2 media_type2 event_date2 output_dir2 w2 f,
          w_files w2 !! Spec.output_path rt w url media_type (Some d) output_dir
          = Some f ->
          (w_files (snd (Scraper.download_media rt2 url2 media_type2 event_date2
                           output_dir2 w2)))
            !! Spec.output_path rt w url media_type (Some d) output_dir
          = Some f).
Proof.
  intros Hbase Hnone Hin Hs Hm.
  destruct (download_media_broken _ _ _ _ _ _ n chunks Hnone Hin Hs Hm)
    as (w' & Hrun & Hf & Hd & _).
  exists w'. split; [exact Hrun|]. split.
  { rewrite Hf. apply lookup_insert_eq. }
  split; [rewrite Hd; exact Hin|]. split.
  - intros rt2 media_type2 w2 f Hexists.
    assert (Hname : Spec.file_name rt2 w2 url media_type2 (Some d)
                    = Spec.file_name rt w url media_type (Some d))
      by (apply stable_file_name; exact Hbase).
    rewrite <- Hname. apply (download_media_on_disk _ _ _ _ _ _ f).
    unfold Spec.output_path in *. rewrite Hname. exact Hexists.
  - intros rt2 url2 media_type2 event_date2 output_dir2 w2 f Hexists.
    apply download_media_keeps_files. exact Hexists.
Qed.

Lemma truncated_file_stays_witness :
  exists w',
    Scraper.download_media Sample.runtime "https://x/a/b.jpg" "image"
      (Some (Sample.utc Sample.may_first)) "images" Sample.broken
    = (Ret None, w')
    /\ w_files w' !! "images/2024-05-01-10-00-b.jpg" = Some (Bytes "abc").
Proof.
  destruct (truncated_file_stays Sample.runtime "https://x/a/b.jpg" "image" "images"
              (Sample.utc Sample.may_first) Sample.broken (2 * 1024 * 1024) ["abc"])
    as (w' & Hrun & Hfile & _).
  - reflexivity.
  - vm_compute. reflexivity.
  - intros H. apply (bool_decide_pack _) in H. vm_compute in H. exact H.
  - discriminate.
  - reflexivity.
  - exists w'. split; [exact Hrun|exact Hfile].
Defined.

(** C9 as stated fails: for a URL that ends in a slash the truncated file
    is stored under a name made from the clock; two seconds later the same
    call derives another path, finds nothing there and fetches again. *)
Lemma truncated_file_fetched_again :
  let first :=
    Scraper.download_media Sample.runtime "https://x/a/" "image" Sample.event
      "images" Sample.broken in
  let later := with_unix (Sample.may_first + 2) (snd first) in
  let second :=
    Scraper.download_media Sample.runtime "https://x/a/" "image" Sample.event
      "images" later in
  fst first = Ret None
  /\ w_files later !! "images/2024-05-01-10-00-media_1714557600_5586.image"
     = Some (Bytes "abc")
  /\ w_requests later = [MediaRequest "https://x/a/"]
  /\ w_requests (snd second) = [MediaRequest "https://x/a/"; MediaRequest "https://x/a/"].
Proof.
  cbv zeta. repeat split; vm_compute; reflexivity.
Qed.

(** ** C10: an unreadable history file *)

(** C10.  When [download_history.json] exists but cannot be read or
    parsed, start-up logs a warning and goes on with an empty history.
    From then on a fetch is skipped exactly when the destination path
    exists. *)
Theorem unreadable_history_starts_empty (rt : Runtime) (w : World) :
  w_history_file w = HistoryUnreadable ->
  exists w',
    Scraper.init_download_history w = (Ret tt, w')
    /\ w_downloaded w' = ∅
    /\ w_log w' = w_log w ++ [LogWarning "Could not load download history"]
    /\ w_files w' = w_files w
    /\ (forall url media_type event_date output_dir f,
          w_files w' !! Spec.output_path rt w' url media_type event_date output_dir
          = Some f ->
          w_requests (snd (Scraper.download_media rt url media_type event_date
                             output_dir w'))
          = w_requests w')
    /\ (forall url media_type event_date output_dir,
          w_files w' !! Spec.output_path rt w' url media_type event_date output_dir
          = None ->
          w_sigint w <> Some O ->
          w_requests (snd (Scraper.download_media rt url media_type event_date
                             output_dir w'))
          = w_requests w' ++ [MediaRequest url]).
Proof.
  intros H.
  set (w' := with_log (w_log w ++ [LogWarning "Could not load download history"])
               (with_downloaded ∅ w)).
  exists w'. split.
  { unfold Scraper.init_download_history, Scraper._load_download_history, bind, ask.
    cbn. rewrite H. reflexivity. }
  repeat (split; [reflexivity|]). split.
  - intros url media_type event_date output_dir f Hf.
    rewrite (download_media_on_disk _ _ _ _ _ _ f Hf). reflexivity.
  - intros url media_type event_date output_dir Hnone Hs.
    assert (Hin : url ∉ w_downloaded w') by (cbn; apply not_elem_of_empty).
    assert (Hs' : w_sigint w' <> Some O) by exact Hs.
    destruct (w_media w' url) as [|n chunks [|]] eqn:Em.
    + destruct (download_media_refused _ _ _ _ _ _ Hnone Hin Hs' Em)
        as (w2 & -> & _ & _ & _ & Hr). exact Hr.
    + destruct (download_media_complete _ _ _ _ _ _ n chunks Hnone Hin Hs' Em)
        as (w2 & -> & _ & _ & _ & Hr). exact Hr.
    + destruct (download_media_broken _ _ _ _ _ _ n chunks Hnone Hin Hs' Em)
        as (w2 & -> & _ & _ & _ & Hr). exact Hr.
Qed.

Lemma unreadable_history_starts_empty_witness :
  exists w',
    Scraper.init_download_history Sample.unreadable = (Ret tt, w')
    /\ w_downloaded w' = ∅
    /\ w_log w' = [LogWarning "Could not load download history"].
Proof.
  destruct (unreadable_history_starts_empty Sample.runtime Sample.unreadable)
    as (w' & Hrun & Hd & Hl & _).
  - reflexivity.
  - exists w'. split; [exact Hrun|]. split; [exact Hd|exact Hl].
Defined.

(** ** C8: a failed download is contained *)

Lemma bind_ret_eq {A B : Type} (m : M A) (k : A -> M B) (w w1 : World) (a : A) :
  m w = (Ret a, w1) -> bind m k w = k a w1.
Proof. intros H. unfold bind. rewrite H. reflexivity. Qed.

Lemma has_char_append (c : ascii) (a b : string) :
  Text.has_char c (a +:+ b) = Text.has_char c a || Text.has_char c b.
Proof.
  induction a as [|d a IH]; [reflexivity|].
  change (String d a +:+ b) with (String d (a +:+ b)).
  cbn [Text.has_char]. rewrite IH. apply orb_assoc.
Qed.

Lemma no_slash_digits (u : Decimal.uint) :
  Text.has_char "/" (NilEmpty.string_of_uint u) = false.
Proof. induction u; cbn; auto. Qed.

Lemma no_slash_str_of_Z (z : Z) : Text.has_char "/" (Text.str_of_Z z) = false.
Proof.
  unfold Text.str_of_Z.
  assert (H : forall u, Text.has_char "/" (NilZero.string_of_uint u) = false).
  { intros u. destruct u; cbn; auto using no_slash_digits. }
  destruct (Z.to_int z); cbn; apply H.
Qed.

Lemma no_slash_pad2 (z : Z) : Text.has_char "/" (Text.pad2 z) = false.
Proof.
  unfold Text.pad2. destruct (z <? 10); [|apply no_slash_str_of_Z].
  rewrite has_char_append, no_slash_str_of_Z. reflexivity.
Qed.

Lemma no_slash_strftime_second (d : datetime) :
  Text.has_char "/" (Clock.strftime_second d) = false.
Proof.
  unfold Clock.strftime_second, Clock.strftime_minute.
  rewrite !has_char_append, !no_slash_pad2, no_slash_str_of_Z. reflexivity.
Qed.

Section Containment.

Variable rt : Runtime.

Lemma download_media_failure (url media_type output_dir : string)
    (event_date : option datetime) (w : World) :
  w_files w !! Spec.output_path rt w url media_type event_date output_dir = None ->
  url ∉ w_downloaded w ->
  w_sigint w <> Some O ->
  Spec.fetch_fails (w_media w url) = true ->
  exists w',
    Scraper.download_media rt url media_type event_date output_dir w = (Ret None, w')
    /\ w_downloaded w' = w_downloaded w
    /\ w_history_file w' = w_history_file w.
Proof.
  intros Hnone Hin Hs Hfail.
  destruct (w_media w url) as [|n chunks [|]] eqn:Em; [|discriminate|].
  - destruct (download_media_refused _ _ _ _ _ _ Hnone Hin Hs Em)
      as (w' & Hrun & _ & Hd & Hh & _). eauto.
  - destruct (download_media_broken _ _ _ _ _ _ n chunks Hnone Hin Hs Em)
      as (w' & Hrun & _ & Hd & Hh & _). eauto.
Qed.

(** Without a signal [download_media] returns: every exception of the
    fetch is caught. *)
Lemma download_media_returns (url media_type output_dir : string)
    (event_date : option datetime) (w : World) :
  w_sigint w = None ->
  exists r w',
    Scraper.download_media rt url media_type event_date output_dir w = (Ret r, w')
    /\ w_sigint w' = None.
Proof.
  intros Hs.
  destruct (quiet_download_media rt url media_type event_date output_dir w Hs)
    as [_ Hs'].
  assert (Hq : w_sigint w <> Some O) by congruence.
  destruct (w_files w !! Spec.output_path rt w url media_type event_date output_dir)
    as [g|] eqn:E.
  { rewrite (download_media_on_disk _ _ _ _ _ _ g E) in *. eauto. }
  destruct (decide (url ∈ w_downloaded w)) as [Hin|Hin].
  { rewrite (download_media_in_history _ _ _ _ _ _ E Hin) in *. eauto. }
  destruct (w_media w url) as [|n chunks [|]] eqn:Em.
  - destruct (download_media_refused _ _ _ _ _ _ E Hin Hq Em) as (w' & Hrun & _).
    rewrite Hrun in *. eauto.
  - destruct (download_media_complete _ _ _ _ _ _ n chunks E Hin Hq Em)
      as (w' & Hrun & _).
    rewrite Hrun in *. eauto.
  - destruct (download_media_broken _ _ _ _ _ _ n chunks E Hin Hq Em)
      as (w' & Hrun & _).
    rewrite Hrun in *. eauto.
Qed.

Lemma download_field_returns (media : dict) (url_type media_type output_dir : string)
    (event_date : option datetime) (acc : list json) (w : World) :
  Spec.text_or_missing url_type media = true ->
  w_sigint w = None ->
  exists acc' w',
    Scraper.download_field rt media url_type media_type event_date output_dir acc w
    = (Ret acc', w')
    /\ w_sigint w' = None.
Proof.
  unfold Spec.text_or_missing, Scraper.download_field, Py.get.
  intros Hwf Hs.
  destruct (Py.lookup url_type media) as [[| | |url| |]|]; try discriminate;
    cbn [Py.truthy]; try (cbn; eauto; fail).
  destruct (negb (String.eqb url "")); [|cbn; eauto].
  destruct (download_media_returns url media_type output_dir event_date w Hs)
    as (r & w' & Hrun & Hs').
  rewrite (bind_ret_eq _ _ _ _ _ Hrun).
  destruct r as [f|]; [destruct (String.eqb f "")|]; cbn; eauto.
Qed.

Lemma download_entry_media_returns (entry : dict) (event_date : option datetime)
    (images videos : string) (w : World) :
  Spec.media_well_formed entry = true ->
  w_sigint w = None ->
  exists records w',
    Scraper.download_entry_media rt (Py.get "media" JNull entry) event_date
      images videos w = (Ret records, w')
    /\ w_sigint w' = None.
Proof.
  unfold Spec.media_well_formed, Scraper.download_entry_media.
  intros Hwf Hs.
  destruct (Py.get "media" JNull entry) as [| | | | |m] eqn:Em;
    try (apply negb_true_iff in Hwf; rewrite Hwf; cbn; eauto; fail).
  destruct (Py.truthy (JDict m)); [|cbn; eauto].
  cbn [forallb Spec.media_fields] in Hwf.
  apply andb_true_iff in Hwf as [H1 Hwf]. apply andb_true_iff in Hwf as [H2 Hwf].
  apply andb_true_iff in Hwf as [H3 Hwf]. apply andb_true_iff in Hwf as [H4 _].
  destruct (download_field_returns m "image_url" "image" images event_date [] w H1 Hs)
    as (a1 & w1 & E1 & Hs1).
  destruct (download_field_returns m "thumbnail_url" "image" images event_date a1 w1 H2 Hs1)
    as (a2 & w2 & E2 & Hs2).
  destruct (download_field_returns m "video_thumbnail_url" "image" images event_date
              a2 w2 H3 Hs2) as (a3 & w3 & E3 & Hs3).
  destruct (download_field_returns m "video_url" "video" videos event_date a3 w3 H4 Hs3)
    as (a4 & w4 & E4 & Hs4).
  rewrite (bind_ret_eq _ _ _ _ _ E1), (bind_ret_eq _ _ _ _ _ E2),
    (bind_ret_eq _ _ _ _ _ E3), E4.
  exists a4, w4. split; [reflexivity|exact Hs4].
Qed.

Lemma parse_event_date_returns (entry : dict) (entry_id : json) (w : World) :
  Spec.text_or_missing "event_date" entry = true ->
  exists event_date w',
    Scraper.parse_event_date rt (Py.get "event_date" JNull entry) entry_id w
    = (Ret event_date, w')
    /\ w_sigint w' = w_sigint w /\ w_unix w' = w_unix w.
Proof.
  unfold Spec.text_or_missing, Scraper.parse_event_date, Py.get.
  intros Hwf.
  destruct (Py.lookup "event_date" entry) as [[| | |s| |]|]; try discriminate;
    cbn [Py.truthy]; try (cbn; eauto; fail).
  destruct (negb (String.eqb s "")); [|cbn; eauto].
  destruct (fromisoformat rt _); cbn; eauto.
Qed.

Lemma str_field_returns (k fallback : string) (d : dict) (s : string) (w : World) :
  Py.get k (JStr fallback) d = JStr s ->
  Scraper.str_field k fallback d w = (Ret s, w).
Proof. intros H. unfold Scraper.str_field. rewrite H. reflexivity. Qed.

(** A well-formed entry is archived whatever its downloads do. *)
Lemma process_feed_entry_returns (entry : dict) (feeds images videos : string)
    (w : World) :
  Spec.well_formed_entry rt entry = true ->
  w_sigint w = None ->
  exists records path w',
    Scraper.process_feed_entry rt (JDict entry) feeds images videos w
    = (Ret (Spec.processed_entry rt w entry records), w')
    /\ w_files w' !! path = Some (JsonFile (Spec.processed_entry rt w entry records))
    /\ w_sigint w' = None.
Proof.
  unfold Spec.well_formed_entry. intros Hwf Hs.
  apply andb_true_iff in Hwf as [Hwf Hid]. apply andb_true_iff in Hwf as [Hwf Hactor].
  apply andb_true_iff in Hwf as [Hdate Hmedia].
  destruct (Py.get "actor" (JDict []) entry) as [| | | | |actor] eqn:Eactor;
    try discriminate.
  apply andb_true_iff in Hactor as [Hfirst Hlast].
  unfold Spec.name_well_formed in Hfirst, Hlast.
  destruct (Py.get "first_name" (JStr "unknown") actor) as [| | |first| |] eqn:Efirst;
    try discriminate.
  destruct (Py.get "last_name" (JStr "unknown") actor) as [| | |last| |] eqn:Elast;
    try discriminate.
  apply negb_true_iff in Hfirst, Hlast, Hid.
  destruct (parse_event_date_returns entry (Scraper.entry_id_of rt entry) w Hdate)
    as (event_date & w1 & E1 & Hs1 & Hu1).
  rewrite Hs in Hs1.
  destruct (download_entry_media_returns entry event_date images videos w1 Hmedia Hs1)
    as (records & w2 & E2 & Hs2).
  unfold Scraper.process_feed_entry.
  rewrite (bind_ret_eq _ _ _ _ _ E1).
  unfold Scraper.now at 1. unfold ask at 1. unfold bind at 1.
  rewrite (bind_ret_eq _ _ _ _ _ E2).
  rewrite Eactor. unfold ret at 1. unfold bind at 1.
  rewrite (bind_ret_eq _ _ _ _ _ (str_field_returns _ _ _ _ _ Efirst)).
  rewrite (bind_ret_eq _ _ _ _ _ (str_field_returns _ _ _ _ _ Elast)).
  unfold Scraper.now at 1. unfold ask at 1. unfold bind at 1.
  match goal with
  | |- context [Text.has_char "/" ?name] =>
      assert (Hname : Text.has_char "/" name = false)
  end.
  { rewrite !has_char_append, no_slash_strftime_second, Hfirst, Hlast, Hid.
    reflexivity. }
  rewrite Hname. unfold bind, write_file, ret. rewrite Hu1.
  eexists records, _, _. split; [reflexivity|]. split; [|exact Hs2].
  cbn. apply lookup_insert_eq.
Qed.

End Containment.

(** C8.  A fetch that fails, before or after the destination file is
    opened, is not fatal: [download_media] returns nothing instead of
    raising and leaves the history and its file as they were, and the
    field that named the URL adds no record.  The entry itself is still
    processed: every well-formed entry yields its ProcessedEntry, written
    to its JSON file, and the loop goes on to the next entry. *)
Theorem failed_download_is_contained (rt : Runtime)
    (url media_type output_dir : string) (event_date : option datetime) (w : World) :
  w_files w !! Spec.output_path rt w url media_type event_date output_dir = None ->
  url ∉ w_downloaded w ->
  w_sigint w = None ->
  Spec.fetch_fails (w_media w url) = true ->
  exists w',
    Scraper.download_media rt url media_type event_date output_dir w = (Ret None, w')
    /\ (url ∉ w_downloaded w')
    /\ w_downloaded w' = w_downloaded w
    /\ w_history_file w' = w_history_file w
    /\ (forall media url_type acc,
          Py.lookup url_type media = Some (JStr url) -> url <> "" ->
          Scraper.download_field rt media url_type media_type event_date
            output_dir acc w = (Ret acc, w'))
    /\ (forall entry feeds images videos name rest acc w0,
          Spec.well_formed_entry rt entry = true ->
          w_sigint w0 = None ->
          exists records path w1,
            Scraper.process_feed_entry rt (JDict entry) feeds images videos w0
            = (Ret (Spec.processed_entry rt w0 entry records), w1)
            /\ w_files w1 !! path
               = Some (JsonFile (Spec.processed_entry rt w0 entry records))
            /\ Scraper.process_entries rt name feeds images videos
                 (JDict entry :: rest) acc w0
               = Scraper.process_entries rt name feeds images videos rest
                   (acc ++ [Spec.processed_entry rt w0 entry records]) w1).
Proof.
  intros Hnone Hin Hs Hfail.
  assert (Hq : w_sigint w <> Some O) by congruence.
  destruct (download_media_failure rt url media_type output_dir event_date w
              Hnone Hin Hq Hfail) as (w' & Hrun & Hd & Hh).
  exists w'. split; [exact Hrun|]. split; [rewrite Hd; exact Hin|].
  split; [exact Hd|]. split; [exact Hh|]. split.
  - intros media url_type acc Hfield Hne.
    unfold Scraper.download_field, Py.get. rewrite Hfield. cbn [Py.truthy].
    apply String.eqb_neq in Hne. rewrite Hne. cbn [negb].
    rewrite (bind_ret_eq _ _ _ _ _ Hrun). reflexivity.
  - intros entry feeds images videos name rest acc w0 Hwf Hs0.
    destruct (process_feed_entry_returns rt entry feeds images videos w0 Hwf Hs0)
      as (records & path & w1 & Hentry & Hfile & _).
    exists records, path, w1. split; [exact Hentry|]. split; [exact Hfile|].
    cbn [Scraper.process_entries]. rewrite Hentry. reflexivity.
Qed.

Lemma failed_download_is_contained_witness :
  (exists w',
     Scraper.download_media Sample.runtime "https://x/a/b.jpg" "image" Sample.event
       "images" Sample.image_refused = (Ret None, w')
     /\ w_downloaded w' = ∅)
  /\ fst (Scraper.process_feed_entry Sample.runtime
            (JDict Sample.entry_with_image_and_video) "feeds" "images" "videos"
            Sample.image_refused)
     = Ret (JDict [("id", JStr "e1");
                   ("original_data", JDict Sample.entry_with_image_and_video);
                   ("processed_timestamp", JStr "2024-05-01T10:00:00");
                   ("downloaded_media",
                    JList [JDict [("filename", JStr "2024-05-01-10-00-v.mp4");
                                  ("original_url", JStr "https://x/a/v.mp4");
                                  ("type", JStr "video");
                                  ("url_type", JStr "video_url")]])]).
Proof.
  split; [|vm_compute; reflexivity].
  destruct (failed_download_is_contained Sample.runtime "https://x/a/b.jpg" "image"
              "images" Sample.event Sample.image_refused)
    as (w' & Hrun & _ & Hd & _).
  - vm_compute. reflexivity.
  - intros H. apply (bool_decide_pack _) in H. vm_compute in H. exact H.
  - reflexivity.
  - reflexivity.
  - exists w'. split; [exact Hrun|exact Hd].
Defined.

(** The file of the entry of the example, as it lies on disk. *)
Example failed_download_entry_file :
  w_files (snd (Scraper.process_feed_entry Sample.runtime
                  (JDict Sample.entry_with_image_and_video) "feeds" "images" "videos"
                  Sample.image_refused))
    !! "feeds/2024-05-01-10-00-00-ada-lovelace-e1.json"
  = Some (JsonFile
            (JDict [("id", JStr "e1");
                    ("original_data", JDict Sample.entry_with_image_and_video);
                    ("processed_timestamp", JStr "2024-05-01T10:00:00");
                    ("downloaded_media",
                     JList [JDict [("filename", JStr "2024-05-01-10-00-v.mp4");
                                   ("original_url", JStr "https://x/a/v.mp4");
                                   ("type", JStr "video");
                                   ("url_type", JStr "video_url")]])])).
Proof. vm_compute. reflexivity. Qed.

(** ** C7: the derived identifier *)

Lemma process_feed_entry_id (rt : Runtime) (entry : dict)
    (feeds images videos : string) (w w' : World) (processed : json) :
  Scraper.process_feed_entry rt (JDict entry) feeds images videos w
  = (Ret processed, w') ->
  exists d, processed = JDict d
            /\ Py.lookup "id" d = Some (Scraper.entry_id_of rt entry).
Proof.
  unfold Scraper.process_feed_entry, bind.
  destruct (Scraper.parse_event_date _ _ _ _) as [[ed|e|] w1]; try discriminate.
  destruct (Scraper.now rt w1) as [[t|e|] w2]; try discriminate.
  destruct (Scraper.download_entry_media _ _ _ _ _ _) as [[records|e|] w3];
    try discriminate.
  destruct (Py.get "actor" (JDict []) entry); try discriminate.
  cbn [ret].
  destruct (Scraper.str_field "first_name" _ _ _) as [[first|e|] w4]; try discriminate.
  destruct (Scraper.str_field "last_name" _ _ _) as [[last|e|] w5]; try discriminate.
  destruct (Scraper.now rt w5) as [[t'|e|] w6]; try discriminate.
  destruct (Text.has_char "/" _); try discriminate.
  cbn. intros [= <- <-]. eexists. split; reflexivity.
Qed.

(** C7, as amended.  An entry without [object_id] gets an identifier that
    is not empty: the decimal text of a number below 10000.  Within one
    process it is a function of the serialised payload: two entries with
    the same payload get the same identifier, and that identifier is the
    [id] of the ProcessedEntry. *)
Theorem fallback_id (rt : Runtime) (entry1 entry2 : dict) :
  Py.lookup "object_id" entry1 = None ->
  Py.lookup "object_id" entry2 = None ->
  Dump.dumps (JDict entry1) = Dump.dumps (JDict entry2) ->
  Scraper.entry_id_of rt entry1 = Scraper.entry_id_of rt entry2
  /\ (exists n, 0 <= n < 10000
                /\ Scraper.entry_id_of rt entry1 = JStr (Text.str_of_Z n)
                /\ Text.str_of_Z n <> "")
  /\ (forall feeds images videos w w' processed,
        Scraper.process_feed_entry rt (JDict entry1) feeds images videos w
        = (Ret processed, w') ->
        exists d, processed = JDict d
                  /\ Py.lookup "id" d = Some (Scraper.entry_id_of rt entry2)).
Proof.
  intros H1 H2 Hsame.
  assert (E : Scraper.entry_id_of rt entry1 = Scraper.entry_id_of rt entry2).
  { unfold Scraper.entry_id_of, Py.get. rewrite H1, H2, Hsame. reflexivity. }
  split; [exact E|]. split.
  - exists (str_hash rt (Dump.dumps (JDict entry1)) `mod` 10000).
    split; [apply Z.mod_pos_bound; reflexivity|].
    split; [|apply str_of_Z_nonempty].
    unfold Scraper.entry_id_of, Py.get. rewrite H1. reflexivity.
  - intros feeds images videos w w' processed Hrun. rewrite <- E.
    eapply process_feed_entry_id. exact Hrun.
Qed.

Lemma fallback_id_witness :
  Scraper.entry_id_of Sample.runtime Sample.nap_entry
  = Scraper.entry_id_of Sample.runtime Sample.nap_entry
  /\ Scraper.entry_id_of Sample.runtime Sample.nap_entry = JStr "2857".
Proof.
  split; [|vm_compute; reflexivity].
  apply (fallback_id Sample.runtime Sample.nap_entry Sample.nap_entry); reflexivity.
Defined.

(** C7 as stated fails: the identifier is not a function of the content
    alone.  One payload gets 2857 from a process started with
    PYTHONHASHSEED=1 and 4729 from one started with PYTHONHASHSEED=2. *)
Lemma fallback_id_changes_with_process :
  Scraper.entry_id_of Sample.runtime Sample.nap_entry = JStr "2857"
  /\ Scraper.entry_id_of Sample.other_process Sample.nap_entry = JStr "4729"
  /\ Scraper.entry_id_of Sample.runtime Sample.nap_entry
     <> Scraper.entry_id_of Sample.other_process Sample.nap_entry.
Proof.
  split; [vm_compute; reflexivity|].
  split; [vm_compute; reflexivity|].
  intros E. vm_compute in E. discriminate E.
Qed.

(** ** C5: pagination by count *)

Lemma process_video_info_logs (activity : json) (w : World) :
  exists activity' lg,
    Scraper.process_video_info activity w = (Ret activity', with_log lg w).
Proof.
  destruct w. unfold Scraper.process_video_info, Scraper.video_info_failed.
  destruct activity as [| | |s|l|a]; cbn;
    try destruct (Text.contains "video_info" s);
    try destruct (existsb (Py.is_str_lit "video_info") l);
    try destruct (Scraper.add_video_urls a);
    cbn; eexists _, _; reflexivity.
Qed.

Lemma map_process_video_info (l : list json) (w : World) :
  exists l' lg,
    map_m Scraper.process_video_info l w = (Ret l', with_log lg w)
    /\ length l' = length l.
Proof.
  revert w. induction l as [|a l IH]; intros w.
  - exists [], (w_log w). destruct w. split; reflexivity.
  - destruct (process_video_info_logs a w) as (a' & lg & Ea).
    destruct (IH (with_log lg w)) as (l' & lg' & El & Hlen).
    exists (a' :: l'), lg'. cbn [map_m].
    rewrite (bind_ret_eq _ _ _ _ _ Ea), (bind_ret_eq _ _ _ _ _ El).
    split; [reflexivity|]. cbn. rewrite Hlen. reflexivity.
Qed.

Lemma get_feed_json (student_id : string) (p : Z) (w : World) (d : dict)
    (activities : list json) (count page page_size : Z) :
  w_sigint w = None ->
  w_feed w student_id p = FeedJson (JDict d) ->
  Spec.json_page d activities count page page_size ->
  exists entries lg,
    Scraper.get_feed student_id p w
    = (Ret (Some (Spec.feed_page entries (page * page_size <? count))),
       with_log lg (with_requests (w_requests w ++ [FeedRequest student_id p]) w))
    /\ length entries = length activities.
Proof.
  intros Hs Hfeed (Hacts & Hcount & Hpage & Hsize).
  destruct (map_process_video_info activities
              (with_requests (w_requests w ++ [FeedRequest student_id p]) w))
    as (entries & lg & Emap & Hlen).
  exists entries, lg. split; [|exact Hlen].
  unfold Scraper.get_feed, catch, bind at 1, blocking. rewrite Hs.
  unfold bind at 1, sent. unfold bind at 1, ask. cbn [w_feed with_requests].
  rewrite Hfeed. unfold Scraper.feed_of_json, Py.get. rewrite Hacts.
  rewrite (bind_ret_eq _ _ _ _ _ (bind_ret_eq _ _ _ _ _ Emap)).
  unfold ret at 1. unfold Scraper.json_has_more, Py.get.
  rewrite Hcount, Hpage, Hsize. reflexivity.
Qed.

Lemma scrape_pages_done (rt : Runtime)
    (student_id name feeds images videos : string) (max_pages : option Z)
    (fuel : nat) (st : Scraper.progress) (w : World) :
  Py.truthy (Scraper.has_more st) = false ->
  Scraper.scrape_pages rt student_id name feeds images videos max_pages fuel st w
  = Some (st, Scraper.Completed, w).
Proof. intros H. destruct fuel; cbn; rewrite H; reflexivity. Qed.

Lemma sleep_returns (n : Z) (w : World) :
  w_sigint w = None -> sleep n w = (Ret tt, with_unix (w_unix w + n) w).
Proof. intros H. unfold sleep, bind, blocking. rewrite H. reflexivity. Qed.

(** One turn of the loop on a JSON page that is not empty. *)
Lemma scrape_pages_turn (rt : Runtime)
    (student_id name feeds images videos : string) (max_pages : option Z)
    (fuel : nat) (st : Scraper.progress) (w : World) (d : dict)
    (activities : list json) (count page_size : Z) :
  Py.truthy (Scraper.has_more st) = true ->
  Scraper.page_allowed max_pages (Scraper.page st) = true ->
  w_sigint w = None ->
  w_feed w student_id (Scraper.page st) = FeedJson (JDict d) ->
  Spec.json_page d activities count (Scraper.page st) page_size ->
  activities <> [] ->
  exists acc w',
    Scraper.scrape_pages rt student_id name feeds images videos max_pages
      (S fuel) st w
    = Scraper.scrape_pages rt student_id name feeds images videos max_pages fuel
        {| Scraper.page := Scraper.page st + 1;
           Scraper.all_entries_for_student := acc;
           Scraper.has_more := JBool (Scraper.page st * page_size <? count);
           Scraper.total_entries := Scraper.total_entries st |} w'
    /\ w_sigint w' = None
    /\ w_feed w' = w_feed w
    /\ Spec.pages_requested w' = Spec.pages_requested w ++ [Scraper.page st].
Proof.
  intros Hmore Hallowed Hs Hfeed Hpage Hne.
  destruct (get_feed_json student_id (Scraper.page st) w d activities count
              (Scraper.page st) page_size Hs Hfeed Hpage)
    as (entries & lg & Eget & Hlen).
  set (w1 := with_log lg
               (with_requests (w_requests w ++ [FeedRequest student_id (Scraper.page st)])
                  w)) in *.
  assert (Hs1 : w_sigint w1 = None) by exact Hs.
  destruct (quiet_process_entries rt name feeds images videos entries
              (Scraper.all_entries_for_student st) w1 Hs1)
    as (acc & w2 & Eproc & Hs2).
  pose proof (keeps_process_entries (R := Spec.steady) rt name feeds images videos
                entries (Scraper.all_entries_for_student st) w1) as Hsteady.
  pose proof (keeps_process_entries (R := Spec.same_pages) rt name feeds images videos
                entries (Scraper.all_entries_for_student st) w1) as Hpages.
  rewrite Eproc in Hsteady, Hpages. cbn [snd] in Hsteady, Hpages.
  destruct Hsteady as (Hfeed2 & _).
  exists acc, (with_unix (w_unix w2 + 2) w2).
  split; [|split; [exact Hs2|split; [exact Hfeed2|]]].
  - cbn [Scraper.scrape_pages]. rewrite Hmore, Hallowed. cbn [andb].
    rewrite Eget. cbn [Spec.feed_page Py.lookup String.eqb Ascii.eqb Bool.eqb].
    assert (Htruthy : Py.truthy (JList entries) = true).
    { destruct entries; [|reflexivity]. destruct activities; [congruence|discriminate]. }
    rewrite Htruthy. cbn [negb Scraper.iterate]. rewrite Eproc.
    rewrite (sleep_returns 2 w2 Hs2). reflexivity.
  - unfold Spec.same_pages in Hpages. cbn [w_requests with_unix].
    unfold Spec.pages_requested in *. cbn [w_requests with_unix].
    rewrite Hpages. cbn. rewrite flat_map_app. reflexivity.
Qed.

Lemma page_allowed_below (max_pages : option Z) (p q : Z) :
  p <= q -> Scraper.page_allowed max_pages q = true ->
  Scraper.page_allowed max_pages p = true.
Proof.
  unfold Scraper.page_allowed. destruct max_pages as [m|]; [|reflexivity].
  intros Hle H. apply Z.leb_le in H. apply Z.leb_le. lia.
Qed.

(** C5.  For a JSON payload [get_feed] returns
    [has_more = count > page * page_size].  With thirty entries in pages
    of ten the flag is true after pages 1 and 2 and false after page 3,
    and the paginator, given enough turns and no signal, processes
    exactly the pages 1, 2 and 3 and stops. *)
Theorem pagination_by_count (rt : Runtime)
    (student_id name feeds images videos : string) (w : World) :
  w_sigint w = None ->
  (forall p d activities count page page_size,
     w_feed w student_id p = FeedJson (JDict d) ->
     Spec.json_page d activities count page page_size ->
     exists entries w',
       Scraper.get_feed student_id p w
       = (Ret (Some (Spec.feed_page entries (page * page_size <? count))), w'))
  /\ (forall (pages : Z -> list json) (max_pages : option Z) (fuel : nat),
        (forall p, 1 <= p <= 3 ->
                   exists d, w_feed w student_id p = FeedJson (JDict d)
                             /\ Spec.json_page d (pages p) 30 p 10
                             /\ pages p <> []) ->
        Scraper.page_allowed max_pages 3 = true ->
        (3 <= fuel)%nat ->
        exists entries w' index,
          Scraper._scrape_feed_for_student rt student_id name feeds images videos
            max_pages fuel w = Some (entries, w')
          /\ Spec.pages_requested w' = Spec.pages_requested w ++ [1; 1; 2; 3]
          /\ w_files w' !! path_join feeds "feed_index.json"
             = Some (JsonFile (JDict index))
          /\ Py.lookup "pages_scraped" index = Some (JInt 3)
          /\ Py.lookup "entries" index = Some (JList entries)).
Proof.
  intros Hs. split.
  { intros p d activities count page page_size Hfeed Hpage.
    destruct (get_feed_json student_id p w d activities count page page_size
                Hs Hfeed Hpage) as (entries & lg & E & _).
    eauto. }
  intros pages max_pages fuel Hpages Hmax Hfuel.
  destruct fuel as [|[|[|fuel]]]; try lia. clear Hfuel.
  destruct (Hpages 1 ltac:(lia)) as (d1 & Hf1 & Hp1 & Hn1).
  destruct (Hpages 2 ltac:(lia)) as (d2 & Hf2 & Hp2 & Hn2).
  destruct (Hpages 3 ltac:(lia)) as (d3 & Hf3 & Hp3 & Hn3).
  unfold Scraper._scrape_feed_for_student, Scraper.scrape_try.
  set (w0 := snd (log _ w)).
  assert (Hs0 : w_sigint w0 = None) by exact Hs.
  destruct (get_feed_json student_id 1 w0 d1 (pages 1) 30 1 10 Hs0 Hf1 Hp1)
    as (e0 & lg0 & E0 & _).
  rewrite E0. cbn [Spec.feed_page Py.get Py.lookup String.eqb Ascii.eqb Bool.eqb].
  match goal with
  | |- context [Scraper.scrape_pages _ _ _ _ _ _ _ _ ?st ?wa] =>
      set (st1 := st); set (w1 := wa)
  end.
  assert (Hs1 : w_sigint w1 = None) by exact Hs.
  destruct (scrape_pages_turn rt student_id name feeds images videos max_pages
              (S (S fuel)) st1 w1 d1 (pages 1) 30 10)
    as (acc1 & w2 & E1 & Hs2 & Hfeed2 & Hreq2);
    [reflexivity|apply (page_allowed_below _ 1 3); [lia|exact Hmax]|exact Hs1
    |exact Hf1|exact Hp1|exact Hn1|].
  rewrite E1. clear E1.
  match goal with
  | |- context [Scraper.scrape_pages _ _ _ _ _ _ _ _ ?st w2] => set (st2 := st)
  end.
  destruct (scrape_pages_turn rt student_id name feeds images videos max_pages
              (S fuel) st2 w2 d2 (pages 2) 30 10)
    as (acc2 & w3 & E2 & Hs3 & Hfeed3 & Hreq3);
    [reflexivity|apply (page_allowed_below _ 2 3); [lia|exact Hmax]|exact Hs2
    |rewrite Hfeed2; exact Hf2|exact Hp2|exact Hn2|].
  rewrite E2. clear E2.
  match goal with
  | |- context [Scraper.scrape_pages _ _ _ _ _ _ _ _ ?st w3] => set (st3 := st)
  end.
  destruct (scrape_pages_turn rt student_id name feeds images videos max_pages
              fuel st3 w3 d3 (pages 3) 30 10)
    as (acc3 & w4 & E3 & Hs4 & Hfeed4 & Hreq4);
    [reflexivity|exact Hmax|exact Hs3
    |rewrite Hfeed3, Hfeed2; exact Hf3|exact Hp3|exact Hn3|].
  rewrite E3. clear E3.
  rewrite scrape_pages_done by reflexivity.
  unfold Scraper.scrape_finally, Scraper.now, bind, ask, write_file, log, ret,
    Scraper._save_download_history.
  cbn [Py.truthy default Scraper.total_entries Scraper.page
       Scraper.all_entries_for_student st3 st2 st1 Z.eqb negb].
  eexists _, _, _. split; [reflexivity|].
  split; [|split; [cbn; apply lookup_insert_eq|split; reflexivity]].
  cbn [w_requests with_log with_files with_history_file].
  change (Spec.pages_requested w4 = Spec.pages_requested w ++ [1; 1; 2; 3]).
  rewrite Hreq4, Hreq3, Hreq2.
  change (Scraper.page st3) with 3. change (Scraper.page st2) with 2.
  change (Scraper.page st1) with 1.
  unfold w1, w0, Spec.pages_requested. cbn [w_requests with_log with_requests snd log].
  rewrite flat_map_app. cbn. rewrite <- !app_assoc. reflexivity.
Qed.

Lemma pagination_by_count_witness :
  exists entries w',
    Scraper._scrape_feed_for_student Sample.runtime "kid" "Kid" "feeds" "images"
      "videos" (Some 5) 3 Sample.thirty = Some (entries, w')
    /\ Spec.pages_requested w' = [1; 1; 2; 3].
Proof.
  destruct (pagination_by_count Sample.runtime "kid" "Kid" "feeds" "images" "videos"
              Sample.thirty) as [_ H]; [reflexivity|].
  destruct (H Sample.ten_entries (Some 5) 3%nat) as (entries & w' & index & E & P & _).
  - intros p Hp.
    assert (Hcases : p = 1 \/ p = 2 \/ p = 3) by lia.
    destruct Hcases as [ -> | [ -> | -> ] ]; eexists;
      (split; [reflexivity|split; [repeat split; reflexivity|discriminate]]).
  - reflexivity.
  - apply le_n.
  - exists entries, w'. split; [exact E|exact P].
Defined.

(** The run of the example, by evaluation: thirty entries, three pages,
    and the flag after each page. *)
Example thirty_entries_three_pages :
  option_map (fun r => length (fst r))
    (Scraper._scrape_feed_for_student Sample.runtime "kid" "Kid" "feeds" "images"
       "videos" None 10 Sample.thirty) = Some 30%nat
  /\ fst (Scraper.get_feed "kid" 1 Sample.thirty)
     = Ret (Some (Spec.feed_page (Sample.ten_entries 1) true))
  /\ fst (Scraper.get_feed "kid" 2 Sample.thirty)
     = Ret (Some (Spec.feed_page (Sample.ten_entries 2) true))
  /\ fst (Scraper.get_feed "kid" 3 Sample.thirty)
     = Ret (Some (Spec.feed_page (Sample.ten_entries 3) false)).
Proof. repeat split; vm_compute; reflexivity. Qed.

(** ** C2: the index of an interrupted run *)

Lemma bind_ret_inv {A B : Type} (m : M A) (k : A -> M B) (w w' : World) (b : B) :
  bind m k w = (Ret b, w') ->
  exists a w1, m w = (Ret a, w1) /\ k a w1 = (Ret b, w').
Proof.
  unfold bind. destruct (m w) as [[a|e|] w1]; try discriminate. eauto.
Qed.

(** The page that [get_feed] returns has two keys; [count] is not one. *)
Lemma get_feed_page_shape (student_id : string) (p : Z) (w w' : World) (fd : dict) :
  Scraper.get_feed student_id p w = (Ret (Some fd), w') ->
  exists entries b, fd = [("entries", entries); ("has_more", JBool b)].
Proof.
  unfold Scraper.get_feed, catch.
  match goal with |- context [match ?m w with _ => _ end] => destruct (m w) as [[r|e|] w1] eqn:E end;
    [|cbn; discriminate|discriminate].
  intros [= -> ->].
  apply bind_ret_inv in E as (? & w2 & _ & E).
  apply bind_ret_inv in E as (? & w3 & _ & E).
  apply bind_ret_inv in E as (response & w4 & _ & E).
  destruct response as [|data|doc]; [discriminate| |].
  - unfold Scraper.feed_of_json in E. destruct data; try discriminate.
    apply bind_ret_inv in E as (acts & w5 & _ & E).
    apply bind_ret_inv in E as (b & w6 & _ & E).
    injection E as <- _. eauto.
  - unfold Scraper.feed_of_markup in E.
    apply bind_ret_inv in E as (? & w5 & _ & E).
    injection E as <- _. eauto.
Qed.

Lemma scrape_pages_total (rt : Runtime)
    (student_id name feeds images videos : string) (max_pages : option Z)
    (fuel : nat) (st st' : Scraper.progress) (how : Scraper.leave) (w w' : World) :
  Scraper.scrape_pages rt student_id name feeds images videos max_pages fuel st w
  = Some (st', how, w') ->
  Scraper.total_entries st' = Scraper.total_entries st.
Proof.
  revert st w. induction fuel as [|fuel IH]; intros st w; cbn [Scraper.scrape_pages];
    destruct (Py.truthy (Scraper.has_more st) && Scraper.page_allowed max_pages (Scraper.page st));
    try discriminate;
    try (intros [= <- <- <-]; reflexivity).
  destruct (Scraper.get_feed student_id (Scraper.page st) w) as [[[fd|]|e|] w1];
    try (intros [= <- <- <-]; reflexivity).
  destruct fd as [|kv fd]; [intros [= <- <- <-]; reflexivity|].
  destruct (Py.lookup "entries" (kv :: fd)) as [entries|];
    [|intros [= <- <- <-]; reflexivity].
  destruct (negb (Py.truthy entries)); [intros [= <- <- <-]; reflexivity|].
  destruct (Scraper.iterate entries) as [l|]; [|intros [= <- <- <-]; reflexivity].
  destruct (Scraper.process_entries rt name feeds images videos l
              (Scraper.all_entries_for_student st) w1) as [[acc interrupted] w2].
  destruct interrupted; [intros [= <- <- <-]; reflexivity|].
  destruct (sleep 2 w2) as [[[]|e|] w3];
    try (intros [= <- <- <-]; reflexivity).
  intros H. apply IH in H. exact H.
Qed.

(** In every run the count of available entries that reaches the index is
    missing or zero: it is read from a page that does not carry it. *)
Lemma available_count_is_never_read (rt : Runtime)
    (student_id name feeds images videos : string) (max_pages : option Z)
    (fuel : nat) (st : Scraper.progress) (how : Scraper.leave) (w w' : World) :
  Scraper.scrape_try rt student_id name feeds images videos max_pages fuel w
  = Some (st, how, w') ->
  Scraper.total_entries st = None \/ Scraper.total_entries st = Some (JInt 0).
Proof.
  unfold Scraper.scrape_try.
  destruct (Scraper.get_feed student_id 1 w) as [[[fd|]|e|] w1] eqn:E;
    try (intros [= <- <- <-]; left; reflexivity).
  - destruct (get_feed_page_shape _ _ _ _ _ E) as (entries & b & ->).
    intros H. apply scrape_pages_total in H. right. rewrite H. reflexivity.
  - intros H. apply scrape_pages_total in H. left. rewrite H. reflexivity.
Qed.

(** The index of every run: it lists and counts the entries that the run
    returns, and its count of available entries is missing or zero. *)
Lemma index_of_every_run (rt : Runtime)
    (student_id name feeds images videos : string) (max_pages : option Z)
    (fuel : nat) (entries : list json) (w w' : World) :
  Scraper._scrape_feed_for_student rt student_id name feeds images videos
    max_pages fuel w = Some (entries, w') ->
  exists index,
    w_files w' !! path_join feeds "feed_index.json" = Some (JsonFile (JDict index))
    /\ Py.lookup "total_entries_scraped" index
       = Some (JInt (Z.of_nat (length entries)))
    /\ Py.lookup "entries" index = Some (JList entries)
    /\ (Py.lookup "total_entries_available" index = Some JNull
        \/ Py.lookup "total_entries_available" index = Some (JInt 0)).
Proof.
  unfold Scraper._scrape_feed_for_student.
  destruct (Scraper.scrape_try _ _ _ _ _ _ _ _ _) as [[[st how] w1]|] eqn:E;
    [|discriminate].
  apply available_count_is_never_read in E.
  unfold Scraper.scrape_finally, Scraper.now, bind, ask, write_file, log, ret,
    Scraper._save_download_history.
  destruct (Py.truthy (default JNull (Scraper.total_entries st)));
    intros [= <- <-]; eexists;
    (split; [cbn; apply lookup_insert_eq|]);
    (split; [reflexivity|]); (split; [reflexivity|]);
    cbn; destruct E as [-> | ->]; auto.
Qed.

(** C2, at the failing input.  Five entries are available and the run is
    interrupted while the third is processed.  The index holds the two
    processed entries and counts them, and the third entry is not in it;
    the count of available entries is 0, where the claim says 5. *)
Theorem partial_run_index :
  exists entries w' index,
    Scraper._scrape_feed_for_student Sample.runtime "kid" "Kid" "feeds" "images"
      "videos" (Some 5) 10 Sample.five_interrupted = Some (entries, w')
    /\ length entries = 2%nat
    /\ w_files w' !! "feeds/feed_index.json" = Some (JsonFile (JDict index))
    /\ Py.lookup "total_entries_scraped" index = Some (JInt 2)
    /\ Py.lookup "entries" index = Some (JList entries)
    /\ map (fun e => match e with
                     | JDict d => Py.lookup "id" d
                     | _ => None
                     end) entries
       = [Some (JStr "1"); Some (JStr "2")]
    /\ Py.lookup "total_entries_available" index = Some (JInt 0)
    /\ w_files w' !! "images/2024-05-01-10-00-3.jpg" = None.
Proof.
  eexists _, _, _. split; [vm_compute; reflexivity|].
  repeat split; vm_compute; reflexivity.
Qed.

(** ** C3: has_more of a markup page *)

(** On markup [get_feed] answers an empty page without a next page, or
    nothing at all. *)
Lemma markup_page_has_no_more (student_id : string) (p : Z) (w w' : World)
    (doc : list node) (fd : dict) :
  w_feed w student_id p = FeedMarkup doc ->
  Scraper.get_feed student_id p w = (Ret (Some fd), w') ->
  fd = Spec.feed_page [] false.
Proof.
  intros Hfeed. unfold Scraper.get_feed, catch.
  match goal with |- context [match ?m w with _ => _ end] => destruct (m w) as [[r|e|] w1] eqn:E end;
    [|cbn; discriminate|discriminate].
  intros [= -> ->].
  apply bind_ret_inv in E as (? & w2 & E2 & E).
  apply bind_ret_inv in E as (? & w3 & E3 & E).
  apply bind_ret_inv in E as (response & w4 & E4 & E).
  assert (response = FeedMarkup doc) as ->.
  { pose proof (keeps_blocking (R := Spec.steady) w) as K2.
    rewrite E2 in K2. destruct K2 as (F2 & _).
    pose proof (keeps_sent_feed (R := Spec.steady) student_id p w2) as K3.
    rewrite E3 in K3. destruct K3 as (F3 & _). cbn [snd] in F2, F3.
    unfold ask in E4. injection E4 as <- <-. rewrite F3, F2. exact Hfeed. }
  unfold Scraper.feed_of_markup in E.
  apply bind_ret_inv in E as (? & w5 & _ & E).
  injection E as <- _. reflexivity.
Qed.

Lemma node_nested_ind (P : node -> Prop) :
  (forall t, P (TextNode t)) ->
  (forall nm attrs ch, Forall P ch -> P (Element nm attrs ch)) ->
  forall n, P n.
Proof.
  intros Htext Helem. fix IH 1. intros [nm attrs ch|t]; [|apply Htext].
  apply Helem. induction ch as [|c ch IHch]; constructor; [apply IH|exact IHch].
Qed.

Lemma first_some_map_found {A B : Type} (f : A -> option B) (l : list A) (b : B) :
  Html.first_some (map f l) = Some b -> exists a, In a l /\ f a = Some b.
Proof.
  induction l as [|a l IH]; cbn; [discriminate|].
  destruct (f a) as [b'|] eqn:E.
  - intros [= <-]. exists a. split; [left; reflexivity|exact E].
  - intros H. destruct (IH H) as (a' & Hin & Ha'). exists a'. split; [right|]; assumption.
Qed.

Lemma first_some_map_finds {A B : Type} (f : A -> option B) (l : list A) (a : A) (b : B) :
  In a l -> f a = Some b -> exists b', Html.first_some (map f l) = Some b'.
Proof.
  induction l as [|a' l IH]; cbn; [intros []|].
  intros [->|Hin] Hfa.
  - rewrite Hfa. eauto.
  - destruct (f a'); [eauto|]. apply IH; assumption.
Qed.

Lemma select_next_page_sound (n : node) :
  forall inside m, Html.select_next_page inside n = Some m -> Spec.affordance inside n.
Proof.
  induction n as [t|nm attrs ch IH] using node_nested_ind; intros inside m;
    cbn [Html.select_next_page]; [discriminate|].
  destruct (Html.next_page_match inside nm attrs) eqn:E.
  - intros _. apply Spec.affordance_here. exact E.
  - intros H. apply first_some_map_found in H as (c & Hin & Hc).
    apply (Spec.affordance_below inside nm attrs ch c Hin).
    rewrite Forall_forall in IH. eapply IH; [|exact Hc].
    apply list_elem_of_In. exact Hin.
Qed.

Lemma select_next_page_complete (n : node) (inside : bool) :
  Spec.affordance inside n -> exists m, Html.select_next_page inside n = Some m.
Proof.
  induction 1 as [inside nm attrs ch E|inside nm attrs ch c Hin _ IH];
    cbn [Html.select_next_page].
  - rewrite E. eauto.
  - destruct (Html.next_page_match inside nm attrs); [eauto|].
    destruct IH as (m & Hm).
    eapply first_some_map_finds; [exact Hin|exact Hm].
Qed.

(** [_parse_feed_html] sets [has_more] exactly when the markup holds a
    "next page" affordance. *)
Lemma parse_feed_html_finds_affordance (doc : list node) :
  Scraper._parse_feed_html_has_more doc = true
  <-> exists n, In n doc /\ Spec.affordance false n.
Proof.
  unfold Scraper._parse_feed_html_has_more. split.
  - destruct (Html.first_some _) as [m|] eqn:E; [intros _|discriminate].
    apply first_some_map_found in E as (n & Hin & Hn).
    exists n. split; [exact Hin|]. eapply select_next_page_sound. exact Hn.
  - intros (n & Hin & Ha).
    destruct (select_next_page_complete n false Ha) as (m & Hm).
    destruct (first_some_map_finds _ doc n m Hin Hm) as (m' & ->). reflexivity.
Qed.

(** C3, at the failing input.  The markup holds a link of class
    [next-page].  [_parse_feed_html] finds it and sets [has_more];
    [get_feed], which the paginator calls, returns [has_more = False]. *)
Theorem markup_next_page_is_ignored :
  Scraper._parse_feed_html_has_more Sample.markup_with_next = true
  /\ fst (Scraper.get_feed "kid" 1 Sample.markup_feed)
     = Ret (Some [("entries", JList []); ("has_more", JBool false)]).
Proof. split; vm_compute; reflexivity. Qed.

(* ===================================================================== *)
(** * Part III.  Further properties of the code                            *)
(* ===================================================================== *)

(** ** download_media: what it writes and where *)

Lemma basename_without_slash (s : string) :
  Text.has_char "/" s = false -> Text.basename s = s.
Proof. intros H. destruct s as [|c s]; [reflexivity|]. cbn [Text.basename]. rewrite H. reflexivity. Qed.

Lemma basename_no_slash (s : string) : Text.has_char "/" (Text.basename s) = false.
Proof.
  induction s as [|c s IH]; [reflexivity|].
  cbn [Text.basename]. destruct (Text.has_char "/" (String c s)) eqn:E; [exact IH|exact E].
Qed.

Lemma basename_path_join (dir name : string) :
  Text.has_char "/" name = false -> Text.basename (path_join dir name) = name.
Proof.
  intros H. unfold path_join. induction dir as [|c dir IH].
  - change ("" +:+ "/" +:+ name) with (String "/" name).
    cbn [Text.basename Text.has_char Ascii.eqb Bool.eqb orb].
    apply basename_without_slash. exact H.
  - change (String c dir +:+ "/" +:+ name) with (String c (dir +:+ "/" +:+ name)).
    cbn [Text.basename].
    assert (E : Text.has_char "/" (String c (dir +:+ "/" +:+ name)) = true).
    { cbn [Text.has_char]. rewrite !has_char_append. cbn. rewrite !orb_true_r. reflexivity. }
    rewrite E. exact IH.
Qed.

Lemma no_slash_strftime_minute (d : datetime) :
  Text.has_char "/" (Clock.strftime_minute d) = false.
Proof.
  unfold Clock.strftime_minute.
  rewrite !has_char_append, !no_slash_pad2, no_slash_str_of_Z. reflexivity.
Qed.

(** X1.  The name that [download_media] derives holds no slash, whatever
    the URL, when the media type holds none (the callers pass "image" and
    "video"): the destination is the entry of that name directly in the
    output directory. *)
Theorem download_stays_in_directory (rt : Runtime) (unix : Z)
    (url media_type output_dir : string) (event_date : option datetime) :
  Text.has_char "/" media_type = false ->
  Text.has_char "/" (Scraper.timestamped_file_name rt unix url media_type event_date)
  = false
  /\ Text.basename
       (path_join output_dir
          (Scraper.timestamped_file_name rt unix url media_type event_date))
     = Scraper.timestamped_file_name rt unix url media_type event_date.
Proof.
  intros Hkind.
  assert (H : Text.has_char "/"
                (Scraper.timestamped_file_name rt unix url media_type event_date)
              = false).
  { unfold Scraper.timestamped_file_name.
    rewrite !has_char_append, no_slash_strftime_minute.
    destruct (String.eqb _ "" || negb _).
    - rewrite !has_char_append, !no_slash_str_of_Z, Hkind. reflexivity.
    - rewrite basename_no_slash. reflexivity. }
  split; [exact H|]. apply basename_path_join. exact H.
Qed.

Lemma download_stays_in_directory_witness :
  Text.basename
    (path_join "images"
       (Scraper.timestamped_file_name Sample.runtime Sample.may_first
          "https://x/a/..%2F..%2Fetc%2Fpasswd.txt" "image" Sample.event))
  = "2024-05-01-10-00-passwd.txt".
Proof.
  destruct (download_stays_in_directory Sample.runtime Sample.may_first
              "https://x/a/..%2F..%2Fetc%2Fpasswd.txt" "image" "images" Sample.event)
    as [_ H]; [reflexivity|].
  rewrite H. vm_compute. reflexivity.
Defined.

(** X2.  A call of [download_media] changes the disk at one path at most:
    the derived destination, and only when nothing was there. *)
Theorem download_writes_one_new_file (rt : Runtime)
    (url media_type output_dir : string) (event_date : option datetime)
    (w : World) (p : string) :
  (w_files (snd (Scraper.download_media rt url media_type event_date output_dir w)))
    !! p = w_files w !! p
  \/ (p = Spec.output_path rt w url media_type event_date output_dir
      /\ w_files w !! p = None).
Proof.
  destruct (w_files w !! Spec.output_path rt w url media_type event_date output_dir)
    as [g|] eqn:E.
  { rewrite (download_media_on_disk _ _ _ _ _ _ g E). left. reflexivity. }
  destruct (decide (url ∈ w_downloaded w)) as [Hin|Hin].
  { rewrite (download_media_in_history _ _ _ _ _ _ E Hin). left. reflexivity. }
  destruct (decide (w_sigint w = Some O)) as [Hs|Hs].
  { rewrite (download_media_interrupted _ _ _ _ _ _ E Hin Hs). left. reflexivity. }
  destruct (decide (p = Spec.output_path rt w url media_type event_date output_dir))
    as [->|Hne]; [right; split; [reflexivity|exact E]|left].
  destruct (w_media w url) as [|n chunks [|]] eqn:Em.
  - destruct (download_media_refused _ _ _ _ _ _ E Hin Hs Em) as (w' & -> & Hf & _).
    cbn [snd]. rewrite Hf. reflexivity.
  - destruct (download_media_complete _ _ _ _ _ _ n chunks E Hin Hs Em)
      as (w' & -> & Hf & _).
    cbn [snd]. rewrite Hf. apply lookup_insert_ne. congruence.
  - destruct (download_media_broken _ _ _ _ _ _ n chunks E Hin Hs Em)
      as (w' & -> & Hf & _).
    cbn [snd]. rewrite Hf. apply lookup_insert_ne. congruence.
Qed.





(** ** get_feed: failures and markup *)

Lemma quiet_process_video_info (activity : json) :
  quiet (Scraper.process_video_info activity).
Proof.
  unfold Scraper.process_video_info, Scraper.video_info_failed. quiet_auto.
Qed.

Lemma quiet_get_feed (student_id : string) (p : Z) :
  quiet (Scraper.get_feed student_id p).
Proof.
  unfold Scraper.get_feed.
  apply quiet_catch; [|intros ?; quiet_auto].
  apply quiet_bind; [apply quiet_blocking|intros _].
  apply quiet_bind; [apply quiet_sent|intros _].
  apply quiet_bind; [apply quiet_ask|intros response].
  destruct response as [|data|doc]; [apply quiet_raise| |].
  - unfold Scraper.feed_of_json, Scraper.json_has_more.
    destruct data; try apply quiet_raise.
    apply quiet_bind; [|intros ?; quiet_auto].
    destruct (Py.get "activities" (JList []) d); try apply quiet_raise.
    + apply quiet_bind; [|intros ?; apply quiet_ret].
      apply quiet_for_each. intros c.
      apply quiet_bind; [apply quiet_process_video_info|intros ?; apply quiet_ret].
    + apply quiet_bind; [|intros ?; apply quiet_ret].
      apply quiet_map_m. apply quiet_process_video_info.
    + apply quiet_bind; [|intros ?; apply quiet_ret].
      apply quiet_for_each. intros c.
      apply quiet_bind; [apply quiet_process_video_info|intros ?; apply quiet_ret].
  - unfold Scraper.feed_of_markup.
    apply quiet_bind; [|intros ?; apply quiet_ret].
    apply quiet_for_each. intros poster. quiet_auto.
Qed.

(** X5.  [get_feed] never raises: whatever goes wrong with the request or
    the payload is answered by [None].  Without a pending signal it
    returns; an error of the endpoint gives [None] and one error record;
    a signal that arrives at the call is the only thing that leaves it,
    before anything is sent. *)
Theorem get_feed_contains_failures (student_id : string) (p : Z) (w : World) :
  (forall e, fst (Scraper.get_feed student_id p w) <> Raise e)
  /\ (w_sigint w = None ->
      exists r w', Scraper.get_feed student_id p w = (Ret r, w'))
  /\ (w_sigint w <> Some O -> w_feed w student_id p = FeedError ->
      exists w',
        Scraper.get_feed student_id p w = (Ret None, w')
        /\ w_log w' = w_log w ++ [LogError "Failed to fetch feed"])
  /\ (w_sigint w = Some O ->
      Scraper.get_feed student_id p w = (Interrupt, with_sigint None w)).
Proof.
  assert (Hraise : forall e, fst (Scraper.get_feed student_id p w) <> Raise e).
  { intros e. unfold Scraper.get_feed, catch.
    match goal with
    | |- context [match ?m w with _ => _ end] => destruct (m w) as [[r|e'|] w1]
    end; cbn; discriminate. }
  split; [exact Hraise|]. split; [|split].
  - intros Hs. destruct (quiet_get_feed student_id p w Hs) as [Hi _].
    destruct (Scraper.get_feed student_id p w) as [[r|e|] w'] eqn:E.
    + eauto.
    + exfalso. apply (Hraise e). reflexivity.
    + exfalso. apply Hi. reflexivity.
  - intros Hs Hfeed. unfold Scraper.get_feed, catch, bind, blocking, sent, ask.
    destruct (w_sigint w) as [[|n]|]; [congruence| |]; cbn; rewrite Hfeed; cbn;
      eexists; split; reflexivity.
  - intros Hs. unfold Scraper.get_feed, catch, bind, blocking. rewrite Hs. reflexivity.
Qed.

Lemma get_feed_contains_failures_witness :
  exists w',
    Scraper.get_feed "kid" 1 Sample.blank = (Ret None, w')
    /\ w_log w' = [LogError "Failed to fetch feed"].
Proof.
  destruct (get_feed_contains_failures "kid" 1 Sample.blank) as (_ & _ & H & _).
  destruct H as (w' & Hrun & Hlog); [discriminate|reflexivity|].
  exists w'. split; [exact Hrun|exact Hlog].
Defined.

Lemma posters_loop (posters : list node) (f : node -> M unit) (w : World) :
  (forall n, Facts.poster_with_background n = false -> f n w = (Ret tt, w)) ->
  (forall n, Facts.poster_with_background n = true -> exists e, f n w = (Raise e, w)) ->
  if existsb Facts.poster_with_background posters
  then exists e, for_each f posters w = (Raise e, w)
  else for_each f posters w = (Ret tt, w).
Proof.
  intros Hok Hbad. induction posters as [|n posters IH]; [reflexivity|].
  cbn [existsb for_each]. unfold bind.
  destruct (Facts.poster_with_background n) eqn:E; cbn [orb].
  - destruct (Hbad n E) as (e & ->). eauto.
  - rewrite (Hok n E). exact IH.
Qed.

(** X6.  On markup [get_feed] never yields an entry.  A page with a video
    poster that names a background image makes it return [None], because
    building the entry raises; any other page gives the empty page
    without a next page. *)
Theorem markup_feed_yields_no_entry (student_id : string) (p : Z) (w : World)
    (doc : list node) :
  w_sigint w <> Some O ->
  w_feed w student_id p = FeedMarkup doc ->
  fst (Scraper.get_feed student_id p w)
  = Ret (if existsb Facts.poster_with_background (Facts.video_posters doc)
         then None
         else Some (Spec.feed_page [] false)).
Proof.
  intros Hs Hfeed.
  unfold Scraper.get_feed, catch, bind at 1, blocking.
  assert (Hgo : forall w0, w_feed w0 student_id p = FeedMarkup doc ->
    fst (match
           (sent (FeedRequest student_id p);;;
            let* response := ask (fun w1 => w_feed w1 student_id p) in
            match response with
            | FeedError => raise RequestError
            | FeedJson data => Scraper.feed_of_json data
            | FeedMarkup doc0 => Scraper.feed_of_markup doc0
            end) w0
         with
         | (Raise e, w') =>
             (log (LogError "Failed to fetch feed");;; ret None) w'
         | r => r
         end)
    = Ret (if existsb Facts.poster_with_background (Facts.video_posters doc)
           then None else Some (Spec.feed_page [] false))).
  { intros w0 Hf. unfold bind at 1, sent. unfold bind at 1, ask.
    cbn [w_feed with_requests]. rewrite Hf. unfold Scraper.feed_of_markup, bind.
    match goal with
    | |- context [for_each ?f ?l ?w1] =>
        pose proof (posters_loop l f w1) as Hloop
    end.
    fold (Facts.video_posters doc) in *.
    destruct (existsb Facts.poster_with_background (Facts.video_posters doc)).
    - destruct Hloop as (e & ->); [| |reflexivity].
      + intros [nm attrs ch|t] Hn; cbn in Hn |- *; [rewrite Hn|]; reflexivity.
      + intros [nm attrs ch|t] Hn; cbn in Hn |- *; [|discriminate].
        rewrite Hn. destruct (Text.contains Scraper.url_open _); eauto.
    - rewrite Hloop; [reflexivity| |].
      + intros [nm attrs ch|t] Hn; cbn in Hn |- *; [rewrite Hn|]; reflexivity.
      + intros [nm attrs ch|t] Hn; cbn in Hn |- *; [|discriminate].
        rewrite Hn. destruct (Text.contains Scraper.url_open _); eauto. }
  destruct (w_sigint w) as [[|n]|]; [congruence| |]; apply Hgo; exact Hfeed.
Qed.

Lemma markup_feed_yields_no_entry_witness :
  fst (Scraper.get_feed "kid" 1 Sample.markup_feed)
  = Ret (Some (Spec.feed_page [] false)).
Proof.
  rewrite (markup_feed_yields_no_entry "kid" 1 Sample.markup_feed
             Sample.markup_with_next); [reflexivity|discriminate|reflexivity].
Defined.

(** ** get_feed: what the handling of video_info leaves alone *)

Lemma lookup_set_other (k k' : string) (v : json) (d : dict) :
  k <> k' -> Py.lookup k (Py.set k' v d) = Py.lookup k d.
Proof.
  intros H. rewrite lookup_set. apply String.eqb_neq in H. rewrite H. reflexivity.
Qed.

Lemma touches_refl (a : dict) : Video.touches_video_only a a.
Proof. split; [reflexivity|]. intros m H. exists m. split; [exact H|reflexivity]. Qed.

Lemma touches_trans (a b c : dict) :
  Video.touches_video_only a b -> Video.touches_video_only b c ->
  Video.touches_video_only a c.
Proof.
  intros [H1 M1] [H2 M2]. split.
  - intros k Hk. rewrite H2, H1 by exact Hk. reflexivity.
  - intros m Hm. destruct (M1 m Hm) as (m1 & Hm1 & K1).
    destruct (M2 m1 Hm1) as (m2 & Hm2 & K2).
    exists m2. split; [exact Hm2|].
    intros k Ha Hb. rewrite K2, K1 by assumption. reflexivity.
Qed.

Lemma set_media_touches (k : string) (v : json) (a : dict) :
  k = "video_url" \/ k = "video_thumbnail_url" ->
  Video.touches_video_only a (Facts.value (Scraper.set_media k v a)).
Proof.
  intros Hk. unfold Scraper.set_media.
  destruct (Py.lookup "media" a) as [[| | | | |m]|] eqn:E; try apply touches_refl.
  cbn [Facts.value]. split.
  - intros k' Hk'. apply lookup_set_other. exact Hk'.
  - intros m0 Hm0. rewrite E in Hm0. injection Hm0 as <-.
    exists (Py.set k v m). split; [apply lookup_set_same|].
    intros k' Ha Hb. apply lookup_set_other. destruct Hk as [->| ->]; assumption.
Qed.

Lemma media_init_touches (a : dict) :
  Video.touches_video_only a
    (match Py.get "media" JNull a with
     | JNull => Py.set "media" (JDict []) a
     | _ => a
     end).
Proof.
  unfold Py.get.
  destruct (Py.lookup "media" a) as [[| | | | |m]|] eqn:E; try apply touches_refl.
  - split; [intros k Hk; apply lookup_set_other; exact Hk|].
    intros m Hm. rewrite E in Hm. discriminate.
  - split; [intros k Hk; apply lookup_set_other; exact Hk|].
    intros m Hm. rewrite E in Hm. discriminate.
Qed.

(** X7.  The handling of [video_info] in [get_feed] changes an activity
    in two places at most, whether it completes or raises half-way:
    [media.video_url] and [media.video_thumbnail_url].  Every other key of
    the activity and every other field of its [media] object keeps its
    value, and an activity without [video_info] is left as it is. *)
Theorem video_info_touches_video_fields_only (activity : dict) :
  Video.touches_video_only activity (Facts.value (Scraper.add_video_urls activity))
  /\ (Py.lookup "video_info" activity = None ->
      Scraper.add_video_urls activity = Scraper.Done activity).
Proof.
  split; [|intros H; unfold Scraper.add_video_urls; rewrite H; reflexivity].
  unfold Scraper.add_video_urls.
  destruct (Py.lookup "video_info" activity) as [[| | | | |vi]|]; try apply touches_refl.
  destruct (Py.truthy (JDict vi)); [|apply touches_refl].
  destruct (_ || _ || _); [|apply touches_refl].
  eapply touches_trans; [apply media_init_touches|].
  set (a1 := match Py.get "media" JNull activity with
             | JNull => Py.set "media" (JDict []) activity
             | _ => activity
             end).
  assert (Hchoose : Video.touches_video_only a1
            (Facts.value (Scraper.choose_video_url
                            (Py.get "downloadable_url" JNull vi)
                            (Py.get "streamable_url" JNull vi) a1))).
  { unfold Scraper.choose_video_url.
    destruct (Py.truthy (Py.get "downloadable_url" JNull vi));
      [apply set_media_touches; left; reflexivity|].
    destruct (Py.truthy (Py.get "streamable_url" JNull vi)); [|apply touches_refl].
    destruct (Py.contains "playlist.m3u8" _) as [[|]|]; try apply touches_refl;
      [|apply set_media_touches; left; reflexivity].
    destruct (Py.get "streamable_url" JNull vi); try apply touches_refl.
    apply set_media_touches. left. reflexivity. }
  destruct (Scraper.choose_video_url _ _ a1) as [a2|a2]; cbn [Scraper.and_then];
    cbn [Facts.value] in *; [|exact Hchoose].
  eapply touches_trans; [exact Hchoose|].
  destruct (Py.truthy (Py.get "thumbnail_url" JNull vi)); [|apply touches_refl].
  apply set_media_touches. right. reflexivity.
Qed.

Lemma choose_video_url_done (vi activity m : dict) :
  Py.lookup "media" activity = Some (JDict m) ->
  Spec.text_or_missing "downloadable_url" vi = true ->
  Spec.text_or_missing "streamable_url" vi = true ->
  exists a' m',
    Scraper.choose_video_url (Py.get "downloadable_url" JNull vi)
      (Py.get "streamable_url" JNull vi) activity = Scraper.Done a'
    /\ Py.lookup "media" a' = Some (JDict m').
Proof.
  intros Hm Hd Hs. unfold Spec.text_or_missing, Py.get in *.
  unfold Scraper.choose_video_url.
  assert (Hset : forall v, exists a' m',
             Scraper.set_media "video_url" v activity = Scraper.Done a'
             /\ Py.lookup "media" a' = Some (JDict m')).
  { intros v. destruct (set_media_video_url "video_url" v activity m Hm) as (a' & E & L).
    eauto. }
  destruct (Py.lookup "downloadable_url" vi) as [[| | |d| |]|]; try discriminate;
    cbn [Py.truthy]; try destruct (negb (String.eqb d "")); try apply Hset;
    (destruct (Py.lookup "streamable_url" vi) as [[| | |s| |]|]; try discriminate;
     cbn [Py.truthy]; try destruct (negb (String.eqb s ""));
     cbn [Py.contains]; try destruct (Text.contains "playlist.m3u8" s);
     try apply Hset; eauto).
Qed.

(** X8.  A [video_info.thumbnail_url] that is set always becomes
    [media.video_thumbnail_url], whichever video URL was chosen and also
    when there is none. *)
Theorem video_thumbnail_is_always_recorded (activity vi : dict) (thumbnail : json) :
  Py.lookup "video_info" activity = Some (JDict vi) ->
  Spec.media_usable activity = true ->
  Spec.text_or_missing "downloadable_url" vi = true ->
  Spec.text_or_missing "streamable_url" vi = true ->
  Py.lookup "thumbnail_url" vi = Some thumbnail ->
  Py.truthy thumbnail = true ->
  exists a',
    Scraper.add_video_urls activity = Scraper.Done a'
    /\ Video.video_thumbnail_of a' = Some thumbnail.
Proof.
  intros Hvi Hmedia Hd Hs Ht Htruthy.
  unfold Scraper.add_video_urls. rewrite Hvi.
  assert (Hne : Py.truthy (JDict vi) = true).
  { destruct vi; [discriminate|reflexivity]. }
  rewrite Hne.
  assert (Hget : Py.get "thumbnail_url" JNull vi = thumbnail)
    by (unfold Py.get; rewrite Ht; reflexivity).
  rewrite Hget, Htruthy, !orb_true_r.
  destruct (media_after_init activity Hmedia) as (m & Hm).
  destruct (choose_video_url_done vi _ m Hm Hd Hs) as (a1 & m1 & Hc & Hm1).
  rewrite Hc. cbn [Scraper.and_then].
  destruct (set_media_video_url "video_thumbnail_url" thumbnail a1 m1 Hm1)
    as (a2 & Ha2 & Hm2).
  exists a2. split; [exact Ha2|].
  unfold Video.video_thumbnail_of. rewrite Hm2. apply lookup_set_same.
Qed.

Lemma video_thumbnail_is_always_recorded_witness :
  exists a',
    Scraper.add_video_urls
      [("video_info", JDict [("thumbnail_url", JStr "https://x/a/t.jpg")])]
    = Scraper.Done a'
    /\ Video.video_thumbnail_of a' = Some (JStr "https://x/a/t.jpg").
Proof.
  apply (video_thumbnail_is_always_recorded _
           [("thumbnail_url", JStr "https://x/a/t.jpg")]); reflexivity.
Defined.

Lemma video_info_touches_video_fields_only_witness :
  Scraper.add_video_urls [("note", JStr "nap"); ("media", JDict [("image_url", JStr "u")])]
  = Scraper.Done [("note", JStr "nap"); ("media", JDict [("image_url", JStr "u")])].
Proof.
  apply (video_info_touches_video_fields_only
           [("note", JStr "nap"); ("media", JDict [("image_url", JStr "u")])]).
  reflexivity.
Defined.

(** ** The paginator: how many pages *)

(** One turn of the loop on a JSON page that is not empty, whatever page
    number the payload carries. *)
Lemma scrape_pages_any_turn (rt : Runtime)
    (student_id name feeds images videos : string) (max_pages : option Z)
    (fuel : nat) (st : Scraper.progress) (w : World) (d : dict)
    (activities : list json) (count page page_size : Z) :
  Py.truthy (Scraper.has_more st) = true ->
  Scraper.page_allowed max_pages (Scraper.page st) = true ->
  w_sigint w = None ->
  w_feed w student_id (Scraper.page st) = FeedJson (JDict d) ->
  Spec.json_page d activities count page page_size ->
  activities <> [] ->
  exists acc w',
    Scraper.scrape_pages rt student_id name feeds images videos max_pages
      (S fuel) st w
    = Scraper.scrape_pages rt student_id name feeds images videos max_pages fuel
        {| Scraper.page := Scraper.page st + 1;
           Scraper.all_entries_for_student := acc;
           Scraper.has_more := JBool (page * page_size <? count);
           Scraper.total_entries := Scraper.total_entries st |} w'
    /\ w_sigint w' = None
    /\ w_feed w' = w_feed w
    /\ Spec.pages_requested w' = Spec.pages_requested w ++ [Scraper.page st].
Proof.
  intros Hmore Hallowed Hs Hfeed Hpage Hne.
  destruct (get_feed_json student_id (Scraper.page st) w d activities count
              page page_size Hs Hfeed Hpage)
    as (entries & lg & Eget & Hlen).
  set (w1 := with_log lg
               (with_requests (w_requests w ++ [FeedRequest student_id (Scraper.page st)])
                  w)) in *.
  assert (Hs1 : w_sigint w1 = None) by exact Hs.
  destruct (quiet_process_entries rt name feeds images videos entries
              (Scraper.all_entries_for_student st) w1 Hs1)
    as (acc & w2 & Eproc & Hs2).
  pose proof (keeps_process_entries (R := Spec.steady) rt name feeds images videos
                entries (Scraper.all_entries_for_student st) w1) as Hsteady.
  pose proof (keeps_process_entries (R := Spec.same_pages) rt name feeds images videos
                entries (Scraper.all_entries_for_student st) w1) as Hpages.
  rewrite Eproc in Hsteady, Hpages. cbn [snd] in Hsteady, Hpages.
  destruct Hsteady as (Hfeed2 & _).
  exists acc, (with_unix (w_unix w2 + 2) w2).
  split; [|split; [exact Hs2|split; [exact Hfeed2|]]].
  - cbn [Scraper.scrape_pages]. rewrite Hmore, Hallowed. cbn [andb].
    rewrite Eget. cbn [Spec.feed_page Py.lookup String.eqb Ascii.eqb Bool.eqb].
    assert (Htruthy : Py.truthy (JList entries) = true).
    { destruct entries; [|reflexivity]. destruct activities; [congruence|discriminate]. }
    rewrite Htruthy. cbn [negb Scraper.iterate]. rewrite Eproc.
    rewrite (sleep_returns 2 w2 Hs2). reflexivity.
  - unfold Spec.same_pages in Hpages. cbn [w_requests with_unix].
    unfold Spec.pages_requested in *. cbn [w_requests with_unix].
    rewrite Hpages. cbn. rewrite flat_map_app. reflexivity.
Qed.

Lemma pages_needed_spec (count page_size : Z) :
  1 <= page_size ->
  count <= Facts.pages_needed count page_size * page_size
  /\ forall p, p < Facts.pages_needed count page_size -> p * page_size < count.
Proof.
  intros Hs. unfold Facts.pages_needed.
  pose proof (Z.mul_div_le (count + page_size - 1) page_size ltac:(lia)) as H1.
  pose proof (Z.mul_succ_div_gt (count + page_size - 1) page_size ltac:(lia)) as H2.
  split; [nia|]. intros p Hp. nia.
Qed.

Section Counting.

Variable rt : Runtime.
Variables student_id name feeds images videos : string.
Variable max_pages : option Z.
Variables count page_size : Z.
Variable pages : Z -> list json.
Variable endpoint : string -> Z -> feed_response.

Hypothesis size_positive : 1 <= page_size.

Lemma scrape_pages_counts (n : nat) :
  forall (fuel : nat) (st : Scraper.progress) (w : World),
    (S n <= fuel)%nat ->
    Py.truthy (Scraper.has_more st) = true ->
    w_sigint w = None ->
    w_feed w = endpoint ->
    (forall p, Scraper.page st <= p <= Scraper.page st + Z.of_nat n ->
               Paging.serves endpoint student_id pages count page_size p) ->
    Scraper.page_allowed max_pages (Scraper.page st + Z.of_nat n) = true ->
    Scraper.page st + Z.of_nat n = Facts.pages_needed count page_size ->
    exists st' w',
      Scraper.scrape_pages rt student_id name feeds images videos max_pages fuel st w
      = Some (st', Scraper.Completed, w')
      /\ Scraper.page st' = Scraper.page st + Z.of_nat n + 1
      /\ Scraper.total_entries st' = Scraper.total_entries st
      /\ Spec.pages_requested w'
         = Spec.pages_requested w ++ seqZ (Scraper.page st) (Z.of_nat (S n))
      /\ w_sigint w' = None.
Proof.
  induction n as [|n IH]; intros fuel st w Hfuel Hmore Hs Hfeed Hserves Hmax Hlast.
  - destruct fuel as [|fuel]; [lia|].
    destruct (Hserves (Scraper.page st) ltac:(lia)) as (d & Hd & Hpage & Hne).
    destruct (scrape_pages_any_turn rt student_id name feeds images videos max_pages
                fuel st w d (pages (Scraper.page st)) count (Scraper.page st) page_size)
      as (acc & w' & E & Hs' & _ & Hreq); try assumption.
    { replace (Scraper.page st) with (Scraper.page st + Z.of_nat 0) by lia. exact Hmax. }
    { rewrite Hfeed. exact Hd. }
    rewrite E, scrape_pages_done.
    + eexists _, _. split; [reflexivity|]. cbn [Scraper.page Scraper.total_entries].
      split; [lia|]. split; [reflexivity|]. split; [exact Hreq|exact Hs'].
    + cbn [Scraper.has_more Py.truthy].
      destruct (pages_needed_spec count page_size size_positive) as [Hle _].
      apply Z.ltb_ge. rewrite Z.add_0_r in Hlast. rewrite Hlast. exact Hle.
  - destruct fuel as [|fuel]; [lia|].
    destruct (Hserves (Scraper.page st) ltac:(lia)) as (d & Hd & Hpage & Hne).
    destruct (scrape_pages_any_turn rt student_id name feeds images videos max_pages
                fuel st w d (pages (Scraper.page st)) count (Scraper.page st) page_size)
      as (acc & w1 & E & Hs1 & Hfeed1 & Hreq1); try assumption.
    { apply (page_allowed_below _ _ (Scraper.page st + Z.of_nat (S n))); [lia|exact Hmax]. }
    { rewrite Hfeed. exact Hd. }
    rewrite E. clear E.
    match goal with
    | |- context [Scraper.scrape_pages _ _ _ _ _ _ _ _ ?s w1] => set (st1 := s)
    end.
    destruct (IH fuel st1 w1) as (st' & w' & E & Hp & Ht & Hreq & Hs');
      try assumption.
    + lia.
    + cbn [st1 Scraper.has_more Py.truthy].
      destruct (pages_needed_spec count page_size size_positive) as [_ Hlt].
      apply Z.ltb_lt. apply Hlt. lia.
    + rewrite Hfeed1. exact Hfeed.
    + intros p Hp. apply Hserves. cbn [st1 Scraper.page] in Hp. lia.
    + cbn [st1 Scraper.page].
      replace (Scraper.page st + 1 + Z.of_nat n) with (Scraper.page st + Z.of_nat (S n))
        by lia.
      exact Hmax.
    + cbn [st1 Scraper.page]. lia.
    + exists st', w'. split; [exact E|]. cbn [st1 Scraper.page Scraper.total_entries] in *.
      split; [lia|]. split; [exact Ht|]. split; [|exact Hs'].
      rewrite Hreq, Hreq1, <- app_assoc. f_equal.
      rewrite (seqZ_cons (Scraper.page st) (Z.of_nat (S (S n)))) by lia.
      cbn [app]. f_equal. f_equal; lia.
Qed.

End Counting.

(** X9.  Pagination in general.  When the endpoint serves a feed of
    [count >= 1] entries in non-empty JSON pages of [page_size >= 1], no
    signal arrives and the page limit allows it, the run requests page 1
    once for the count and then the pages 1 to ceil(count / page_size) in
    order, stops there, and writes that number of pages to the index. *)
Theorem pages_processed_by_count (rt : Runtime)
    (student_id name feeds images videos : string) (max_pages : option Z)
    (count page_size : Z) (pages : Z -> list json) (fuel : nat) (w : World) :
  1 <= count ->
  1 <= page_size ->
  w_sigint w = None ->
  (forall p, 1 <= p <= Facts.pages_needed count page_size ->
             Paging.serves (w_feed w) student_id pages count page_size p) ->
  Scraper.page_allowed max_pages (Facts.pages_needed count page_size) = true ->
  (Z.to_nat (Facts.pages_needed count page_size) <= fuel)%nat ->
  exists entries w' index,
    Scraper._scrape_feed_for_student rt student_id name feeds images videos
      max_pages fuel w = Some (entries, w')
    /\ Spec.pages_requested w'
       = Spec.pages_requested w ++ 1 :: seqZ 1 (Facts.pages_needed count page_size)
    /\ w_files w' !! path_join feeds "feed_index.json" = Some (JsonFile (JDict index))
    /\ Py.lookup "pages_scraped" index
       = Some (JInt (Facts.pages_needed count page_size))
    /\ Py.lookup "entries" index = Some (JList entries).
Proof.
  intros Hcount Hsize Hs Hserves Hmax Hfuel.
  set (P := Facts.pages_needed count page_size) in *.
  assert (HP : 1 <= P).
  { pose proof (proj1 (pages_needed_spec count page_size Hsize)) as Hle.
    fold P in Hle. nia. }
  destruct (Hserves 1 ltac:(lia)) as (d1 & Hf1 & Hp1 & Hn1).
  unfold Scraper._scrape_feed_for_student, Scraper.scrape_try.
  set (w0 := snd (log _ w)).
  assert (Hs0 : w_sigint w0 = None) by exact Hs.
  destruct (get_feed_json student_id 1 w0 d1 (pages 1) count 1 page_size Hs0 Hf1 Hp1)
    as (e0 & lg0 & E0 & _).
  rewrite E0. cbn [Spec.feed_page Py.get Py.lookup String.eqb Ascii.eqb Bool.eqb].
  match goal with
  | |- context [Scraper.scrape_pages _ _ _ _ _ _ _ _ ?st ?wa] =>
      set (st1 := st); set (w1 := wa)
  end.
  destruct (scrape_pages_counts rt student_id name feeds images videos max_pages
              count page_size pages (w_feed w) Hsize (Z.to_nat P - 1) fuel st1 w1)
    as (st' & w' & E & Hpage & Htotal & Hreq & Hs').
  - lia.
  - reflexivity.
  - exact Hs.
  - reflexivity.
  - intros p Hp. apply Hserves. cbn [st1 Scraper.page] in Hp. fold P. lia.
  - cbn [st1 Scraper.page]. replace (1 + Z.of_nat (Z.to_nat P - 1)) with P by lia.
    exact Hmax.
  - cbn [st1 Scraper.page]. fold P. lia.
  - rewrite E.
    unfold Scraper.scrape_finally, Scraper.now, bind, ask, write_file, log, ret,
      Scraper._save_download_history.
    assert (Hpage' : Scraper.page st' - 1 = P).
    { rewrite Hpage. cbn [st1 Scraper.page]. lia. }
    destruct (Py.truthy (default JNull (Scraper.total_entries st')));
      (eexists _, _, _; split; [reflexivity|]);
      (split; [|split; [cbn; apply lookup_insert_eq
                       |split; [cbn; rewrite Hpage'; reflexivity|reflexivity]]]);
      cbn [w_requests with_log with_files with_history_file];
      change (Spec.pages_requested w' = Spec.pages_requested w ++ 1 :: seqZ 1 P);
      rewrite Hreq; cbn [st1 Scraper.page];
      replace (Z.of_nat (S (Z.to_nat P - 1))) with P by lia;
      unfold w1, w0, Spec.pages_requested;
      cbn [w_requests with_log with_requests snd log];
      rewrite flat_map_app; cbn; rewrite <- !app_assoc; reflexivity.
Qed.

Lemma pages_processed_by_count_witness :
  exists entries w',
    Scraper._scrape_feed_for_student Sample.runtime "kid" "Kid" "feeds" "images"
      "videos" None 3 Sample.thirty = Some (entries, w')
    /\ Spec.pages_requested w' = [1; 1; 2; 3].
Proof.
  destruct (pages_processed_by_count Sample.runtime "kid" "Kid" "feeds" "images"
              "videos" None 30 10 Sample.ten_entries 3 Sample.thirty)
    as (entries & w' & index & E & P & _).
  - lia.
  - lia.
  - reflexivity.
  - intros p Hp. change (Facts.pages_needed 30 10) with 3 in Hp.
    assert (Hcases : p = 1 \/ p = 2 \/ p = 3) by lia.
    destruct Hcases as [ -> | [ -> | -> ] ]; eexists;
      (split; [reflexivity|split; [repeat split; reflexivity|discriminate]]).
  - reflexivity.
  - apply le_n.
  - exists entries, w'. split; [exact E|exact P].
Defined.

(** ** The paginator: the page limit *)

Lemma scrape_pages_bounded (rt : Runtime)
    (student_id name feeds images videos : string) (m : Z) (fuel : nat) :
  forall (st : Scraper.progress) (w : World),
    (Z.to_nat (m + 1 - Scraper.page st) <= fuel)%nat ->
    exists st' how w',
      Scraper.scrape_pages rt student_id name feeds images videos (Some m) fuel st w
      = Some (st', how, w')
      /\ Scraper.page st <= Scraper.page st'
      /\ Scraper.page st' <= Z.max (Scraper.page st) (m + 1).
Proof.
  induction fuel as [|fuel IH]; intros st w Hfuel; cbn [Scraper.scrape_pages];
    unfold Scraper.page_allowed;
    destruct (Py.truthy (Scraper.has_more st)); cbn [andb];
    try (eexists _, _, _; split; [reflexivity|]; lia);
    destruct (Z.leb_spec (Scraper.page st) m) as [Hle|Hgt];
    try (eexists _, _, _; split; [reflexivity|]; lia).
  - lia.
  - destruct (Scraper.get_feed student_id (Scraper.page st) w) as [[[fd|]|e|] w1];
      try (eexists _, _, _; split; [reflexivity|]; lia).
    destruct fd as [|kv fd]; [eexists _, _, _; split; [reflexivity|]; lia|].
    destruct (Py.lookup "entries" (kv :: fd)) as [entries|];
      [|eexists _, _, _; split; [reflexivity|]; lia].
    destruct (negb (Py.truthy entries)); [eexists _, _, _; split; [reflexivity|]; lia|].
    destruct (Scraper.iterate entries) as [l|];
      [|eexists _, _, _; split; [reflexivity|]; lia].
    destruct (Scraper.process_entries rt name feeds images videos l
                (Scraper.all_entries_for_student st) w1) as [[acc interrupted] w2].
    destruct interrupted;
      [eexists _, _, _; split; [reflexivity|]; cbn [Scraper.page]; lia|].
    destruct (sleep 2 w2) as [[[]|e|] w3];
      try (eexists _, _, _; split; [reflexivity|]; cbn [Scraper.page]; lia).
    match goal with
    | |- context [Scraper.scrape_pages _ _ _ _ _ _ _ _ ?s w3] => set (st2 := s)
    end.
    destruct (IH st2 w3) as (st' & how & w' & E & Hlo & Hhi).
    + cbn [st2 Scraper.page]. lia.
    + exists st', how, w'. split; [exact E|]. cbn [st2 Scraper.page] in *. lia.
Qed.

(** With a page limit the [try] block is left, on a page between 1 and
    the one after the limit. *)
Lemma limited_try_returns (rt : Runtime)
    (student_id name feeds images videos : string) (m : Z) (fuel : nat) (w : World) :
  (Z.to_nat m <= fuel)%nat ->
  exists st how w',
    Scraper.scrape_try rt student_id name feeds images videos (Some m) fuel w
    = Some (st, how, w')
    /\ 1 <= Scraper.page st <= Z.max 1 (m + 1).
Proof.
  intros Hfuel. unfold Scraper.scrape_try.
  destruct (Scraper.get_feed student_id 1 w) as [[fd|e|] w1];
    try (eexists _, _, _; split; [reflexivity|]; cbn [Scraper.page]; lia).
  match goal with
  | |- context [let '(_, _) := ?x in _] => destruct x as [st1 w2] eqn:E1
  end.
  assert (Hp1 : Scraper.page st1 = 1).
  { destruct fd as [[|kv r]|]; injection E1 as <- _; reflexivity. }
  destruct (scrape_pages_bounded rt student_id name feeds images videos m fuel st1 w2)
    as (st' & how & w' & E & Hlo & Hhi).
  { rewrite Hp1. lia. }
  exists st', how, w'. split; [exact E|]. lia.
Qed.

(** X10.  The page limit ends the run.  With a limit of [m] pages the
    run returns whatever the endpoint serves and whether or not a signal
    arrives, within [m] turns of the loop, and the index it writes counts
    between 0 and [m] pages. *)
Theorem page_limit_ends_the_run (rt : Runtime)
    (student_id name feeds images videos : string) (m : Z) (fuel : nat) (w : World) :
  (Z.to_nat m <= fuel)%nat ->
  exists entries w' index pages,
    Scraper._scrape_feed_for_student rt student_id name feeds images videos
      (Some m) fuel w = Some (entries, w')
    /\ w_files w' !! path_join feeds "feed_index.json" = Some (JsonFile (JDict index))
    /\ Py.lookup "pages_scraped" index = Some (JInt pages)
    /\ 0 <= pages <= Z.max 0 m.
Proof.
  intros Hfuel. unfold Scraper._scrape_feed_for_student.
  destruct (limited_try_returns rt student_id name feeds images videos m fuel
              (snd (log (LogWarning ("--- Starting scrape for student: " +:+ name
                                       +:+ " (" +:+ student_id +:+ ") ---")) w)) Hfuel)
    as (st & how & w1 & E & Hpage).
  rewrite E.
  unfold Scraper.scrape_finally, Scraper.now, bind, ask, write_file, log, ret,
    Scraper._save_download_history.
  destruct (Py.truthy (default JNull (Scraper.total_entries st)));
    (eexists _, _, _, _; split; [reflexivity|]);
    (split; [cbn; apply lookup_insert_eq|split; [reflexivity|lia]]).
Qed.

Lemma page_limit_ends_the_run_witness :
  exists entries w',
    Scraper._scrape_feed_for_student Sample.runtime "kid" "Kid" "feeds" "images"
      "videos" (Some 2) 2 Sample.thirty = Some (entries, w').
Proof.
  destruct (page_limit_ends_the_run Sample.runtime "kid" "Kid" "feeds" "images"
              "videos" 2 2 Sample.thirty) as (entries & w' & index & pages & E & _).
  - apply le_n.
  - exists entries, w'. exact E.
Defined.

(** ** The paginator without a limit *)

Lemma scrape_pages_never_ends (rt : Runtime)
    (student_id name feeds images videos : string)
    (endpoint : string -> Z -> feed_response) (fuel : nat) :
  (forall p, Paging.promises_more endpoint student_id p) ->
  forall (st : Scraper.progress) (w : World),
    Py.truthy (Scraper.has_more st) = true ->
    w_sigint w = None ->
    w_feed w = endpoint ->
    Scraper.scrape_pages rt student_id name feeds images videos None fuel st w = None.
Proof.
  intros Hall. induction fuel as [|fuel IH]; intros st w Hmore Hs Hfeed.
  - cbn. rewrite Hmore. reflexivity.
  - destruct (Hall (Scraper.page st)) as (d & acts & c & pg & sz & Hd & Hpage & Hne & Hlt).
    destruct (scrape_pages_any_turn rt student_id name feeds images videos None
                fuel st w d acts c pg sz)
      as (acc & w' & E & Hs' & Hfeed' & _); try assumption.
    { reflexivity. }
    { rewrite Hfeed. exact Hd. }
    rewrite E. apply IH.
    + cbn [Scraper.has_more Py.truthy]. apply Z.ltb_lt. exact Hlt.
    + exact Hs'.
    + rewrite Hfeed'. exact Hfeed.
Qed.

(** X11.  Without a page limit nothing but the endpoint ends the run.
    When no signal arrives and the endpoint answers every request with a
    non-empty JSON page whose numbers say that more follows (for one, an
    endpoint that ignores the page parameter), a run without [max_pages]
    does not return, however many turns the loop is given. *)
Theorem unlimited_run_never_ends (rt : Runtime)
    (student_id name feeds images videos : string) (w : World) :
  w_sigint w = None ->
  (forall p, Paging.promises_more (w_feed w) student_id p) ->
  forall fuel,
    Scraper._scrape_feed_for_student rt student_id name feeds images videos
      None fuel w = None.
Proof.
  intros Hs Hall fuel.
  destruct (Hall 1) as (d & acts & c & pg & sz & Hd & Hpage & Hne & Hlt).
  unfold Scraper._scrape_feed_for_student, Scraper.scrape_try.
  set (w0 := snd (log _ w)).
  assert (Hs0 : w_sigint w0 = None) by exact Hs.
  destruct (get_feed_json student_id 1 w0 d acts c pg sz Hs0 Hd Hpage)
    as (e0 & lg0 & E0 & _).
  rewrite E0. cbn [Spec.feed_page Py.get Py.lookup String.eqb Ascii.eqb Bool.eqb].
  rewrite (scrape_pages_never_ends rt student_id name feeds images videos (w_feed w));
    [reflexivity|exact Hall|reflexivity|exact Hs|reflexivity].
Qed.

Lemma unlimited_run_never_ends_witness :
  Scraper._scrape_feed_for_student Sample.runtime "kid" "Kid" "feeds" "images"
    "videos" None 1000 Sample.first_page_forever = None.
Proof.
  apply (unlimited_run_never_ends Sample.runtime "kid" "Kid" "feeds" "images" "videos"
           Sample.first_page_forever).
  - reflexivity.
  - intros p. eexists _, (Sample.ten_entries 1), 30, 1, 10.
    split; [reflexivity|]. split; [repeat split; reflexivity|].
    split; [discriminate|lia].
Defined.

(** ** The history at the end of a run *)

(** X12.  Every run over a subject that ends, interrupted or not, leaves
    the history file equal to the history in memory; a process that
    starts from that file holds the same history, and no URL that was in
    the history before the run is missing from it afterwards. *)
Theorem history_is_saved_when_a_run_ends (rt : Runtime)
    (student_id name feeds images videos : string) (max_pages : option Z)
    (fuel : nat) (entries : list json) (w w' : World) :
  Scraper._scrape_feed_for_student rt student_id name feeds images videos
    max_pages fuel w = Some (entries, w') ->
  w_history_file w' = HistoryUrls (elements (w_downloaded w'))
  /\ w_downloaded (snd (Scraper.init_download_history w')) = w_downloaded w'
  /\ w_downloaded w ⊆ w_downloaded w'.
Proof.
  intros Hrun.
  pose proof (keeps_scrape_feed_for_student (R := Spec.steady) _ _ _ _ _ _ _ _ _ _ _
                Hrun) as (_ & _ & Hsub & _).
  assert (Hfile : w_history_file w' = HistoryUrls (elements (w_downloaded w'))).
  { revert Hrun. unfold Scraper._scrape_feed_for_student.
    destruct (Scraper.scrape_try _ _ _ _ _ _ _ _ _) as [[[st how] w1]|];
      [|discriminate].
    unfold Scraper.scrape_finally, Scraper.now, bind, ask, write_file, log, ret,
      Scraper._save_download_history.
    destruct (Py.truthy (default JNull (Scraper.total_entries st)));
      intros [= <- <-]; reflexivity. }
  split; [exact Hfile|]. split; [|exact Hsub].
  unfold Scraper.init_download_history, Scraper._load_download_history, bind, ask.
  cbn [snd w_history_file with_downloaded]. rewrite Hfile. cbn.
  apply leibniz_equiv. apply list_to_set_elements.
Qed.

Lemma history_is_saved_when_a_run_ends_witness :
  exists w',
    option_map snd
      (Scraper._scrape_feed_for_student Sample.runtime "kid" "Kid" "feeds" "images"
         "videos" (Some 5) 10 Sample.five_interrupted) = Some w'
    /\ w_history_file w' = HistoryUrls (elements (w_downloaded w')).
Proof.
  destruct (Scraper._scrape_feed_for_student Sample.runtime "kid" "Kid" "feeds"
              "images" "videos" (Some 5) 10 Sample.five_interrupted)
    as [[entries w']|] eqn:E; [|vm_compute in E; discriminate].
  exists w'. split; [reflexivity|].
  exact (proj1 (history_is_saved_when_a_run_ends Sample.runtime "kid" "Kid" "feeds"
                  "images" "videos" (Some 5) 10 entries Sample.five_interrupted w' E)).
Defined.

(** ** The entries of a page *)

Lemma process_feed_entry_needs_object (rt : Runtime) (entry processed : json)
    (feeds images videos : string) (w w' : World) :
  Scraper.process_feed_entry rt entry feeds images videos w = (Ret processed, w') ->
  exists d, entry = JDict d.
Proof. destruct entry; try discriminate. eauto. Qed.

(** X13.  A page is archived entry by entry, in order, and one entry
    that fails costs only itself.  Without a signal [process_entries]
    keeps every record collected before, appends the records of a
    sub-list of the page's objects in page order, each under the
    identifier of its entry, and that sub-list holds every well-formed
    object of the page. *)
Theorem page_is_archived_in_order (rt : Runtime) (name feeds images videos : string)
    (entries acc : list json) (w : World) :
  w_sigint w = None ->
  exists records kept w',
    Scraper.process_entries rt name feeds images videos entries acc w
    = (acc ++ records, false, w')
    /\ sublist kept (Facts.objects entries)
    /\ map Facts.record_id records = map (fun d => Some (Scraper.entry_id_of rt d)) kept
    /\ (forall d, d ∈ Facts.objects entries ->
                  Spec.well_formed_entry rt d = true -> d ∈ kept)
    /\ w_sigint w' = None.
Proof.
  revert acc w. induction entries as [|entry rest IH]; intros acc w Hs.
  - exists [], [], w. cbn. rewrite app_nil_r.
    split; [reflexivity|]. split; [constructor|]. split; [reflexivity|].
    split; [|exact Hs]. intros d Hd. inversion Hd.
  - cbn [Scraper.process_entries].
    destruct (quiet_process_feed_entry rt entry feeds images videos w Hs) as [Hi Hs1].
    destruct (Scraper.process_feed_entry rt entry feeds images videos w)
      as [[processed|e|] w1] eqn:E; cbn [fst snd] in *; [| |congruence].
    + destruct (process_feed_entry_needs_object _ _ _ _ _ _ _ _ E) as (d & ->).
      destruct (process_feed_entry_id rt d feeds images videos w w1 processed E)
        as (r & -> & Hid).
      destruct (IH (acc ++ [JDict r]) w1 Hs1)
        as (records & kept & w' & Erest & Hsub & Hids & Hall & Hs').
      exists (JDict r :: records), (d :: kept), w'.
      rewrite Erest, <- app_assoc. split; [reflexivity|].
      split; [cbn; apply sublist_skip; exact Hsub|].
      split; [cbn; rewrite Hid, Hids; reflexivity|].
      split; [|exact Hs'].
      intros d' Hd' Hwf. cbn in Hd'. apply elem_of_cons in Hd' as [ -> |Hd'].
      * apply list_elem_of_here.
      * apply list_elem_of_further. apply Hall; assumption.
    + destruct (IH acc (snd (log (LogError ("Error processing entry for " +:+ name)) w1))
                  Hs1)
        as (records & kept & w' & Erest & Hsub & Hids & Hall & Hs').
      exists records, kept, w'. split; [exact Erest|].
      assert (Hbad : forall d, entry = JDict d -> Spec.well_formed_entry rt d = false).
      { intros d ->. destruct (Spec.well_formed_entry rt d) eqn:Hwf; [|reflexivity].
        destruct (process_feed_entry_returns rt d feeds images videos w Hwf Hs)
          as (? & ? & ? & E' & _).
        rewrite E in E'. discriminate. }
      split.
      { destruct entry; cbn; try exact Hsub. apply sublist_cons. exact Hsub. }
      split; [exact Hids|]. split; [|exact Hs'].
      intros d Hd Hwf.
      destruct entry as [| | | | |d0]; cbn in Hd; try (apply Hall; assumption).
      apply elem_of_cons in Hd as [ -> |Hd]; [|apply Hall; assumption].
      rewrite (Hbad d0 eq_refl) in Hwf. discriminate.
Qed.

Lemma page_is_archived_in_order_witness :
  exists records w',
    Scraper.process_entries Sample.runtime "Kid" "feeds" "images" "videos"
      [JStr "stray"; Sample.entry_with_image 7] [] Sample.served
    = (records, false, w')
    /\ map Facts.record_id records = [Some (JStr "7")].
Proof.
  destruct (page_is_archived_in_order Sample.runtime "Kid" "feeds" "images" "videos"
              [JStr "stray"; Sample.entry_with_image 7] [] Sample.served)
    as (records & kept & w' & E & Hsub & Hids & Hall & _).
  - reflexivity.
  - exists records, w'. split; [exact E|].
    rewrite Hids.
    assert (Hkept : kept = [[("object_id", JStr "7");
                             ("event_date", JStr "2024-05-01T10:00:00Z");
                             ("media", JDict [("image_url", JStr "https://x/a/7.jpg")])]]).
    { apply sublist_length in Hsub as Hlen.
      specialize (Hall _ (list_elem_of_here _ _) eq_refl).
      destruct kept as [|k [|k' kept]]; cbn in Hlen.
      - inversion Hall.
      - apply list_elem_of_singleton in Hall. subst k. reflexivity.
      - lia. }
    rewrite Hkept. reflexivity.
Defined.

(** ** What a run never undoes *)

Section Growing.

Context {R : World -> World -> Prop} `{!Growth R}.

Lemma grows_ret {A : Type} (a : A) : keeps R (ret a).
Proof. intros w. apply grow_refl. Qed.

Lemma grows_raise {A : Type} (e : exn) : keeps R (@raise A e).
Proof. intros w. apply grow_refl. Qed.

Lemma grows_ask {A : Type} (f : World -> A) : keeps R (ask f).
Proof. intros w. apply grow_refl. Qed.

Lemma grows_log (r : log_record) : keeps R (log r).
Proof. intros w. apply grow_log. Qed.

Lemma grows_write_file (path : string) (f : file) : keeps R (write_file path f).
Proof. intros w. apply grow_files. Qed.

Lemma grows_blocking : keeps R blocking.
Proof.
  intros w. unfold blocking.
  destruct (w_sigint w) as [[|n]|]; cbn;
    [apply grow_sigint|apply grow_sigint|apply grow_refl].
Qed.

Lemma grows_bind {A B : Type} (m : M A) (k : A -> M B) :
  keeps R m -> (forall a, keeps R (k a)) -> keeps R (bind m k).
Proof.
  intros Hm Hk w. unfold bind. specialize (Hm w).
  destruct (m w) as [[a|e|] w1]; cbn in *; [|exact Hm|exact Hm].
  eapply grow_trans; [exact Hm|apply Hk].
Qed.

Lemma grows_catch {A : Type} (m : M A) (h : exn -> M A) :
  keeps R m -> (forall e, keeps R (h e)) -> keeps R (catch m h).
Proof.
  intros Hm Hh w. unfold catch. specialize (Hm w).
  destruct (m w) as [[a|e|] w1]; cbn in *; [exact Hm| |exact Hm].
  eapply grow_trans; [exact Hm|apply Hh].
Qed.

Lemma grows_sleep (n : Z) : keeps R (sleep n).
Proof.
  apply grows_bind; [apply grows_blocking|]. intros _ w. apply grow_unix.
Qed.

Lemma grows_now (rt : Runtime) : keeps R (Scraper.now rt).
Proof. apply grows_ask. Qed.

Lemma grows_mark_downloaded (url : string) : keeps R (Scraper.mark_downloaded url).
Proof. intros w. apply grow_mark. Qed.

Lemma grows_save_download_history : keeps R Scraper._save_download_history.
Proof. intros w. apply grow_history_file. Qed.

Lemma grows_download_media (rt : Runtime) (url media_type : string)
    (event_date : option datetime) (output_dir : string) :
  keeps R (Scraper.download_media rt url media_type event_date output_dir).
Proof.
  intros w. unfold Scraper.download_media, bind, ask. cbn.
  destruct (w_files w !! _); [apply grow_mark|].
  case_bool_decide as Hin; [apply grow_refl|].
  unfold catch, Scraper.fetch_to_disk, bind, blocking.
  destruct (w_sigint w) as [[|n]|]; cbn; [apply grow_sigint| |].
  all: destruct (w_media w url) as [|size chunks [|]]; cbn;
    try destruct (1024 * 1024 <? size); cbn.
  all: repeat first
         [ apply grow_refl
         | apply grow_sigint
         | match goal with
           | |- R ?a (with_log ?l ?b) =>
               apply (grow_trans a b); [|apply (grow_log b)]
           | |- R ?a (with_files ?f ?b) =>
               apply (grow_trans a b); [|apply (grow_files b)]
           | |- R ?a (with_history_file ?h ?b) =>
               apply (grow_trans a b); [|apply grow_history_file]
           | |- R ?a (with_downloaded ?d ?b) =>
               apply (grow_trans a b); [|apply (grow_mark b url)]
           | |- R ?a (with_requests ?r ?b) =>
               apply (grow_trans a b); [|apply (grow_sent b)]
           end ].
Qed.

End Growing.

Ltac grows_auto :=
  repeat first
    [ apply grows_ret | apply grows_raise | apply grows_ask | apply grows_log
    | apply grows_write_file | apply grows_blocking | apply grows_sleep
    | apply grows_now | apply grows_mark_downloaded
    | apply grows_save_download_history | apply grows_download_media
    | apply grows_bind; [|intros ?]
    | apply grows_catch; [|intros ?]
    | match goal with
      | |- keeps _ (match ?x with _ => _ end) => destruct x
      end ].

Section EntryGrowing.

Context {R : World -> World -> Prop} `{!Growth R}.

Lemma grows_parse_event_date (rt : Runtime) (event_date_str entry_id : json) :
  keeps R (Scraper.parse_event_date rt event_date_str entry_id).
Proof. unfold Scraper.parse_event_date. grows_auto. Qed.

Lemma grows_download_field (rt : Runtime) (media : dict)
    (url_type media_type : string) (event_date : option datetime)
    (output_dir : string) (acc : list json) :
  keeps R (Scraper.download_field rt media url_type media_type event_date
             output_dir acc).
Proof. unfold Scraper.download_field. grows_auto. Qed.

Lemma grows_download_entry_media (rt : Runtime) (media : json)
    (event_date : option datetime) (images videos : string) :
  keeps R (Scraper.download_entry_media rt media event_date images videos).
Proof.
  unfold Scraper.download_entry_media.
  destruct (Py.truthy media); [|apply grows_ret].
  destruct media; try apply grows_raise.
  repeat (apply grows_bind; [apply grows_download_field|intros ?]).
  apply grows_download_field.
Qed.

Lemma grows_str_field (k fallback : string) (d : dict) :
  keeps R (Scraper.str_field k fallback d).
Proof. unfold Scraper.str_field. grows_auto. Qed.

Lemma grows_process_feed_entry (rt : Runtime) (entry : json)
    (feeds images videos : string) :
  keeps R (Scraper.process_feed_entry rt entry feeds images videos).
Proof.
  unfold Scraper.process_feed_entry.
  destruct entry; try apply grows_raise.
  apply grows_bind; [apply grows_parse_event_date|intros ?].
  apply grows_bind; [apply grows_now|intros ?].
  apply grows_bind; [apply grows_download_entry_media|intros ?].
  apply grows_bind; [grows_auto|intros ?].
  apply grows_bind; [apply grows_str_field|intros ?].
  apply grows_bind; [apply grows_str_field|intros ?].
  grows_auto.
Qed.

Lemma grows_process_entries (rt : Runtime) (name feeds images videos : string)
    (entries acc : list json) (w : World) :
  R w (snd (Scraper.process_entries rt name feeds images videos entries acc w)).
Proof.
  revert acc w. induction entries as [|entry rest IH]; intros acc w; cbn.
  - apply grow_refl.
  - pose proof (grows_process_feed_entry rt entry feeds images videos w) as H.
    destruct (Scraper.process_feed_entry rt entry feeds images videos w)
      as [[pe|e|] w1]; cbn in H.
    + eapply grow_trans; [exact H|apply IH].
    + eapply grow_trans; [exact H|].
      eapply grow_trans; [|apply IH]. apply grow_log.
    + exact H.
Qed.

Lemma grows_for_each {A : Type} (f : A -> M unit) (l : list A) :
  (forall a, keeps R (f a)) -> keeps R (for_each f l).
Proof.
  intros Hf. induction l as [|a l IH]; cbn; [apply grows_ret|].
  apply grows_bind; [apply Hf|intros _; exact IH].
Qed.

Lemma grows_map_m {A B : Type} (f : A -> M B) (l : list A) :
  (forall a, keeps R (f a)) -> keeps R (map_m f l).
Proof.
  intros Hf. induction l as [|a l IH]; cbn; [apply grows_ret|].
  apply grows_bind; [apply Hf|intros b].
  apply grows_bind; [exact IH|intros bs; apply grows_ret].
Qed.

Lemma grows_process_video_info (activity : json) :
  keeps R (Scraper.process_video_info activity).
Proof.
  unfold Scraper.process_video_info, Scraper.video_info_failed. grows_auto.
Qed.

Lemma grows_feed_of_json (data : json) : keeps R (Scraper.feed_of_json data).
Proof.
  unfold Scraper.feed_of_json, Scraper.json_has_more.
  destruct data; try apply grows_raise.
  apply grows_bind; [|intros ?; grows_auto].
  destruct (Py.get "activities" (JList []) d); try apply grows_raise.
  - apply grows_bind; [|intros ?; apply grows_ret].
    apply grows_for_each. intros c.
    apply grows_bind; [apply grows_process_video_info|intros ?; apply grows_ret].
  - apply grows_bind; [|intros ?; apply grows_ret].
    apply grows_map_m. apply grows_process_video_info.
  - apply grows_bind; [|intros ?; apply grows_ret].
    apply grows_for_each. intros c.
    apply grows_bind; [apply grows_process_video_info|intros ?; apply grows_ret].
Qed.

Lemma grows_feed_of_markup (doc : list node) : keeps R (Scraper.feed_of_markup doc).
Proof.
  unfold Scraper.feed_of_markup.
  apply grows_bind; [|intros ?; apply grows_ret].
  apply grows_for_each. intros poster. grows_auto.
Qed.

Lemma grows_scrape_finally (rt : Runtime) (name feeds : string)
    (student_id : string) (st : Scraper.progress) :
  keeps R (Scraper.scrape_finally rt student_id name feeds st).
Proof. unfold Scraper.scrape_finally. grows_auto. Qed.

End EntryGrowing.

Section FeedGrowing.

Context {R : World -> World -> Prop} `{!Growth R}.

Lemma grows_sent_feed (student_id : string) (p : Z) :
  keeps R (sent (FeedRequest student_id p)).
Proof. intros w. apply grow_sent. Qed.

Lemma grows_get_feed (student_id : string) (p : Z) :
  keeps R (Scraper.get_feed student_id p).
Proof.
  unfold Scraper.get_feed.
  apply grows_catch; [|intros ?; grows_auto].
  apply grows_bind; [apply grows_blocking|intros _].
  apply grows_bind; [apply grows_sent_feed|intros _].
  apply grows_bind; [apply grows_ask|intros response].
  destruct response;
    [apply grows_raise|apply grows_feed_of_json|apply grows_feed_of_markup].
Qed.

Lemma grows_scrape_pages (rt : Runtime)
    (student_id name feeds images videos : string) (max_pages : option Z)
    (fuel : nat) (st st' : Scraper.progress) (how : Scraper.leave) (w w' : World) :
  Scraper.scrape_pages rt student_id name feeds images videos max_pages fuel st w
  = Some (st', how, w') ->
  R w w'.
Proof.
  revert st w. induction fuel as [|fuel IH]; intros st w; cbn [Scraper.scrape_pages];
    destruct (Py.truthy (Scraper.has_more st) && Scraper.page_allowed max_pages (Scraper.page st));
    try discriminate;
    try (intros [= <- <- <-]; apply grow_refl).
  pose proof (grows_get_feed student_id (Scraper.page st) w) as Hg.
  destruct (Scraper.get_feed student_id (Scraper.page st) w) as [[[fd|]|e|] w1];
    cbn [snd] in Hg.
  - destruct fd as [|kv fd]; [intros [= <- <- <-]|].
    { eapply grow_trans; [exact Hg|apply grow_log]. }
    destruct (Py.lookup "entries" (kv :: fd)) as [entries|];
      [|intros [= <- <- <-]; eapply grow_trans; [exact Hg|apply grow_log]].
    destruct (negb (Py.truthy entries)); [intros [= <- <- <-]; exact Hg|].
    destruct (Scraper.iterate entries) as [l|]; [|intros [= <- <- <-]; exact Hg].
    pose proof (grows_process_entries (R := R) rt name feeds images videos l
                  (Scraper.all_entries_for_student st) w1) as Hp.
    destruct (Scraper.process_entries rt name feeds images videos l
                (Scraper.all_entries_for_student st) w1) as [[acc interrupted] w2].
    cbn [snd] in Hp.
    destruct interrupted;
      [intros [= <- <- <-]; eapply grow_trans; [exact Hg|exact Hp]|].
    pose proof (grows_sleep (R := R) 2 w2) as Hs.
    destruct (sleep 2 w2) as [[[]|e|] w3]; cbn [snd] in Hs.
    + intros H. apply IH in H.
      eapply grow_trans; [exact Hg|].
      eapply grow_trans; [exact Hp|].
      eapply grow_trans; [exact Hs|exact H].
    + intros [= <- <- <-].
      eapply grow_trans; [exact Hg|]. eapply grow_trans; [exact Hp|exact Hs].
    + intros [= <- <- <-].
      eapply grow_trans; [exact Hg|]. eapply grow_trans; [exact Hp|exact Hs].
  - intros [= <- <- <-]. eapply grow_trans; [exact Hg|apply grow_log].
  - intros [= <- <- <-]. exact Hg.
  - intros [= <- <- <-]. exact Hg.
Qed.

Lemma grows_scrape_try (rt : Runtime)
    (student_id name feeds images videos : string) (max_pages : option Z)
    (fuel : nat) (st' : Scraper.progress) (how : Scraper.leave) (w w' : World) :
  Scraper.scrape_try rt student_id name feeds images videos max_pages fuel w
  = Some (st', how, w') ->
  R w w'.
Proof.
  unfold Scraper.scrape_try.
  pose proof (grows_get_feed student_id 1 w) as Hg.
  destruct (Scraper.get_feed student_id 1 w) as [[[fd|]|e|] w1]; cbn [snd] in Hg;
    try (intros [= <- <- <-]; exact Hg).
  - destruct fd as [|kv fd]; intros H; apply grows_scrape_pages in H.
    + eapply grow_trans; [exact Hg|exact H].
    + eapply grow_trans; [exact Hg|].
      eapply grow_trans; [|exact H]. apply grow_log.
  - intros H. apply grows_scrape_pages in H.
    eapply grow_trans; [exact Hg|exact H].
Qed.

Lemma grows_scrape_feed_for_student (rt : Runtime)
    (student_id name feeds images videos : string) (max_pages : option Z)
    (fuel : nat) (entries : list json) (w w' : World) :
  Scraper._scrape_feed_for_student rt student_id name feeds images videos
    max_pages fuel w = Some (entries, w') ->
  R w w'.
Proof.
  unfold Scraper._scrape_feed_for_student.
  destruct (Scraper.scrape_try _ _ _ _ _ _ _ _ _) as [[[st how] w1]|] eqn:E;
    [|discriminate].
  apply grows_scrape_try in E.
  pose proof (grows_scrape_finally (R := R) rt name feeds student_id st w1) as Hf.
  destruct (Scraper.scrape_finally rt student_id name feeds st w1) as [[es|e|] w2];
    cbn [snd] in Hf; intros [= <- <-];
    (eapply grow_trans; [|eapply grow_trans; [exact E|exact Hf]]);
    apply grow_log.
Qed.

End FeedGrowing.

#[export] Instance only_grows_growth : Growth Archive.only_grows.
Proof.
  split.
  - intros w. split; [auto|split; reflexivity].
  - intros a b c (Hf1 & Hl1 & Hr1) (Hf2 & Hl2 & Hr2).
    split; [auto|split; etrans; eassumption].
  - intros w r. split; [auto|split; [apply prefix_app_r|]; reflexivity].
  - intros w p f. split; [|split; reflexivity].
    intros q Hq. cbn. apply lookup_insert_is_Some.
    destruct (decide (p = q)); auto.
  - intros w t. split; [auto|split; reflexivity].
  - intros w h. split; [auto|split; reflexivity].
  - intros w s. split; [auto|split; reflexivity].
  - intros w u. split; [auto|split; reflexivity].
  - intros w r. split; [auto|split; [|apply prefix_app_r]; reflexivity].
Qed.

(** X14.  A run over a subject only adds.  Whatever the servers answer
    and whenever a signal arrives, a run that ends has removed no file of
    the archive, and the log and the trace of requests of before are
    prefixes of the log and the trace of after. *)
Theorem run_only_adds (rt : Runtime)
    (student_id name feeds images videos : string) (max_pages : option Z)
    (fuel : nat) (entries : list json) (w w' : World) :
  Scraper._scrape_feed_for_student rt student_id name feeds images videos
    max_pages fuel w = Some (entries, w') ->
  (forall p, is_Some (w_files w !! p) -> is_Some (w_files w' !! p))
  /\ w_log w `prefix_of` w_log w'
  /\ w_requests w `prefix_of` w_requests w'.
Proof.
  intros Hrun.
  exact (grows_scrape_feed_for_student (R := Archive.only_grows) _ _ _ _ _ _ _ _ _ _ _
           Hrun).
Qed.

Lemma run_only_adds_witness :
  exists w',
    option_map snd
      (Scraper._scrape_feed_for_student Sample.runtime "kid" "Kid" "feeds" "images"
         "videos" (Some 5) 10 Sample.five_interrupted) = Some w'
    /\ w_log Sample.five_interrupted `prefix_of` w_log w'.
Proof.
  destruct (Scraper._scrape_feed_for_student Sample.runtime "kid" "Kid" "feeds"
              "images" "videos" (Some 5) 10 Sample.five_interrupted)
    as [[entries w']|] eqn:E; [|vm_compute in E; discriminate].
  exists w'. split; [reflexivity|].
  exact (proj1 (proj2 (run_only_adds Sample.runtime "kid" "Kid" "feeds" "images"
                         "videos" (Some 5) 10 entries Sample.five_interrupted w' E))).
Defined.

(** ** The directory of a subject *)

Lemma sub_from_all_kept (b : bool) (s : string) :
  Re.all_kept (Re.sub_from "_" b s) = true.
Proof.
  revert b. induction s as [|c s IH]; intros b; [reflexivity|].
  cbn [Re.sub_from]. destruct (Re.kept c) eqn:E.
  - cbn [Re.all_kept]. rewrite E, IH. reflexivity.
  - destruct b; [apply IH|].
    change ("_" +:+ Re.sub_from "_" true s) with (String "_" (Re.sub_from "_" true s)).
    cbn [Re.all_kept]. rewrite IH. reflexivity.
Qed.

Lemma all_kept_has_char (c : ascii) (s : string) :
  Re.kept c = false -> Re.all_kept s = true -> Text.has_char c s = false.
Proof.
  intros Hc. induction s as [|d s IH]; [reflexivity|].
  cbn [Re.all_kept Text.has_char]. intros H. apply andb_true_iff in H as [Hd Hs].
  rewrite (IH Hs), orb_false_r.
  destruct (Ascii.eqb_spec c d) as [ -> |]; [congruence|reflexivity].
Qed.

Lemma sub_from_keeps_char (c : ascii) (b : bool) (s : string) :
  Re.kept c = true -> Text.has_char c s = true ->
  Text.has_char c (Re.sub_from "_" b s) = true.
Proof.
  intros Hc. revert b. induction s as [|d s IH]; intros b; [discriminate|].
  cbn [Text.has_char Re.sub_from]. intros H. apply orb_true_iff in H as [H|H].
  - apply Ascii.eqb_eq in H. subst d. rewrite Hc. cbn [Text.has_char].
    rewrite Ascii.eqb_refl. reflexivity.
  - destruct (Re.kept d).
    + cbn [Text.has_char]. rewrite (IH false H). apply orb_true_r.
    + destruct b; [apply IH; exact H|].
      change ("_" +:+ Re.sub_from "_" true s) with (String "_" (Re.sub_from "_" true s)).
      cbn [Text.has_char]. rewrite (IH true H). apply orb_true_r.
Qed.

Lemma lower_append (a b : string) :
  Text.lower (a +:+ b) = Text.lower a +:+ Text.lower b.
Proof.
  induction a as [|c a IH]; [reflexivity|].
  change (String c a +:+ b) with (String c (a +:+ b)).
  cbn [Text.lower]. rewrite IH. reflexivity.
Qed.

(** X15.  The sanitised part of a subject's directory name.  Whatever the
    roster holds as names, [safe_base_name] consists of word characters
    and hyphens only, so it holds no slash, no dot and no white space,
    and it holds an underscore, so it is not empty. *)
Theorem safe_base_name_is_clean (student : dict) :
  Re.all_kept (Students.safe_base_name student) = true
  /\ Text.has_char "_" (Students.safe_base_name student) = true
  /\ Text.has_char "/" (Students.safe_base_name student) = false
  /\ Text.has_char "." (Students.safe_base_name student) = false
  /\ Text.has_char " " (Students.safe_base_name student) = false.
Proof.
  unfold Students.safe_base_name, Re.sub_unsafe_runs.
  pose proof (sub_from_all_kept false
                (Text.lower (Students.first_name student +:+ "_"
                              +:+ Students.last_name student))) as Hkept.
  split; [exact Hkept|]. split.
  - apply sub_from_keeps_char; [reflexivity|].
    rewrite lower_append, has_char_append, lower_append, has_char_append.
    cbn. rewrite orb_true_r. reflexivity.
  - repeat split; apply all_kept_has_char; try exact Hkept; reflexivity.
Qed.

(** X16.  A subject's directory lies directly under the archive root
    when the identifier holds no slash: the directory name then holds no
    slash, and it is the last segment of the directory's path. *)
Theorem subject_directory_is_a_child (base_dir : string) (student : dict) :
  Text.has_char "/" (Dump.str (Py.get "id" JNull student)) = false ->
  Text.has_char "/" (Students.safe_dir_name student) = false
  /\ Text.basename (Students.child_base_dir base_dir student)
     = Students.safe_dir_name student.
Proof.
  intros Hid.
  assert (H : Text.has_char "/" (Students.safe_dir_name student) = false).
  { unfold Students.safe_dir_name. rewrite !has_char_append, Hid.
    rewrite (all_kept_has_char "/" (Students.safe_base_name student));
      [reflexivity|reflexivity|].
    apply sub_from_all_kept. }
  split; [exact H|]. apply basename_path_join. exact H.
Qed.

Lemma subject_directory_is_a_child_witness :
  Text.basename
    (Students.child_base_dir "archive"
       [("id", JStr "abc-1"); ("first_name", JStr "Ada M.");
        ("last_name", JStr "Lovelace")])
  = "ada_m__lovelace_abc-1".
Proof.
  exact (proj2 (subject_directory_is_a_child "archive"
                  [("id", JStr "abc-1"); ("first_name", JStr "Ada M.");
                   ("last_name", JStr "Lovelace")] eq_refl)).
Defined.

(** The identifier is not sanitised: with a slash in it the directory
    leaves the archive root. *)
Example subject_directory_escapes :
  Students.child_base_dir "archive"
    [("id", JStr "/../../tmp/x"); ("first_name", JStr "Ada");
     ("last_name", JStr "Lovelace")]
  = "archive/ada_lovelace_/../../tmp/x".
Proof. vm_compute. reflexivity. Qed.

Lemma suffix_after_last_underscore (a b i j : string) :
  Text.has_char "_" i = false -> Text.has_char "_" j = false ->
  a +:+ "_" +:+ i = b +:+ "_" +:+ j -> i = j.
Proof.
  intros Hi Hj. revert b. induction a as [|c a IH]; intros [|d b] E.
  - injection E as E. exact E.
  - change ("" +:+ "_" +:+ i) with (String "_" i) in E.
    change (String d b +:+ "_" +:+ j) with (String d (b +:+ "_" +:+ j)) in E.
    injection E as _ E. rewrite E, !has_char_append in Hi. cbn in Hi.
    rewrite orb_true_r in Hi. discriminate.
  - change ("" +:+ "_" +:+ j) with (String "_" j) in E.
    change (String c a +:+ "_" +:+ i) with (String c (a +:+ "_" +:+ i)) in E.
    injection E as _ E. rewrite <- E, !has_char_append in Hj. cbn in Hj.
    rewrite orb_true_r in Hj. discriminate.
  - change (String c a +:+ "_" +:+ i) with (String c (a +:+ "_" +:+ i)) in E.
    change (String d b +:+ "_" +:+ j) with (String d (b +:+ "_" +:+ j)) in E.
    injection E as _ E. apply (IH b). exact E.
Qed.

(** X17.  Two subjects with different identifiers get different
    directories, provided the identifiers hold no underscore: the
    identifier is then what follows the last underscore of the name. *)
Theorem directories_differ_by_identifier (a b : dict) :
  Text.has_char "_" (Dump.str (Py.get "id" JNull a)) = false ->
  Text.has_char "_" (Dump.str (Py.get "id" JNull b)) = false ->
  Dump.str (Py.get "id" JNull a) <> Dump.str (Py.get "id" JNull b) ->
  Students.safe_dir_name a <> Students.safe_dir_name b.
Proof.
  intros Ha Hb Hne E. apply Hne. unfold Students.safe_dir_name in E.
  exact (suffix_after_last_underscore _ _ _ _ Ha Hb E).
Qed.

Lemma directories_differ_by_identifier_witness :
  Students.safe_dir_name [("id", JStr "k-1"); ("first_name", JStr "Ada");
                          ("last_name", JStr "Lovelace")]
  <> Students.safe_dir_name [("id", JStr "k-2"); ("first_name", JStr "Ada");
                             ("last_name", JStr "Lovelace")].
Proof.
  apply (directories_differ_by_identifier
           [("id", JStr "k-1"); ("first_name", JStr "Ada");
            ("last_name", JStr "Lovelace")]
           [("id", JStr "k-2"); ("first_name", JStr "Ada");
            ("last_name", JStr "Lovelace")]).
  - reflexivity.
  - reflexivity.
  - cbn. discriminate.
Defined.

(** With underscores in the identifiers two subjects can share one
    directory, and with it one index file. *)
Example directories_can_collide :
  Students.safe_dir_name [("id", JStr "c_d"); ("first_name", JStr "a");
                          ("last_name", JStr "b")]
  = Students.safe_dir_name [("id", JStr "d"); ("first_name", JStr "a");
                            ("last_name", JStr "b_c")].
Proof. vm_compute. reflexivity. Qed.

(** ** One run per subject *)

Lemma limited_run_returns (rt : Runtime)
    (student_id name feeds images videos : string) (m : Z) (fuel : nat) (w : World) :
  (Z.to_nat m <= fuel)%nat ->
  exists entries w',
    Scraper._scrape_feed_for_student rt student_id name feeds images videos
      (Some m) fuel w = Some (entries, w').
Proof.
  intros Hfuel. unfold Scraper._scrape_feed_for_student.
  destruct (limited_try_returns rt student_id name feeds images videos m fuel
              (snd (log (LogWarning ("--- Starting scrape for student: " +:+ name
                                       +:+ " (" +:+ student_id +:+ ") ---")) w)) Hfuel)
    as (st & how & w1 & E & _).
  rewrite E.
  destruct (Scraper.scrape_finally rt student_id name feeds st w1) as [[es|e|] w2];
    eauto.
Qed.

Lemma scrape_each_indexes (rt : Runtime) (base_dir : string) (m : Z) (fuel : nat)
    (students : list dict) :
  (Z.to_nat m <= fuel)%nat ->
  Forall (fun s => is_Some (Students.text_id s)) students ->
  forall w,
    exists w',
      Students.scrape_each rt base_dir (Some m) fuel students w = Some w'
      /\ Archive.only_grows w w'
      /\ forall s, s ∈ students ->
                   is_Some (w_files w' !! Students.index_path base_dir s).
Proof.
  intros Hfuel Hids. induction Hids as [|s rest [student_id Hid] _ IH]; intros w.
  - exists w. split; [reflexivity|]. split; [apply grow_refl|].
    intros s Hs. inversion Hs.
  - cbn [Students.scrape_each]. rewrite Hid.
    set (w1 := snd (log _ w)).
    destruct (limited_run_returns rt student_id (Students.student_name s)
                (Students.child_feeds_dir base_dir s)
                (Students.child_images_dir base_dir s)
                (Students.child_videos_dir base_dir s) m fuel w1 Hfuel)
      as (entries & w2 & Erun).
    destruct (index_of_every_run _ _ _ _ _ _ _ _ _ _ _ Erun) as (index & Hindex & _).
    rewrite Erun.
    pose proof (grows_scrape_feed_for_student (R := Archive.only_grows)
                  _ _ _ _ _ _ _ _ _ _ _ Erun) as Hgrow.
    destruct (IH w2) as (w' & Erest & Hrest & Hall).
    exists w'. split; [exact Erest|]. split.
    + eapply grow_trans; [apply (grow_log w)|].
      eapply grow_trans; [exact Hgrow|exact Hrest].
    + intros s' Hs'. apply elem_of_cons in Hs' as [ -> |Hs']; [|apply Hall; exact Hs'].
      apply (proj1 Hrest). unfold Students.index_path. rewrite Hindex. eauto.
Qed.

(** X18.  Every subject of the roster gets its index.  With a page
    limit, and identifiers that are text, [scrape_for_all_students]
    returns whatever the servers answer and whenever a signal arrives: a
    signal ends the run of one subject, not the loop over the roster.
    Afterwards the index file of every subject exists. *)
Theorem every_subject_gets_an_index (rt : Runtime) (base_dir : string) (m : Z)
    (fuel : nat) (students : list dict) (w : World) :
  (Z.to_nat m <= fuel)%nat ->
  Forall (fun s => is_Some (Students.text_id s)) students ->
  exists w',
    Students.scrape_for_all_students rt base_dir (Some m) fuel students w = Some w'
    /\ forall s, s ∈ students ->
                 is_Some (w_files w' !! Students.index_path base_dir s).
Proof.
  intros Hfuel Hids. unfold Students.scrape_for_all_students.
  destruct students as [|s rest].
  - eexists. split; [reflexivity|]. intros s Hs. inversion Hs.
  - set (w0 := snd (log _ w)).
    destruct (scrape_each_indexes rt base_dir m fuel (s :: rest) Hfuel Hids w0)
      as (w1 & E & _ & Hall).
    rewrite E. eexists. split; [reflexivity|].
    intros s' Hs'. exact (Hall s' Hs').
Qed.

Lemma every_subject_gets_an_index_witness :
  exists w',
    Students.scrape_for_all_students Sample.runtime "archive" (Some 5) 5
      Sample.two_students Sample.five_interrupted = Some w'
    /\ is_Some (w_files w' !! "archive/ada_lovelace_k-1/feeds/feed_index.json")
    /\ is_Some (w_files w' !! "archive/alan_turing_k-2/feeds/feed_index.json").
Proof.
  destruct (every_subject_gets_an_index Sample.runtime "archive" 5 5
              Sample.two_students Sample.five_interrupted)
    as (w' & E & Hall).
  - apply le_n.
  - repeat constructor; eexists; reflexivity.
  - exists w'. split; [exact E|]. split.
    + apply (Hall [("id", JStr "k-1"); ("first_name", JStr "Ada");
                   ("last_name", JStr "Lovelace"); ("status", JStr "Active")]).
      apply list_elem_of_here.
    + apply (Hall [("id", JStr "k-2"); ("first_name", JStr "Alan");
                   ("last_name", JStr "Turing"); ("status", JStr "Active")]).
      apply list_elem_of_further, list_elem_of_here.
Defined.

(** The run of the example: the signal interrupts the first subject, whose
    index lists two entries, and the second subject is archived in full. *)
Example interrupt_skips_to_the_next_subject :
  option_map
    (fun w' =>
       (match w_files w' !! "archive/ada_lovelace_k-1/feeds/feed_index.json" with
        | Some (JsonFile (JDict index)) => Py.lookup "total_entries_scraped" index
        | _ => None
        end,
        match w_files w' !! "archive/alan_turing_k-2/feeds/feed_index.json" with
        | Some (JsonFile (JDict index)) => Py.lookup "total_entries_scraped" index
        | _ => None
        end))
    (Students.scrape_for_all_students Sample.runtime "archive" (Some 5) 5
       Sample.two_students Sample.five_interrupted)
  = Some (Some (JInt 2), Some (JInt 5)).
Proof. vm_compute. reflexivity. Qed.

(** ** The roster *)

(** [student_of] does not touch the world; it returns or raises. *)
Lemma student_of_pure (entry : json) (w : World) :
  (exists o, Roster.student_of entry w = (Ret o, w)
             /\ forall s, o = Some s -> map fst s = Roster.fields)
  \/ (exists e, Roster.student_of entry w = (Raise e, w)).
Proof.
  unfold Roster.student_of.
  destruct entry as [| | | s|l|d]; try (right; eexists; reflexivity).
  - destruct (Text.contains "student" s); [right|left]; eexists; try reflexivity.
    split; [reflexivity|]. discriminate.
  - destruct (existsb (Py.is_str_lit "student") l); [right|left]; eexists;
      try reflexivity.
    split; [reflexivity|]. discriminate.
  - destruct (Py.lookup "student" d) as [[| | | | |sd]|];
      try (right; eexists; reflexivity); left; eexists.
    + split; [reflexivity|]. intros s [= <-]. reflexivity.
    + split; [reflexivity|]. discriminate.
Qed.

Lemma map_student_of (l : list json) (w : World) :
  (exists records, map_m Roster.student_of l w = (Ret records, w)
                   /\ Forall (fun s => map fst s = Roster.fields)
                        (Roster.appended records)
                   /\ Forall2 (fun entry o => Roster.student_of entry w = (Ret o, w))
                        l records)
  \/ (exists e, map_m Roster.student_of l w = (Raise e, w)).
Proof.
  induction l as [|entry l IH]; cbn [map_m].
  - left. exists []. split; [reflexivity|]. split; constructor.
  - unfold bind.
    destruct (student_of_pure entry w) as [(o & E & Ho)|(e & E)]; rewrite E.
    + destruct IH as [(records & Er & Hr & H2)|(e & Er)]; rewrite Er.
      * left. exists (o :: records). split; [reflexivity|]. split.
        { destruct o as [s|]; cbn; [constructor; auto|exact Hr]. }
        { constructor; assumption. }
      * right. eexists. reflexivity.
    + right. eexists. reflexivity.
Qed.

Lemma students_of_cases (entries : json) (w : World) :
  (exists students,
     Roster.students_of entries w
     = (Ret (Some students), with_log (w_log w ++ [Roster.found students]) w)
     /\ Forall (fun s => map fst s = Roster.fields) students
     /\ forallb (fun s => Roster.hashable (Py.get "status" (JStr "Unknown") s))
          students = true)
  \/ (exists e w', Roster.students_of entries w = (Raise e, w')
                   /\ w_sigint w' = w_sigint w).
Proof.
  unfold Roster.students_of.
  destruct (Scraper.iterate entries) as [l|]; [|right; eexists _, _; split; reflexivity].
  unfold bind.
  destruct (map_student_of l w) as [(records & E & Hr & _)|(e & E)]; rewrite E.
  - unfold log.
    destruct (forallb _ (Roster.appended records)) eqn:Hh.
    + left. eexists. split; [reflexivity|]. split; assumption.
    + right. eexists _, _. split; reflexivity.
  - right. eexists _, _. split; reflexivity.
Qed.

Lemma forallb_agree {A : Type} (f g : A -> bool) (l : list A) :
  Forall (fun x => f x = g x) l -> forallb f l = forallb g l.
Proof.
  induction 1 as [|x l Hx _ IH]; [reflexivity|]. cbn. rewrite Hx, IH. reflexivity.
Qed.

(** X19.  The records of the roster.  When [get_students] returns a
    roster, every record has the four fields [id], [first_name],
    [last_name] and [status], in that order and whatever the endpoint
    sent, every status can be counted, and the one record added to the
    log tells how many students were found. *)
Theorem roster_records_have_four_fields (response : Roster.roster_response)
    (students : list dict) (w w' : World) :
  Roster.get_students response w = (Ret (Some students), w') ->
  Forall (fun s => map fst s = ["id"; "first_name"; "last_name"; "status"]) students
  /\ forallb (fun s => Roster.hashable (Py.get "status" JNull s)) students = true
  /\ w_log w' = w_log w ++ [Roster.found students].
Proof.
  unfold Roster.get_students, catch, bind at 1, blocking.
  destruct (w_sigint w) as [[|n]|] eqn:Hs; [discriminate| |].
  all: destruct response as [|data]; [cbn; discriminate|].
  all: destruct data as [| | |s|l|d]; try (cbn; discriminate).
  all: try (destruct (Text.contains "students" s); cbn; discriminate).
  all: try (destruct (existsb (Py.is_str_lit "students") l); cbn; discriminate).
  all: destruct (Py.lookup "students" d) as [entries|]; [|cbn; discriminate].
  all: match goal with
       | |- context [Roster.students_of ?en ?w0] =>
           destruct (students_of_cases en w0)
             as [(sts & E & Hfields & Hhash)|(e & w1 & E & _)]; rewrite E
       end.
  all: try (cbn; discriminate).
  all: intros [= <- <-]; split; [exact Hfields|]; split; [|reflexivity].
  all: etrans; [|exact Hhash]; apply forallb_agree.
  all: eapply Forall_impl; [exact Hfields|].
  all: intros s Hin.
  all: destruct s as [|[k1 v1] [|[k2 v2] [|[k3 v3] [|[k4 v4] [|? ?]]]]];
    try discriminate Hin; injection Hin as -> -> -> ->; reflexivity.
Qed.

Lemma roster_records_have_four_fields_witness :
  Forall (fun s => map fst s = ["id"; "first_name"; "last_name"; "status"])
    Sample.two_students.
Proof.
  refine (proj1 (roster_records_have_four_fields
                   (Roster.RosterJson Sample.roster_payload) Sample.two_students
                   Sample.blank _ _)).
  vm_compute. reflexivity.
Defined.

(** X20.  [get_students] contains its failures.  No exception leaves it;
    without a pending signal it returns; and when it returns no roster,
    the last record of the log is an error. *)
Theorem get_students_contains_failures (response : Roster.roster_response)
    (w : World) :
  (forall e, fst (Roster.get_students response w) <> Raise e)
  /\ (w_sigint w = None -> exists r, fst (Roster.get_students response w) = Ret r)
  /\ (fst (Roster.get_students response w) = Ret None ->
      exists msg, last (w_log (snd (Roster.get_students response w)))
                  = Some (LogError msg)).
Proof.
  assert (Hbody : forall (m : M (option (list dict))) w0,
            (exists e w1, m w0 = (Raise e, w1))
            \/ (m w0 = Roster.no_students w0)
            \/ (exists sts w1, m w0 = (Ret (Some sts), w1)) ->
            (forall e, fst (catch m (fun _ => log (LogError "Failed to fetch students")
                                                ;;; ret None) w0) <> Raise e)
            /\ (exists r, fst (catch m (fun _ => log (LogError "Failed to fetch students")
                                                   ;;; ret None) w0) = Ret r)
            /\ (fst (catch m (fun _ => log (LogError "Failed to fetch students")
                                          ;;; ret None) w0) = Ret None ->
                exists msg,
                  last (w_log (snd (catch m (fun _ => log (LogError "Failed to fetch students")
                                                        ;;; ret None) w0)))
                  = Some (LogError msg))).
  { intros m w0 [(e & w1 & E)|[E|(sts & w1 & E)]]; unfold catch; rewrite E; cbn.
    - split; [discriminate|]. split; [eauto|]. intros _. rewrite last_snoc. eauto.
    - split; [discriminate|]. split; [eauto|]. intros _. rewrite last_snoc. eauto.
    - split; [discriminate|]. split; [eauto|]. discriminate. }
  assert (Hcases : forall w0,
            let m := match response with
                     | Roster.RosterError => raise RequestError
                     | Roster.RosterJson data =>
                         match data with
                         | JDict d =>
                             match Py.lookup "students" d with
                             | Some entries => Roster.students_of entries
                             | None => Roster.no_students
                             end
                         | JList l =>
                             if existsb (Py.is_str_lit "students") l then raise TypeError
                             else Roster.no_students
                         | JStr s =>
                             if Text.contains "students" s then raise TypeError
                             else Roster.no_students
                         | _ => raise TypeError
                         end
                     end in
            (exists e w1, m w0 = (Raise e, w1))
            \/ (m w0 = Roster.no_students w0)
            \/ (exists sts w1, m w0 = (Ret (Some sts), w1))).
  { intros w0. cbn zeta.
    destruct response as [|data]; [left; eexists _, _; reflexivity|].
    destruct data as [| | |s|l|d]; try (left; eexists _, _; reflexivity).
    - destruct (Text.contains "students" s);
        [left; eexists _, _; reflexivity|right; left; reflexivity].
    - destruct (existsb (Py.is_str_lit "students") l);
        [left; eexists _, _; reflexivity|right; left; reflexivity].
    - destruct (Py.lookup "students" d) as [entries|]; [|right; left; reflexivity].
      destruct (students_of_cases entries w0) as [(sts & E & _)|(e & w1 & E & _)].
      + right. right. eauto.
      + left. eauto. }
  unfold Roster.get_students.
  match goal with
  | |- context [catch (blocking ;;; ?m) ?h] => set (body := m) in *; set (handler := h)
  end.
  assert (Hunfold : forall w0, w_sigint w0 = None ->
            catch (blocking ;;; body) handler w0 = catch body handler w0).
  { intros w0 H0. unfold catch, bind, blocking. rewrite H0. reflexivity. }
  destruct (w_sigint w) as [[|n]|] eqn:Hs.
  - unfold catch, bind, blocking. rewrite Hs. cbn.
    split; [discriminate|]. split; [discriminate|]. discriminate.
  - assert (E : catch (blocking ;;; body) handler w
                = catch body handler (with_sigint (Some n) w)).
    { unfold catch, bind, blocking. rewrite Hs. reflexivity. }
    rewrite E.
    destruct (Hbody body (with_sigint (Some n) w) (Hcases _))
      as (H1 & _ & H3).
    split; [exact H1|]. split; [discriminate|exact H3].
  - rewrite (Hunfold w Hs).
    destruct (Hbody body w (Hcases _)) as (H1 & H2 & H3).
    split; [exact H1|]. split; [intros _; exact H2|exact H3].
Qed.

Lemma get_students_contains_failures_witness :
  exists msg,
    last (w_log (snd (Roster.get_students
                        (Roster.RosterJson (JDict [("students", JList [JInt 7])]))
                        Sample.blank)))
    = Some (LogError msg).
Proof.
  apply (proj2 (proj2 (get_students_contains_failures
                         (Roster.RosterJson (JDict [("students", JList [JInt 7])]))
                         Sample.blank))).
  vm_compute. reflexivity.
Defined.

Lemma get_students_on_list (d : dict) (entries : list json) (w : World) :
  w_sigint w = None ->
  Py.lookup "students" d = Some (JList entries) ->
  Roster.get_students (Roster.RosterJson (JDict d)) w
  = match map_m Roster.student_of entries w with
    | (Ret records, _) =>
        let students := Roster.appended records in
        let w1 := with_log (w_log w ++ [Roster.found students]) w in
        if forallb (fun s => Roster.hashable (Py.get "status" (JStr "Unknown") s))
             students
        then (Ret (Some students), w1)
        else (Ret None,
              with_log (w_log w1 ++ [LogError "Failed to fetch students"]) w1)
    | _ => (Ret None, with_log (w_log w ++ [LogError "Failed to fetch students"]) w)
    end.
Proof.
  intros Hs Hd.
  unfold Roster.get_students, catch, bind at 1, blocking. rewrite Hs, Hd.
  unfold Roster.students_of. cbn [Scraper.iterate]. unfold bind.
  destruct (map_student_of entries w) as [(records & E & _)|(e & E)]; rewrite E.
  - unfold log. destruct (forallb _ (Roster.appended records)); reflexivity.
  - reflexivity.
Qed.

(** X21.  One element voids the roster.  When the list of students holds
    a number, a truth value or null, [get_students] returns no roster and
    logs the failure, whatever the other elements are. *)
Theorem one_scalar_voids_the_roster (d : dict) (entries : list json) (w : World) :
  w_sigint w = None ->
  Py.lookup "students" d = Some (JList entries) ->
  (exists entry, entry ∈ entries /\ Roster.scalar entry = true) ->
  Roster.get_students (Roster.RosterJson (JDict d)) w
  = (Ret None, with_log (w_log w ++ [LogError "Failed to fetch students"]) w).
Proof.
  intros Hs Hd (entry & Hin & Hscalar).
  rewrite (get_students_on_list d entries w Hs Hd).
  destruct (map_student_of entries w) as [(records & E & _ & H2)|(e & E)]; rewrite E;
    [|reflexivity].
  exfalso. clear E Hd. induction H2 as [|x o l records Hx _ IH].
  - inversion Hin.
  - apply elem_of_cons in Hin as [ -> |Hin]; [|exact (IH Hin)].
    destruct x; discriminate.
Qed.

Lemma one_scalar_voids_the_roster_witness :
  fst (Roster.get_students
         (Roster.RosterJson
            (JDict [("students",
                     JList [JDict [("student", JDict [("object_id", JStr "k-1")])];
                            JNull])]))
         Sample.blank)
  = Ret None.
Proof.
  rewrite (one_scalar_voids_the_roster
             [("students",
               JList [JDict [("student", JDict [("object_id", JStr "k-1")])]; JNull])]
             [JDict [("student", JDict [("object_id", JStr "k-1")])]; JNull]
             Sample.blank).
  - reflexivity.
  - reflexivity.
  - reflexivity.
  - exists JNull. split; [|reflexivity].
    apply list_elem_of_further, list_elem_of_here.
Defined.

Lemma map_student_of_carried (entries : list json) (students : list dict) (w : World) :
  Forall2 Roster.carries entries students ->
  map_m Roster.student_of entries w
  = (Ret (map (fun sd => Some (Roster.record_of sd)) students), w).
Proof.
  induction 1 as [|entry sd entries students (e & -> & Hsd) _ IH]; [reflexivity|].
  cbn [map_m]. unfold bind. cbn [Roster.student_of]. rewrite Hsd. cbn [ret].
  rewrite IH. reflexivity.
Qed.

Lemma appended_records (students : list dict) :
  Roster.appended (map (fun sd => Some (Roster.record_of sd)) students)
  = map Roster.record_of students.
Proof.
  unfold Roster.appended.
  induction students as [|sd l IH]; [reflexivity|]. cbn. rewrite IH. reflexivity.
Qed.

Lemma status_of_records (students : list dict) :
  forallb (fun s => Roster.hashable (Py.get "status" (JStr "Unknown") s))
    (map Roster.record_of students)
  = forallb (fun sd => Roster.hashable (Py.get "enrollment_status" (JStr "") sd))
      students.
Proof.
  induction students as [|sd l IH]; [reflexivity|].
  cbn [map forallb]. rewrite IH. reflexivity.
Qed.

(** X22.  The roster keeps order and count.  When every element of the
    list carries a student object whose enrolment status is not a list or
    an object, and no signal is pending, [get_students] returns one
    record per element, in the order of the list, each made of the
    object's [object_id], [first_name], [last_name] and
    [enrollment_status], and logs their number. *)
Theorem roster_keeps_order_and_count (d : dict) (entries : list json)
    (students : list dict) (w : World) :
  w_sigint w = None ->
  Py.lookup "students" d = Some (JList entries) ->
  Forall2 Roster.carries entries students ->
  forallb (fun sd => Roster.hashable (Py.get "enrollment_status" (JStr "") sd))
    students = true ->
  Roster.get_students (Roster.RosterJson (JDict d)) w
  = (Ret (Some (map Roster.record_of students)),
     with_log (w_log w ++ [Roster.found (map Roster.record_of students)]) w).
Proof.
  intros Hs Hd Hcarried Hhash.
  rewrite (get_students_on_list d entries w Hs Hd).
  rewrite (map_student_of_carried entries students w Hcarried).
  cbn zeta. rewrite appended_records, status_of_records, Hhash. reflexivity.
Qed.

Lemma roster_keeps_order_and_count_witness :
  fst (Roster.get_students (Roster.RosterJson Sample.roster_payload) Sample.blank)
  = Ret (Some Sample.two_students).
Proof.
  unfold Sample.roster_payload.
  erewrite (roster_keeps_order_and_count _ _
             [[("object_id", JStr "k-1"); ("first_name", JStr "Ada");
               ("last_name", JStr "Lovelace"); ("enrollment_status", JStr "Active")];
              [("object_id", JStr "k-2"); ("first_name", JStr "Alan");
               ("last_name", JStr "Turing"); ("enrollment_status", JStr "Active")]]
             Sample.blank).
  - reflexivity.
  - reflexivity.
  - reflexivity.
  - repeat constructor; eexists; (split; [reflexivity|reflexivity]).
  - reflexivity.
Defined.

(** ** Choosing the subjects *)

Lemma lookup_sublist {A : Type} (l : list A) (i : nat) (x : A) :
  l !! i = Some x -> sublist [x] l.
Proof.
  revert i. induction l as [|y l IH]; intros [|i] H; try discriminate.
  - injection H as ->. apply sublist_skip, sublist_nil_l.
  - apply sublist_cons. exact (IH i H).
Qed.

Lemma choice_of_sound (students chosen : list dict) (line : string) :
  students <> [] ->
  Selection.choice_of students line = Some chosen ->
  chosen <> [] /\ sublist chosen students.
Proof.
  unfold Selection.choice_of. intros Hne.
  destruct (Int.parse line) as [choice|]; [|discriminate].
  destruct ((1 <=? choice) && (choice <=? Z.of_nat (length students))).
  - destruct (students !! Z.to_nat (choice - 1)) as [s|] eqn:E; [|discriminate].
    intros [= <-]. split; [discriminate|]. exact (lookup_sublist _ _ _ E).
  - destruct (choice =? Z.of_nat (length students) + 1); [|discriminate].
    intros [= <-]. split; [exact Hne|reflexivity].
Qed.

(** The loop of the prompt in terms of [choice_of]. *)
Lemma ask_choice_turn (students : list dict) (line : string) (rest : list Selection.key)
    (shown : list string) :
  match Selection.choice_of students line with
  | Some chosen =>
      Selection.ask_choice students (Selection.Line line :: rest) shown
      = (Selection.Returned chosen, rest,
         shown ++ [Selection.prompt (Z.of_nat (length students))])
  | None =>
      exists message,
        Selection.ask_choice students (Selection.Line line :: rest) shown
        = Selection.ask_choice students rest
            ((shown ++ [Selection.prompt (Z.of_nat (length students))]) ++ [message])
  end.
Proof.
  unfold Selection.choice_of. cbn [Selection.ask_choice].
  destruct (Int.parse line) as [choice|]; [|eexists; reflexivity].
  destruct ((1 <=? choice) && (choice <=? Z.of_nat (length students))) eqn:Hrange.
  - destruct (students !! Z.to_nat (choice - 1)) as [s|] eqn:E; [reflexivity|].
    exfalso. apply andb_true_iff in Hrange as [H1 H2].
    apply Z.leb_le in H1, H2. apply lookup_ge_None in E. lia.
  - destruct (choice =? Z.of_nat (length students) + 1); [reflexivity|].
    eexists; reflexivity.
Qed.

Lemma ask_choice_cases (students : list dict) (input : list Selection.key) :
  forall shown,
    match Selection.ask_choice students input shown with
    | (Selection.Returned chosen, rest, _) =>
        exists line, Selection.Line line ∈ input
                     /\ Selection.choice_of students line = Some chosen
    | (Selection.Exited c, _, _) => c = 0 /\ Selection.CtrlC ∈ input
    | (Selection.EOFError, _, _) => True
    | (Selection.IndexError, _, _) => False
    end.
Proof.
  induction input as [|k rest IH]; intros shown; [exact I|].
  destruct k as [line| |].
  - pose proof (ask_choice_turn students line rest shown) as H.
    destruct (Selection.choice_of students line) as [chosen|] eqn:E.
    + rewrite H. exists line. split; [apply list_elem_of_here|exact E].
    + destruct H as (message & ->).
      specialize (IH ((shown ++ [Selection.prompt (Z.of_nat (length students))])
                        ++ [message])).
      destruct (Selection.ask_choice students rest _) as [[[chosen|c| |] rest'] shown'].
      * destruct IH as (l & Hin & Hl). exists l.
        split; [apply list_elem_of_further; exact Hin|exact Hl].
      * destruct IH as [-> Hin]. split; [reflexivity|].
        apply list_elem_of_further; exact Hin.
      * exact I.
      * exact IH.
  - cbn. split; [reflexivity|apply list_elem_of_here].
  - exact I.
Qed.

(** X23.  The selection is a part of the roster.  When
    [_filter_students_based_on_selection] returns, the roster it leaves
    is not empty and is a sub-list of the roster it was given, in the
    same order; with [--student-id] it is the students with that
    identifier, chosen without a prompt. *)
Theorem selection_is_part_of_the_roster (target_student_id : option string)
    (all_students : bool) (students chosen : list dict) (t t' : Selection.terminal) :
  Selection._filter_students_based_on_selection target_student_id all_students
    students t = (Selection.Returned chosen, t') ->
  chosen <> []
  /\ sublist chosen students
  /\ (forall target, Selection.given target_student_id = Some target ->
        chosen = filter (fun s => Selection.has_id target s = true) students
        /\ t' = t).
Proof.
  unfold Selection._filter_students_based_on_selection.
  destruct (Selection.given target_student_id) as [target|].
  - destruct all_students; [discriminate|].
    destruct (filter _ students) as [|s l] eqn:E; [discriminate|].
    intros [= <- <-]. split; [discriminate|]. split.
    + rewrite <- E. apply sublist_filter.
    + intros ? [= <-]. rewrite E. split; reflexivity.
  - destruct students as [|s1 [|s2 rest]]; [discriminate| |].
    + intros [= <- <-]. split; [discriminate|]. split; [reflexivity|discriminate].
    + destruct all_students.
      { intros [= <- <-]. split; [discriminate|]. split; [reflexivity|discriminate]. }
      unfold Selection._select_student.
      pose proof (ask_choice_cases (s1 :: s2 :: rest) (Selection.keys t)
                    (Selection.screen t
                       ++ [Selection.nl +:+ "Available active students:"]
                       ++ Selection.menu 1 (s1 :: s2 :: rest)
                       ++ [Text.str_of_Z (Z.of_nat (length (s1 :: s2 :: rest)) + 1)
                             +:+ ". All Students"])) as H.
      destruct (Selection.ask_choice _ _ _) as [[[l|c| |] rest'] shown'];
        try discriminate.
      intros [= <- <-]. destruct H as (line & _ & Hl).
      assert (Hroster : s1 :: s2 :: rest <> []) by discriminate.
      destruct (choice_of_sound _ _ _ Hroster Hl) as [Hne Hsub].
      split; [exact Hne|]. split; [exact Hsub|discriminate].
Qed.

Lemma selection_is_part_of_the_roster_witness :
  sublist
    [[("id", JStr "k-2"); ("first_name", JStr "Alan"); ("last_name", JStr "Turing");
      ("status", JStr "Active")]] Sample.two_students.
Proof.
  refine (proj1 (proj2 (selection_is_part_of_the_roster None false Sample.two_students
                          [[("id", JStr "k-2"); ("first_name", JStr "Alan");
                            ("last_name", JStr "Turing"); ("status", JStr "Active")]]
                          {| Selection.keys := [Selection.Line "x"; Selection.Line "2"];
                             Selection.screen := []; Selection.journal := [] |}
                          (snd (Selection._filter_students_based_on_selection None false
                                  Sample.two_students
                                  {| Selection.keys := [Selection.Line "x";
                                                        Selection.Line "2"];
                                     Selection.screen := [];
                                     Selection.journal := [] |})) _))).
  vm_compute. reflexivity.
Defined.

Lemma ask_choice_skips (students chosen : list dict) (bad : list Selection.key)
    (line : string) (rest : list Selection.key) :
  Forall (Selection.rejected students) bad ->
  Selection.choice_of students line = Some chosen ->
  forall shown,
    exists shown',
      Selection.ask_choice students (bad ++ Selection.Line line :: rest) shown
      = (Selection.Returned chosen, rest, shown')
      /\ length shown' = (length shown + 2 * length bad + 1)%nat.
Proof.
  intros Hbad Hline. induction Hbad as [|k bad (l & -> & Hl) _ IH]; intros shown.
  - pose proof (ask_choice_turn students line rest shown) as H. rewrite Hline in H.
    eexists. split; [exact H|]. rewrite length_app. cbn. lia.
  - pose proof (ask_choice_turn students l (bad ++ Selection.Line line :: rest) shown)
      as H.
    rewrite Hl in H. destruct H as (message & H).
    cbn [app]. rewrite H.
    destruct (IH ((shown ++ [Selection.prompt (Z.of_nat (length students))])
                    ++ [message])) as (shown' & E & Hlen).
    exists shown'. split; [exact E|].
    rewrite Hlen, !length_app. cbn. lia.
Qed.

(** X24.  The prompt asks until it is answered.  Lines that are not a
    number, or a number that is not on the menu, are answered with one
    message each and the prompt again; the first line that is on the menu
    decides, and the keys after it are left unread. *)
Theorem prompt_skips_rejected_lines (s1 s2 : dict) (others chosen : list dict)
    (bad : list Selection.key) (line : string) (rest : list Selection.key)
    (t : Selection.terminal) :
  Selection.keys t = bad ++ Selection.Line line :: rest ->
  Forall (Selection.rejected (s1 :: s2 :: others)) bad ->
  Selection.choice_of (s1 :: s2 :: others) line = Some chosen ->
  exists t',
    Selection._filter_students_based_on_selection None false (s1 :: s2 :: others) t
    = (Selection.Returned chosen, t')
    /\ Selection.keys t' = rest
    /\ Selection.journal t' = Selection.journal t
    /\ length (Selection.screen t')
       = (length (Selection.screen t) + length (s1 :: s2 :: others) + 2
          + 2 * length bad + 1)%nat.
Proof.
  intros Hkeys Hbad Hline.
  unfold Selection._filter_students_based_on_selection, Selection._select_student.
  cbn [Selection.given]. rewrite Hkeys.
  match goal with
  | |- context [Selection.ask_choice ?s ?i ?sh] =>
      destruct (ask_choice_skips s chosen bad line rest Hbad Hline sh)
        as (shown' & E & Hlen)
  end.
  rewrite E. eexists. split; [reflexivity|]. cbn [Selection.keys Selection.journal
                                                   Selection.screen].
  split; [reflexivity|]. split; [reflexivity|].
  rewrite Hlen, !length_app. cbn [length].
  assert (Hmenu : forall l i, length (Selection.menu i l) = length l).
  { induction l as [|x l IH]; intros i; [reflexivity|]. cbn. rewrite IH. reflexivity. }
  rewrite Hmenu. cbn [length]. lia.
Qed.

Lemma prompt_skips_rejected_lines_witness :
  exists t',
    Selection._filter_students_based_on_selection None false Sample.two_students
      {| Selection.keys := [Selection.Line "x"; Selection.Line "7"; Selection.Line " 3 ";
                            Selection.CtrlC];
         Selection.screen := []; Selection.journal := [] |}
    = (Selection.Returned Sample.two_students, t')
    /\ Selection.keys t' = [Selection.CtrlC].
Proof.
  destruct (prompt_skips_rejected_lines
              [("id", JStr "k-1"); ("first_name", JStr "Ada");
               ("last_name", JStr "Lovelace"); ("status", JStr "Active")]
              [("id", JStr "k-2"); ("first_name", JStr "Alan");
               ("last_name", JStr "Turing"); ("status", JStr "Active")]
              [] Sample.two_students
              [Selection.Line "x"; Selection.Line "7"] " 3 " [Selection.CtrlC]
              {| Selection.keys := [Selection.Line "x"; Selection.Line "7";
                                    Selection.Line " 3 "; Selection.CtrlC];
                 Selection.screen := []; Selection.journal := [] |})
    as (t' & E & Hk & _).
  - reflexivity.
  - repeat constructor; eexists; (split; [reflexivity|vm_compute; reflexivity]).
  - vm_compute. reflexivity.
  - exists t'. split; [exact E|exact Hk].
Defined.

(** X25.  How the selection ends the program.  It exits with 0 only when
    Ctrl-C is typed at the prompt, and otherwise with 1, and then the
    last record of the log is an error; the index into the roster is
    never out of range; and the program dies of EOFError only at the
    prompt, that is without [--student-id], without [--all-students] and
    with more than one student. *)
Theorem selection_endings (target_student_id : option string) (all_students : bool)
    (students : list dict) (t : Selection.terminal) :
  match Selection._filter_students_based_on_selection target_student_id
          all_students students t with
  | (Selection.Returned _, _) => True
  | (Selection.Exited code, t') =>
      (code = 0 /\ Selection.CtrlC ∈ Selection.keys t)
      \/ (code = 1 /\ exists msg,
            Selection.journal t' = Selection.journal t ++ [LogError msg])
  | (Selection.EOFError, _) =>
      Selection.given target_student_id = None /\ all_students = false
      /\ (2 <= length students)%nat
  | (Selection.IndexError, _) => False
  end.
Proof.
  unfold Selection._filter_students_based_on_selection.
  destruct (Selection.given target_student_id) as [target|].
  - destruct all_students; [right; split; [reflexivity|eexists; reflexivity]|].
    destruct (filter _ students); [|exact I].
    right. split; [reflexivity|eexists; reflexivity].
  - destruct students as [|s1 [|s2 rest]];
      [right; split; [reflexivity|eexists; reflexivity]|exact I|].
    destruct all_students; [exact I|].
    unfold Selection._select_student.
    pose proof (ask_choice_cases (s1 :: s2 :: rest) (Selection.keys t)
                  (Selection.screen t
                     ++ [Selection.nl +:+ "Available active students:"]
                     ++ Selection.menu 1 (s1 :: s2 :: rest)
                     ++ [Text.str_of_Z (Z.of_nat (length (s1 :: s2 :: rest)) + 1)
                           +:+ ". All Students"])) as H.
    destruct (Selection.ask_choice _ _ _) as [[[l|c| |] rest'] shown'].
    + exact I.
    + left. exact H.
    + split; [reflexivity|]. split; [reflexivity|]. cbn. lia.
    + exact H.
Qed.

(** X26.  With a flag, or with one student, the keyboard is not read.
    When [--student-id] is given, [--all-students] is set, or the roster
    holds fewer than two students, the selection leaves the input as it
    is and prints no prompt; with both flags it exits with 1 whatever the
    roster. *)
Theorem flags_decide_without_the_keyboard (target_student_id : option string)
    (all_students : bool) (students : list dict) (t : Selection.terminal) :
  is_Some (Selection.given target_student_id) \/ all_students = true
  \/ (length students < 2)%nat ->
  Selection.keys
    (snd (Selection._filter_students_based_on_selection target_student_id
            all_students students t)) = Selection.keys t
  /\ Forall (fun line => line <> Selection.prompt (Z.of_nat (length students)))
       (drop (length (Selection.screen t))
          (Selection.screen
             (snd (Selection._filter_students_based_on_selection target_student_id
                     all_students students t))))
  /\ (is_Some (Selection.given target_student_id) -> all_students = true ->
      fst (Selection._filter_students_based_on_selection target_student_id
             all_students students t) = Selection.Exited 1).
Proof.
  intros H. unfold Selection._filter_students_based_on_selection.
  destruct (Selection.given target_student_id) as [target|].
  - destruct all_students.
    + cbn. rewrite drop_all. repeat split; auto.
    + destruct (filter _ students); cbn.
      * split; [reflexivity|]. split; [|discriminate].
        rewrite drop_app_length. constructor.
        { intros E. apply (f_equal (fun s => String.get 1 s)) in E.
          cbn in E. discriminate E. }
        unfold Selection.id_lines. apply Forall_map. apply Forall_forall.
        intros s _ E. apply (f_equal (fun s => String.get 0 s)) in E.
        cbn in E. discriminate E.
      * rewrite drop_all. repeat split; auto; discriminate.
  - assert (Hnone : forall P : Prop, is_Some (@None string) -> P).
    { intros P [? Hx]. discriminate Hx. }
    destruct students as [|s1 [|s2 rest]].
    + cbn. rewrite drop_all. repeat split; auto; intros Hx; exact (Hnone _ Hx).
    + cbn. rewrite drop_all. repeat split; auto; intros Hx; exact (Hnone _ Hx).
    + destruct all_students.
      * cbn. rewrite drop_all. repeat split; auto; intros Hx; exact (Hnone _ Hx).
      * exfalso. destruct H as [H|[H|H]];
          [exact (Hnone _ H)|discriminate|cbn in H; lia].
Qed.

Lemma flags_decide_without_the_keyboard_witness :
  fst (Selection._filter_students_based_on_selection (Some "k-1") true
         Sample.two_students
         {| Selection.keys := [Selection.CtrlC]; Selection.screen := [];
            Selection.journal := [] |})
  = Selection.Exited 1.
Proof.
  apply (flags_decide_without_the_keyboard (Some "k-1") true Sample.two_students
           {| Selection.keys := [Selection.CtrlC]; Selection.screen := [];
              Selection.journal := [] |}).
  - right. left. reflexivity.
  - eexists. reflexivity.
  - reflexivity.
Defined.

(** ** The date range *)

Lemma year_of_pad4 (year : Z) (rest : string) :
  1 <= year <= 9999 ->
  Dates.year_of (Clock.pad4 year +:+ "-" +:+ rest) = Some (year, rest).
Proof.
  intros Hy.
  assert (Hall : forallb Dates.four_digits (seqZ 1 9999) = true)
    by (vm_compute; reflexivity).
  assert (H : Dates.four_digits year = true).
  { apply (proj1 (forallb_forall _ _) Hall). apply list_elem_of_In.
    apply elem_of_seqZ. lia. }
  unfold Dates.four_digits in H.
  destruct (Clock.pad4 year) as [|a [|b [|c [|d [|? ?]]]]]; try discriminate H.
  change (String a (String b (String c (String d ""))) +:+ "-" +:+ rest)
    with (String a (String b (String c (String d (String "-" rest))))).
  unfold Dates.year_of.
  destruct (Dates.digit a), (Dates.digit b), (Dates.digit c), (Dates.digit d);
    try discriminate H.
  apply Z.eqb_eq in H. rewrite H. reflexivity.
Qed.

Lemma month_of_pad2 (m : Z) (rest : string) :
  1 <= m <= 12 -> Dates.month_of (Text.pad2 m +:+ "-" +:+ rest) = Some (m, rest).
Proof.
  intros Hm.
  assert (H : m = 1 \/ m = 2 \/ m = 3 \/ m = 4 \/ m = 5 \/ m = 6 \/ m = 7 \/ m = 8 \/ m = 9 \/ m = 10 \/ m = 11 \/ m = 12) by lia.
  repeat destruct H as [H|H]; subst m; reflexivity.
Qed.

Lemma day_of_pad2 (d : Z) :
  1 <= d <= 31 -> Dates.day_of (Text.pad2 d) = Some d.
Proof.
  intros Hd.
  assert (H : d = 1 \/ d = 2 \/ d = 3 \/ d = 4 \/ d = 5 \/ d = 6 \/ d = 7 \/ d = 8 \/ d = 9 \/ d = 10 \/ d = 11 \/ d = 12 \/ d = 13 \/ d = 14 \/ d = 15 \/ d = 16 \/ d = 17 \/ d = 18 \/ d = 19 \/ d = 20 \/ d = 21 \/ d = 22 \/ d = 23 \/ d = 24 \/ d = 25 \/ d = 26 \/ d = 27 \/ d = 28 \/ d = 29 \/ d = 30 \/ d = 31) by lia.
  repeat destruct H as [H|H]; subst d; reflexivity.
Qed.

Lemma valid_bounds (year month day : Z) :
  Dates.valid year month day = true ->
  1 <= year <= 9999 /\ 1 <= month <= 12 /\ 1 <= day <= 31.
Proof.
  unfold Dates.valid. intros H.
  repeat (apply andb_true_iff in H as [H ?]).
  repeat match goal with
         | H : (_ <=? _) = true |- _ => apply Z.leb_le in H
         end.
  assert (Dates.days_in_month year month <= 31).
  { unfold Dates.days_in_month.
    destruct (month =? 2); [destruct (Dates.is_leap year); lia|].
    destruct ((month =? 4) || (month =? 6) || (month =? 9) || (month =? 11)); lia. }
  lia.
Qed.

Lemma strptime_canonical (year month day : Z) :
  Dates.valid year month day = true ->
  Dates.strptime (Dates.canonical year month day) = Some (year, month, day).
Proof.
  intros Hvalid. destruct (valid_bounds _ _ _ Hvalid) as (Hy & Hm & Hd).
  unfold Dates.strptime, Dates.canonical.
  rewrite (year_of_pad4 year _ Hy), (month_of_pad2 month _ Hm), (day_of_pad2 day Hd).
  rewrite Hvalid. reflexivity.
Qed.

Lemma strptime_valid (s : string) (year month day : Z) :
  Dates.strptime s = Some (year, month, day) -> Dates.valid year month day = true.
Proof.
  unfold Dates.strptime.
  destruct (Dates.year_of s) as [[y s1]|]; [|discriminate].
  destruct (Dates.month_of s1) as [[m s2]|]; [|discriminate].
  destruct (Dates.day_of s2) as [d|]; [|discriminate].
  destruct (Dates.valid y m d) eqn:E; [|discriminate].
  intros [= <- <- <-]. exact E.
Qed.

(** X27.  A bound of the date range is sent or a warning is logged, never
    both and never neither.  For a text that is not empty, either it
    names a day of the calendar, and the bound is that day in the form
    year-month-day with two digits for month and day, followed by the
    time of day, and nothing is logged; or no bound is sent and one
    warning is logged. *)
Theorem date_bound_or_warning (which clock s : string) :
  s <> "" ->
  (exists year month day,
     Dates.valid year month day = true
     /\ Dates.bound which clock (Some s)
        = (Some (Dates.strftime_day (year, month, day) +:+ clock), []))
  \/ (exists warning, Dates.bound which clock (Some s) = (None, [LogWarning warning])).
Proof.
  intros Hs. unfold Dates.bound.
  destruct (String.eqb_spec s ""); [contradiction|].
  destruct (Dates.strptime s) as [[[year month] day]|] eqn:E.
  - left. exists year, month, day. split; [exact (strptime_valid _ _ _ _ E)|].
    reflexivity.
  - right. eexists. reflexivity.
Qed.

Lemma date_bound_or_warning_witness :
  Dates.bound "start" "T00:00:00.000Z" (Some "2024-5-1")
  = (Some "2024-05-01T00:00:00.000Z", [])
  /\ exists warning,
       Dates.bound "start" "T00:00:00.000Z" (Some "2024-02-30")
       = (None, [LogWarning warning]).
Proof.
  split; [reflexivity|].
  destruct (date_bound_or_warning "start" "T00:00:00.000Z" "2024-02-30")
    as [(year & month & day & _ & E)|H].
  - discriminate.
  - vm_compute in E. discriminate E.
  - exact H.
Defined.

Lemma pad4_from_1000 (year : Z) : 1000 <= year -> Clock.pad4 year = Text.str_of_Z year.
Proof.
  intros H. unfold Clock.pad4, Text.pad2.
  destruct (Z.ltb_spec year 1000); [lia|].
  destruct (Z.ltb_spec year 100); [lia|].
  destruct (Z.ltb_spec year 10); [lia|]. reflexivity.
Qed.

(** X28.  A day written as YYYY-MM-DD passes unchanged.  For every day of
    the calendar from the year 1000 on, given in four, two and two digits
    as both bounds, the request carries the page parameters, then
    [start_date] as that text followed by T00:00:00.000Z and [end_date]
    as that text followed by T23:59:59.999Z, and nothing is logged. *)
Theorem canonical_days_pass_unchanged (page page_size : Z)
    (include_parent_actions : bool) (year month day : Z) :
  Dates.valid year month day = true ->
  1000 <= year ->
  Dates.params page page_size include_parent_actions
    (Some (Dates.canonical year month day)) (Some (Dates.canonical year month day))
  = ([("page", JInt page); ("page_size", JInt page_size);
      ("include_parent_actions", JBool include_parent_actions);
      ("start_date", JStr (Dates.canonical year month day +:+ "T00:00:00.000Z"));
      ("end_date", JStr (Dates.canonical year month day +:+ "T23:59:59.999Z"))],
     []).
Proof.
  intros Hvalid Hyear.
  assert (Hne : String.eqb (Dates.canonical year month day) "" = false).
  { unfold Dates.canonical. rewrite (pad4_from_1000 year Hyear).
    pose proof (str_of_Z_nonempty year) as Hy.
    destruct (Text.str_of_Z year); [contradiction|reflexivity]. }
  unfold Dates.params, Dates.bound. rewrite Hne, (strptime_canonical _ _ _ Hvalid).
  unfold Dates.strftime_day, Dates.canonical. rewrite (pad4_from_1000 year Hyear).
  reflexivity.
Qed.

Lemma canonical_days_pass_unchanged_witness :
  Dates.params 1 10 true (Some "2024-02-29") (Some "2024-02-29")
  = ([("page", JInt 1); ("page_size", JInt 10);
      ("include_parent_actions", JBool true);
      ("start_date", JStr "2024-02-29T00:00:00.000Z");
      ("end_date", JStr "2024-02-29T23:59:59.999Z")],
     []).
Proof.
  apply (canonical_days_pass_unchanged 1 10 true 2024 2 29).
  - reflexivity.
  - lia.
Defined.

(** Before the year 1000 the bound that is sent has fewer digits than the
    text that was given. *)
Example early_years_lose_their_zeros :
  fst (Dates.bound "start" "T00:00:00.000Z" (Some "0999-12-31"))
  = Some "999-12-31T00:00:00.000Z".
Proof. reflexivity. Qed.

(** ** The site generator *)

Lemma pages_upto (l : list json) (n : nat) :
  concat (map (Site.page_entries l) (seq 1 n)) = take (n * Site.ENTRIES_PER_PAGE) l.
Proof.
  induction n as [|n IH]; [reflexivity|].
  rewrite seq_S, map_app, concat_app, IH. cbn [map concat].
  rewrite app_nil_r. unfold Site.page_entries.
  replace (1 + n - 1)%nat with n by lia.
  rewrite take_take_drop. f_equal. lia.
Qed.

Lemma total_pages_spec (n : nat) :
  (1 <= Site.total_pages n)%nat
  /\ (n <= Site.total_pages n * Site.ENTRIES_PER_PAGE)%nat
  /\ (0 < n -> (Site.total_pages n - 1) * Site.ENTRIES_PER_PAGE < n)%nat.
Proof.
  unfold Site.total_pages, Site.ENTRIES_PER_PAGE.
  destruct (Nat.ltb_spec 0 n) as [Hpos|Hzero]; [|lia].
  change (25 - 1)%nat with 24%nat.
  pose proof (Nat.div_mod_eq (n + 24) 25) as Hdiv.
  pose proof (Nat.mod_upper_bound (n + 24) 25 ltac:(lia)) as Hmod.
  set (q := ((n + 24) / 25)%nat) in *. set (r := ((n + 24) mod 25)%nat) in *.
  lia.
Qed.

(** X29.  The pages of the site split the entries.  Put one after the
    other, the pages that [generate_child_site] renders are the sorted
    entries, with none lost and none twice; there is at least one page;
    every page but the last holds 25 entries, and no page is empty unless
    there is no entry at all. *)
Theorem site_pages_split_the_entries (all_entries : list json) :
  concat (Site.pages all_entries) = all_entries
  /\ length (Site.pages all_entries) = Site.total_pages (length all_entries)
  /\ (1 <= Site.total_pages (length all_entries))%nat
  /\ (forall k page,
        Site.pages all_entries !! k = Some page ->
        (length page <= 25)%nat
        /\ ((S k < Site.total_pages (length all_entries))%nat -> length page = 25%nat)
        /\ (all_entries <> [] -> page <> [])).
Proof.
  destruct (total_pages_spec (length all_entries)) as (Hone & Hcover & Hlast).
  unfold Site.pages. split; [|split; [|split; [exact Hone|]]].
  - rewrite pages_upto. apply take_ge. exact Hcover.
  - rewrite length_map, length_seq. reflexivity.
  - intros k page Hk.
    rewrite list_lookup_fmap in Hk.
    destruct (seq 1 (Site.total_pages (length all_entries)) !! k) as [i|] eqn:Ei;
      [|discriminate].
    apply lookup_seq in Ei as [-> Hlt]. injection Hk as <-.
    unfold Site.page_entries.
    replace (1 + k - 1)%nat with k by lia.
    rewrite length_take, length_drop.
    unfold Site.ENTRIES_PER_PAGE in *.
    split; [lia|]. split.
    { intros Hmore.
      assert (Hpos : (0 < length all_entries)%nat).
      { destruct all_entries; [vm_compute in Hmore; lia|cbn; lia]. }
      specialize (Hlast Hpos). nia. }
    intros Hne.
    assert (Hpos : (0 < length all_entries)%nat).
    { destruct all_entries; [contradiction|cbn; lia]. }
    specialize (Hlast Hpos).
    intros Hnil. apply (f_equal length) in Hnil.
    rewrite length_take, length_drop in Hnil. cbn [length] in Hnil.
    assert (Hk' : (k * 25 <= (Site.total_pages (length all_entries) - 1) * 25)%nat)
      by nia.
    lia.
Qed.

(** *** The order of text *)

Lemma string_compare_trans_le (a : string) :
  forall b c,
    String.leb a b = true -> String.leb b c = true -> String.leb a c = true.
Proof.
  unfold String.leb.
  induction a as [|x a IH]; intros [|y b] [|z c]; cbn;
    try (intros; reflexivity); try discriminate.
  unfold Ascii.compare.
  destruct (N.compare_spec (N_of_ascii x) (N_of_ascii y)) as [Exy|Lxy|Gxy];
    destruct (N.compare_spec (N_of_ascii y) (N_of_ascii z)) as [Eyz|Lyz|Gyz];
    intros H1 H2; try discriminate.
  - rewrite Exy, Eyz, N.compare_refl. exact (IH b c H1 H2).
  - rewrite Exy. rewrite (proj2 (N.compare_lt_iff _ _) Lyz). reflexivity.
  - rewrite <- Eyz. rewrite (proj2 (N.compare_lt_iff _ _) Lxy). reflexivity.
  - rewrite (proj2 (N.compare_lt_iff _ _) (N.lt_trans _ _ _ Lxy Lyz)). reflexivity.
Qed.

Lemma string_ltb_leb (a b : string) :
  String.ltb a b = true -> String.leb a b = true.
Proof. unfold String.ltb, String.leb. destruct (String.compare a b); congruence. Qed.

Lemma string_not_ltb (a b : string) :
  String.ltb a b = false -> String.leb b a = true.
Proof.
  unfold String.ltb, String.leb. rewrite (String.compare_antisym a b).
  destruct (String.compare b a); cbn; congruence.
Qed.

Lemma string_ltb_not_leb (a b : string) :
  String.ltb a b = true -> String.leb b a = false.
Proof.
  unfold String.ltb, String.leb. rewrite (String.compare_antisym a b).
  destruct (String.compare b a); cbn; congruence.
Qed.

(** *** The sort *)

Lemma insert_behind_perm (x : json) (l : list json) :
  Site.insert_behind x l ≡ₚ x :: l.
Proof.
  induction l as [|y r IH]; [reflexivity|].
  cbn [Site.insert_behind].
  destruct (String.ltb (Site.key_of y) (Site.key_of x)); [reflexivity|].
  rewrite IH. apply Permutation_swap.
Qed.

Lemma insert_behind_descending (x : json) (l : list json) :
  Site.descending l -> Site.descending (Site.insert_behind x l).
Proof.
  induction l as [|y r IH]; intros Hl.
  - cbn. split; [constructor|exact I].
  - cbn [Site.insert_behind]. destruct Hl as [Hy Hr].
    destruct (String.ltb (Site.key_of y) (Site.key_of x)) eqn:E.
    + split; [|split; assumption].
      constructor; [apply string_ltb_leb; exact E|].
      eapply Forall_impl; [exact Hy|].
      intros z Hz. cbn beta in Hz.
      exact (string_compare_trans_le _ _ _ Hz (string_ltb_leb _ _ E)).
    + split; [|apply IH; exact Hr].
      rewrite (insert_behind_perm x r).
      constructor; [apply string_not_ltb; exact E|exact Hy].
Qed.

Lemma with_key_none (s : string) (l : list json) :
  Forall (fun z => Site.key_of z <> s) l -> Site.with_key s l = [].
Proof.
  unfold Site.with_key. induction 1 as [|z r Hz _ IH]; [reflexivity|].
  rewrite filter_cons. destruct (decide (Site.key_of z = s)); [contradiction|exact IH].
Qed.

Lemma insert_behind_with_key (s : string) (x : json) (l : list json) :
  Site.descending l ->
  Site.with_key s (Site.insert_behind x l)
  = Site.with_key s l ++ Site.with_key s [x].
Proof.
  unfold Site.with_key.
  induction l as [|y r IH]; intros Hl; [reflexivity|].
  cbn [Site.insert_behind]. destruct Hl as [Hy Hr].
  destruct (String.ltb (Site.key_of y) (Site.key_of x)) eqn:E.
  - rewrite (filter_cons _ x). rewrite (filter_cons _ x []).
    rewrite filter_nil.
    destruct (decide (Site.key_of x = s)) as [Hx|Hx]; [|rewrite app_nil_r; reflexivity].
    assert (Hnone : Site.with_key s (y :: r) = []).
    { apply (with_key_none s). constructor.
      - intros Hyk. rewrite <- Hx in Hyk. rewrite Hyk in E.
        unfold String.ltb in E.
        assert (Hrefl : String.compare (Site.key_of x) (Site.key_of x) = Eq).
        { pose proof (String.compare_antisym (Site.key_of x) (Site.key_of x)) as Ha.
          destruct (String.compare (Site.key_of x) (Site.key_of x));
            [reflexivity|discriminate Ha|discriminate Ha]. }
        rewrite Hrefl in E. discriminate E.
      - eapply Forall_impl; [exact Hy|].
        intros z Hz Hzk. cbn beta in Hz. rewrite <- Hx in Hzk. rewrite Hzk in Hz.
        rewrite (string_ltb_not_leb _ _ E) in Hz. discriminate Hz. }
    unfold Site.with_key in Hnone. rewrite Hnone. reflexivity.
  - rewrite !(filter_cons _ y). rewrite (IH Hr).
    destruct (decide (Site.key_of y = s)); reflexivity.
Qed.

Lemma sort_from (s : string) (entries : list json) :
  forall sorted,
    Site.descending sorted ->
    Site.descending (fold_left (fun acc x => Site.insert_behind x acc) entries sorted)
    /\ fold_left (fun acc x => Site.insert_behind x acc) entries sorted
       ≡ₚ sorted ++ entries
    /\ Site.with_key s (fold_left (fun acc x => Site.insert_behind x acc) entries sorted)
       = Site.with_key s sorted ++ Site.with_key s entries.
Proof.
  induction entries as [|x r IH]; intros sorted Hs; cbn [fold_left].
  - rewrite app_nil_r. split; [exact Hs|]. split; [reflexivity|].
    unfold Site.with_key. rewrite filter_nil, app_nil_r. reflexivity.
  - destruct (IH (Site.insert_behind x sorted) (insert_behind_descending x sorted Hs))
      as (Hd & Hp & Hk).
    split; [exact Hd|]. split.
    + rewrite Hp, (insert_behind_perm x sorted).
      rewrite (Permutation_middle sorted r x). reflexivity.
    + rewrite Hk, (insert_behind_with_key s x sorted Hs).
      unfold Site.with_key. rewrite <- app_assoc, <- filter_app. reflexivity.
Qed.

Lemma descending_newest_first (l : list json) :
  Site.descending l -> Site.newest_first (map Site.key_of l) = true.
Proof.
  induction l as [|a [|b r] IH]; intros H; try reflexivity.
  destruct H as [Ha Hr]. cbn [map Site.newest_first].
  apply andb_true_iff. split.
  - inversion Ha; assumption.
  - apply IH. exact Hr.
Qed.

Lemma keys_of_text (entries : list json) :
  Forall (fun x => is_Some (Site.text_key x)) entries ->
  exists keys, Site.keys_of entries = Some keys /\ forallb Site.is_text keys = true.
Proof.
  induction 1 as [|x r [s Hx] _ (keys & Hk & Ht)]; [exists []; split; reflexivity|].
  unfold Site.text_key in Hx. cbn [Site.keys_of].
  destruct (Site.sort_key x) as [[| | |t| |]|]; try discriminate Hx.
  rewrite Hk. exists (JStr t :: keys). split; [reflexivity|]. cbn. exact Ht.
Qed.

(** X30.  The site shows the newest entry first.  When the key of every
    entry, its [original_data.event_date] or "0000", is text, the sort of
    [generate_child_site] succeeds, its result holds the same entries,
    no key is followed by a greater one, and entries with the same key
    keep the order they have in the index. *)
Theorem site_shows_newest_first (all_entries : list json) :
  Forall (fun x => is_Some (Site.text_key x)) all_entries ->
  exists sorted,
    Site.sort_entries all_entries = Site.Sorted sorted
    /\ sorted ≡ₚ all_entries
    /\ Site.newest_first (map Site.key_of sorted) = true
    /\ forall s, Site.with_key s sorted = Site.with_key s all_entries.
Proof.
  intros Htext.
  destruct (keys_of_text all_entries Htext) as (keys & Hk & Ht).
  unfold Site.sort_entries. rewrite Hk, Ht.
  exists (Site.sort_by_date all_entries). split; [reflexivity|].
  unfold Site.sort_by_date.
  destruct (sort_from "" all_entries [] I) as (Hd & Hp & _).
  split; [exact Hp|]. split; [exact (descending_newest_first _ Hd)|].
  intros s. destruct (sort_from s all_entries [] I) as (_ & _ & Hs). exact Hs.
Qed.

Lemma site_shows_newest_first_witness :
  exists sorted,
    Site.sort_entries Sample.index_entries = Site.Sorted sorted
    /\ map Facts.record_id sorted = [Some (JStr "b"); Some (JStr "a"); Some (JStr "c")].
Proof.
  destruct (site_shows_newest_first Sample.index_entries)
    as (sorted & E & _).
  - repeat constructor; eexists; reflexivity.
  - exists sorted. split; [exact E|].
    vm_compute in E. injection E as <-. reflexivity.
Defined.

(** The scraper archives an entry whose [event_date] is null, and the
    site generator then cannot sort the index: the comparison of [None]
    with text raises, and no page is written for the subject. *)
Example null_date_breaks_the_site :
  match Scraper.process_entries Sample.runtime "Kid" "feeds" "images" "videos"
          [JDict [("object_id", JStr "1"); ("event_date", JNull)];
           JDict [("object_id", JStr "2"); ("event_date", JStr "2024-05-01T10:00:00Z")]]
          [] Sample.served with
  | (records, _, _) =>
      length records = 2%nat /\ Site.sort_entries records = Site.Raises TypeError
  end.
Proof. vm_compute. split; reflexivity. Qed.
